(** * ModelBasedPlanningContext: a shallow embedding

  Source: moveit_core/ompl_interface/src/parameterization/
          model_based_planning_context.cpp

  The planning context is a record of the member variables the code reads
  and writes.  The objects of other packages (OMPL, the kinematic
  constraints, the planning scene, boost's lexical cast) are an interface,
  [Collaborators]: what they return is given by the instance, and every
  call the context makes on an OMPL object is appended, in program order,
  to the call history kept in the context.  Dereferencing a null pointer
  and dividing an integer by zero are undefined behaviour in C++; the
  operations that can do so return a [Result]. *)

From Stdlib Require Import ZArith Bool List Ascii String SpecFloat Lia.
From stdpp Require Import base option list gmap strings.

Set Warnings "-register-all".

Open Scope Z_scope.

(** ** C++ [double]: IEEE 754 binary64, from the Standard Library's
  specification of floating-point arithmetic (round to nearest even). *)
Module Double.

Definition prec : Z := 53.
Definition emax : Z := 1024.

Definition double : Type := spec_float.

Definition of_Z (n : Z) : double := binary_normalize prec emax n 0 false.

Definition add : double -> double -> double := SFadd prec emax.
Definition sub : double -> double -> double := SFsub prec emax.
Definition mul : double -> double -> double := SFmul prec emax.
Definition div : double -> double -> double := SFdiv prec emax.

Definition zero : double := S754_zero false.
Definition half : double := Eval vm_compute in div (of_Z 1) (of_Z 2).

Definition is_zero (x : double) : bool :=
  match x with S754_zero _ => true | _ => false end.

Definition is_finite (x : double) : bool :=
  match x with S754_zero _ | S754_finite _ _ _ => true | _ => false end.

(** The signed integer [n] with [x = n * 2^e]. *)
Definition signed_mantissa (s : bool) (m : positive) : Z :=
  if s then Z.neg m else Z.pos m.

(** [floor] of <cmath>: the largest integral value not above [x]; zeros,
    infinities and NaN are returned as they are. *)
Definition floor (x : double) : double :=
  match x with
  | S754_finite s m e =>
      if 0 <=? e then x
      else
        let q := signed_mantissa s m / 2 ^ (- e) in
        if q =? 0 then S754_zero s else binary_normalize prec emax q 0 s
  | _ => x
  end.

(** The conversion [(std::size_t) x] (64 bits): the fractional part is
    discarded, and the behaviour is undefined ([None]) when the truncated
    value is not a [size_t], which includes the infinities and NaN. *)
Definition truncate (x : double) : option Z :=
  match x with
  | S754_zero _ => Some 0
  | S754_finite s m e =>
      Some (if 0 <=? e then signed_mantissa s m * 2 ^ e
            else Z.quot (signed_mantissa s m) (2 ^ (- e)))
  | _ => None
  end.

Definition to_size_t (x : double) : option Z :=
  match truncate x with
  | Some n => if (0 <=? n) && (n <? 2 ^ 64) then Some n else None
  | None => None
  end.

End Double.

Abbreviation double := Double.double.

(** ** boost::trim_copy, in the classic locale *)
Module BoostString.

(** [std::isspace]: space, \t, \n, \v, \f, \r. *)
Definition isspace (c : ascii) : bool :=
  let n := N_of_ascii c in
  (N.eqb n 32 || (N.leb 9 n && N.leb n 13))%bool.

Fixpoint trim_left (s : string) : string :=
  match s with
  | String c s' => if isspace c then trim_left s' else s
  | EmptyString => EmptyString
  end.

Fixpoint trim_right (s : string) : string :=
  match s with
  | EmptyString => EmptyString
  | String c s' =>
      match trim_right s' with
      | EmptyString => if isspace c then EmptyString else String c EmptyString
      | t => String c t
      end
  end.

Definition trim_copy (s : string) : string := trim_right (trim_left s).

End BoostString.

(** ** 32-bit integers of the code

    [count] is an [unsigned int]; [max_planning_threads_], declared in the
    header, is compared with [unsigned int] counters (lines 382, 385) and is
    read as one.  Both are values of [Z] in the range of the type. *)

Definition UINT_MAX : Z := 2 ^ 32 - 1.

Definition is_unsigned_int (z : Z) : Prop := 0 <= z <= UINT_MAX.

(** Conversion of an [unsigned int] to [int], as in [int n = count / ...]
    (line 376): the value modulo 2^32 in the range of [int] (two's
    complement; what every mainstream compiler does, and the rule of the
    language since C++20). *)
Definition to_int (z : Z) : Z :=
  let r := z mod 2 ^ 32 in
  if r <? 2 ^ 31 then r else r - 2 ^ 32.

(** ** The console (ROS_DEBUG, ROS_INFO, ROS_WARN, ROS_ERROR) *)

Inductive severity : Type := DEBUG | INFO | WARN | ERROR.

(** One constructor per logging statement of the file, with its arguments. *)
Inductive message : Type :=
| NoStateSpaceConfigured
| MaximumVelocitySet (name : string) (v : double)
| UnableToParseMaximumVelocity (name : string)
| MaximumAccelerationSet (name : string) (v : double)
| UnableToParseMaximumAcceleration (name : string)
| TypeNotSpecified (name : string)
| PlannerConfigurationWillUse (name type : string)
| UnableToConstructGoal
| NewPlanningContextIsSet (name : string)
| NoGoalConstraintsSpecified (name : string)
| SolvingOnce (name : string)
| SolvingTimes (name : string) (count : Z)
| SolutionIsApproximate
| Other (text : string).

Definition log_entry : Type := severity * message.

Definition is_warning (e : log_entry) : bool :=
  match fst e with WARN => true | _ => false end.

(** moveit_msgs::MoveItErrorCodes, the one value this file assigns. *)
Inductive MoveItErrorCodes : Type :=
| INVALID_GOAL_CONSTRAINTS
| OtherErrorCode (val : Z).

(** ** Undefined behaviour *)

Inductive fault : Type :=
| NullDereference
| DivisionByZero
| ConversionOutOfRange.

Inductive Result (A : Type) : Type :=
| Returns (a : A)
| Undefined (f : fault).

Arguments Returns {A} a.
Arguments Undefined {A} f.

(** ** The types of the other packages *)

Class ForeignTypes : Type := {
  (** ompl::base::ProjectionEvaluator *)
  ProjectionEvaluator : Type;
  (** KinematicModelStateSpace: the state space with its joint model group,
      kinematic model and IK allocators *)
  KinematicModelStateSpace : Type;
  (** planning_scene::PlanningScene *)
  PlanningScene : Type;
  (** planning_models::KinematicState *)
  KinematicState : Type;
  (** moveit_msgs::Constraints *)
  Constraints : Type;
  (** kinematic_constraints::KinematicConstraintSet *)
  KinematicConstraintSet : Type;
  (** kinematic_constraints::ConstraintSampler *)
  ConstraintSampler : Type;
  (** ompl::base::State *)
  State : Type;
  (** ompl::geometric::PathGeometric *)
  PathGeometric : Type;
  (** ConfiguredPlannerAllocator, the function held by the specification *)
  ConfiguredPlannerAllocator : Type;
}.

Section DataModel.

Context `{FT : ForeignTypes}.

(** ompl::base::Goal, as this file builds it: [ConstrainedGoalSampler] for
    one constraint set, [GoalSampleableRegionMux] over several goals. *)
Inductive Goal : Type :=
| ConstrainedGoalSampler (kset : KinematicConstraintSet) (cs : ConstraintSampler)
| GoalSampleableRegionMux (goals : list Goal).

(** [boost::bind(spec_.planner_allocator_, _1, type, cfg)]: the allocator
    with the planner type and the remaining parameters bound. *)
Record PlannerAllocator : Type := {
  bound_allocator : ConfiguredPlannerAllocator;
  bound_type : string;
  bound_config : gmap string string;
}.

(** A call on an OMPL object, with what it returned. *)
Inductive ompl_call : Type :=
| SimpleSetup_clear
| SimpleSetup_clearStartStates
| SpaceInformation_setup
| SpaceInformation_setParams (cfg : gmap string string) (ignoreUnknown : bool)
| StateSpace_registerDefaultProjection (pe : ProjectionEvaluator)
| PathGeometric_interpolate (count : Z)
| Goal_clearSolutionPaths
| Planner_clear
| Goal_startSampling
| Goal_stopSampling
| ProblemDefinition_fixInvalidInputStates (d1 d2 : double) (attempts : Z) (r : bool)
| SimpleSetup_solve (timeout : double) (r : bool)
| ParallelPlan_clearHybridizationPaths
| ParallelPlan_clearPlanners
| ParallelPlan_addPlannerAllocator (pa : PlannerAllocator)
| ParallelPlan_addPlanner (default_planner_for : option Goal)
| ParallelPlan_solve (timeout : double) (minSolCount maxSolCount : Z)
                     (hybridize : bool) (r : bool).

(** The member variables.  [simple_setup_goal] and
    [simple_setup_planner_allocator] are what [ompl_simple_setup_] holds
    behind [setGoal]/[getGoal] and
    [setPlannerAllocator]/[getPlannerAllocator]; [ompl_calls] is the
    history of the calls made on the OMPL objects, oldest first. *)
Record ModelBasedPlanningContext : Type := {
  spec_config_ : gmap string string;
  spec_planner_allocator_ : ConfiguredPlannerAllocator;
  name_ : string;
  ompl_state_space_ : option KinematicModelStateSpace;
  complete_initial_robot_state_ : KinematicState;
  planning_scene_ : option PlanningScene;
  path_constraints_ : option KinematicConstraintSet;
  goal_constraints_ : list KinematicConstraintSet;
  simple_setup_goal : option Goal;
  simple_setup_planner_allocator : option PlannerAllocator;
  last_plan_time_ : double;
  max_goal_samples_ : Z;
  max_sampling_attempts_ : Z;
  max_planning_threads_ : Z;
  max_velocity_ : double;
  max_acceleration_ : double;
  max_solution_segment_length_ : double;
  ompl_calls : list ompl_call;
  ros_log : list log_entry;
}.

End DataModel.

Arguments ModelBasedPlanningContext {FT}.
Arguments Goal {FT}.
Arguments PlannerAllocator {FT}.
Arguments ompl_call {FT}.

(** ** The functions of the other packages

    The functions of OMPL whose result depends on the state of OMPL's own
    objects take the history of the calls made so far. *)

Class Collaborators `{FT : ForeignTypes} : Type := {
  (** boost::lexical_cast<double>; [None] when it throws bad_lexical_cast *)
  lexical_cast_double : string -> option double;
  (** ModelBasedPlanningContext::getProjectionEvaluator, defined in another
      file: the evaluator (or null) and what it writes on the console *)
  getProjectionEvaluator :
    string -> option ProjectionEvaluator * list (severity * string);
  (** kinematic_constraints *)
  mergeConstraints : Constraints -> Constraints -> Constraints;
  new_KinematicConstraintSet : PlanningScene -> KinematicConstraintSet;
  KinematicConstraintSet_add :
    Constraints -> KinematicConstraintSet -> KinematicConstraintSet;
  KinematicConstraintSet_empty : KinematicConstraintSet -> bool;
  getAllConstraints : KinematicConstraintSet -> Constraints;
  constructConstraintsSampler :
    KinematicModelStateSpace -> PlanningScene -> Constraints -> ConstraintSampler;
  (** ompl::base::Goal *)
  hasType_GOAL_LAZY_SAMPLES : Goal -> bool;
  ConstrainedGoalSampler_isSatisfied :
    KinematicConstraintSet -> ConstraintSampler -> State -> bool;
  isApproximate : list ompl_call -> bool;
  (** ompl::geometric::SimpleSetup and its problem definition *)
  getSolutionPath : list ompl_call -> option PathGeometric;
  PathGeometric_length : PathGeometric -> double;
  getPlanner : list ompl_call -> bool;
  getMaximumExtent : list ompl_call -> double;
  fixInvalidInputStates_returns : list ompl_call -> double -> double -> Z -> bool;
  SimpleSetup_solve_returns : list ompl_call -> double -> bool;
  getLastPlanComputationTime : list ompl_call -> double;
  (** ompl::tools::ParallelPlan *)
  ParallelPlan_solve_returns : list ompl_call -> double -> Z -> Z -> bool -> bool;
  (** ompl::time::now, in seconds *)
  time_now : list ompl_call -> double;
}.

Section Operations.

Context `{FT : ForeignTypes} `{CO : !Collaborators}.

Abbreviation Context_ := (@ModelBasedPlanningContext FT).

(** *** Assignments to member variables *)

Definition set_planning_scene_ (v : option PlanningScene) (c : Context_) : Context_ :=
  {| spec_config_ := spec_config_ c;
     spec_planner_allocator_ := spec_planner_allocator_ c;
     name_ := name_ c;
     ompl_state_space_ := ompl_state_space_ c;
     complete_initial_robot_state_ := complete_initial_robot_state_ c;
     planning_scene_ := v;
     path_constraints_ := path_constraints_ c;
     goal_constraints_ := goal_constraints_ c;
     simple_setup_goal := simple_setup_goal c;
     simple_setup_planner_allocator := simple_setup_planner_allocator c;
     last_plan_time_ := last_plan_time_ c;
     max_goal_samples_ := max_goal_samples_ c;
     max_sampling_attempts_ := max_sampling_attempts_ c;
     max_planning_threads_ := max_planning_threads_ c;
     max_velocity_ := max_velocity_ c;
     max_acceleration_ := max_acceleration_ c;
     max_solution_segment_length_ := max_solution_segment_length_ c;
     ompl_calls := ompl_calls c;
     ros_log := ros_log c |}.

Definition set_complete_initial_robot_state_ (v : KinematicState) (c : Context_) : Context_ :=
  {| spec_config_ := spec_config_ c;
     spec_planner_allocator_ := spec_planner_allocator_ c;
     name_ := name_ c;
     ompl_state_space_ := ompl_state_space_ c;
     complete_initial_robot_state_ := v;
     planning_scene_ := planning_scene_ c;
     path_constraints_ := path_constraints_ c;
     goal_constraints_ := goal_constraints_ c;
     simple_setup_goal := simple_setup_goal c;
     simple_setup_planner_allocator := simple_setup_planner_allocator c;
     last_plan_time_ := last_plan_time_ c;
     max_goal_samples_ := max_goal_samples_ c;
     max_sampling_attempts_ := max_sampling_attempts_ c;
     max_planning_threads_ := max_planning_threads_ c;
     max_velocity_ := max_velocity_ c;
     max_acceleration_ := max_acceleration_ c;
     max_solution_segment_length_ := max_solution_segment_length_ c;
     ompl_calls := ompl_calls c;
     ros_log := ros_log c |}.

Definition set_path_constraints_ (v : option KinematicConstraintSet) (c : Context_) : Context_ :=
  {| spec_config_ := spec_config_ c;
     spec_planner_allocator_ := spec_planner_allocator_ c;
     name_ := name_ c;
     ompl_state_space_ := ompl_state_space_ c;
     complete_initial_robot_state_ := complete_initial_robot_state_ c;
     planning_scene_ := planning_scene_ c;
     path_constraints_ := v;
     goal_constraints_ := goal_constraints_ c;
     simple_setup_goal := simple_setup_goal c;
     simple_setup_planner_allocator := simple_setup_planner_allocator c;
     last_plan_time_ := last_plan_time_ c;
     max_goal_samples_ := max_goal_samples_ c;
     max_sampling_attempts_ := max_sampling_attempts_ c;
     max_planning_threads_ := max_planning_threads_ c;
     max_velocity_ := max_velocity_ c;
     max_acceleration_ := max_acceleration_ c;
     max_solution_segment_length_ := max_solution_segment_length_ c;
     ompl_calls := ompl_calls c;
     ros_log := ros_log c |}.

Definition set_goal_constraints_ (v : list KinematicConstraintSet) (c : Context_) : Context_ :=
  {| spec_config_ := spec_config_ c;
     spec_planner_allocator_ := spec_planner_allocator_ c;
     name_ := name_ c;
     ompl_state_space_ := ompl_state_space_ c;
     complete_initial_robot_state_ := complete_initial_robot_state_ c;
     planning_scene_ := planning_scene_ c;
     path_constraints_ := path_constraints_ c;
     goal_constraints_ := v;
     simple_setup_goal := simple_setup_goal c;
     simple_setup_planner_allocator := simple_setup_planner_allocator c;
     last_plan_time_ := last_plan_time_ c;
     max_goal_samples_ := max_goal_samples_ c;
     max_sampling_attempts_ := max_sampling_attempts_ c;
     max_planning_threads_ := max_planning_threads_ c;
     max_velocity_ := max_velocity_ c;
     max_acceleration_ := max_acceleration_ c;
     max_solution_segment_length_ := max_solution_segment_length_ c;
     ompl_calls := ompl_calls c;
     ros_log := ros_log c |}.

Definition set_simple_setup_goal (v : option Goal) (c : Context_) : Context_ :=
  {| spec_config_ := spec_config_ c;
     spec_planner_allocator_ := spec_planner_allocator_ c;
     name_ := name_ c;
     ompl_state_space_ := ompl_state_space_ c;
     complete_initial_robot_state_ := complete_initial_robot_state_ c;
     planning_scene_ := planning_scene_ c;
     path_constraints_ := path_constraints_ c;
     goal_constraints_ := goal_constraints_ c;
     simple_setup_goal := v;
     simple_setup_planner_allocator := simple_setup_planner_allocator c;
     last_plan_time_ := last_plan_time_ c;
     max_goal_samples_ := max_goal_samples_ c;
     max_sampling_attempts_ := max_sampling_attempts_ c;
     max_planning_threads_ := max_planning_threads_ c;
     max_velocity_ := max_velocity_ c;
     max_acceleration_ := max_acceleration_ c;
     max_solution_segment_length_ := max_solution_segment_length_ c;
     ompl_calls := ompl_calls c;
     ros_log := ros_log c |}.

Definition set_simple_setup_planner_allocator (v : option PlannerAllocator) (c : Context_) : Context_ :=
  {| spec_config_ := spec_config_ c;
     spec_planner_allocator_ := spec_planner_allocator_ c;
     name_ := name_ c;
     ompl_state_space_ := ompl_state_space_ c;
     complete_initial_robot_state_ := complete_initial_robot_state_ c;
     planning_scene_ := planning_scene_ c;
     path_constraints_ := path_constraints_ c;
     goal_constraints_ := goal_constraints_ c;
     simple_setup_goal := simple_setup_goal c;
     simple_setup_planner_allocator := v;
     last_plan_time_ := last_plan_time_ c;
     max_goal_samples_ := max_goal_samples_ c;
     max_sampling_attempts_ := max_sampling_attempts_ c;
     max_planning_threads_ := max_planning_threads_ c;
     max_velocity_ := max_velocity_ c;
     max_acceleration_ := max_acceleration_ c;
     max_solution_segment_length_ := max_solution_segment_length_ c;
     ompl_calls := ompl_calls c;
     ros_log := ros_log c |}.

Definition set_last_plan_time_ (v : double) (c : Context_) : Context_ :=
  {| spec_config_ := spec_config_ c;
     spec_planner_allocator_ := spec_planner_allocator_ c;
     name_ := name_ c;
     ompl_state_space_ := ompl_state_space_ c;
     complete_initial_robot_state_ := complete_initial_robot_state_ c;
     planning_scene_ := planning_scene_ c;
     path_constraints_ := path_constraints_ c;
     goal_constraints_ := goal_constraints_ c;
     simple_setup_goal := simple_setup_goal c;
     simple_setup_planner_allocator := simple_setup_planner_allocator c;
     last_plan_time_ := v;
     max_goal_samples_ := max_goal_samples_ c;
     max_sampling_attempts_ := max_sampling_attempts_ c;
     max_planning_threads_ := max_planning_threads_ c;
     max_velocity_ := max_velocity_ c;
     max_acceleration_ := max_acceleration_ c;
     max_solution_segment_length_ := max_solution_segment_length_ c;
     ompl_calls := ompl_calls c;
     ros_log := ros_log c |}.

Definition set_max_velocity_ (v : double) (c : Context_) : Context_ :=
  {| spec_config_ := spec_config_ c;
     spec_planner_allocator_ := spec_planner_allocator_ c;
     name_ := name_ c;
     ompl_state_space_ := ompl_state_space_ c;
     complete_initial_robot_state_ := complete_initial_robot_state_ c;
     planning_scene_ := planning_scene_ c;
     path_constraints_ := path_constraints_ c;
     goal_constraints_ := goal_constraints_ c;
     simple_setup_goal := simple_setup_goal c;
     simple_setup_planner_allocator := simple_setup_planner_allocator c;
     last_plan_time_ := last_plan_time_ c;
     max_goal_samples_ := max_goal_samples_ c;
     max_sampling_attempts_ := max_sampling_attempts_ c;
     max_planning_threads_ := max_planning_threads_ c;
     max_velocity_ := v;
     max_acceleration_ := max_acceleration_ c;
     max_solution_segment_length_ := max_solution_segment_length_ c;
     ompl_calls := ompl_calls c;
     ros_log := ros_log c |}.

Definition set_ompl_calls (v : list ompl_call) (c : Context_) : Context_ :=
  {| spec_config_ := spec_config_ c;
     spec_planner_allocator_ := spec_planner_allocator_ c;
     name_ := name_ c;
     ompl_state_space_ := ompl_state_space_ c;
     complete_initial_robot_state_ := complete_initial_robot_state_ c;
     planning_scene_ := planning_scene_ c;
     path_constraints_ := path_constraints_ c;
     goal_constraints_ := goal_constraints_ c;
     simple_setup_goal := simple_setup_goal c;
     simple_setup_planner_allocator := simple_setup_planner_allocator c;
     last_plan_time_ := last_plan_time_ c;
     max_goal_samples_ := max_goal_samples_ c;
     max_sampling_attempts_ := max_sampling_attempts_ c;
     max_planning_threads_ := max_planning_threads_ c;
     max_velocity_ := max_velocity_ c;
     max_acceleration_ := max_acceleration_ c;
     max_solution_segment_length_ := max_solution_segment_length_ c;
     ompl_calls := v;
     ros_log := ros_log c |}.

Definition set_ros_log (v : list log_entry) (c : Context_) : Context_ :=
  {| spec_config_ := spec_config_ c;
     spec_planner_allocator_ := spec_planner_allocator_ c;
     name_ := name_ c;
     ompl_state_space_ := ompl_state_space_ c;
     complete_initial_robot_state_ := complete_initial_robot_state_ c;
     planning_scene_ := planning_scene_ c;
     path_constraints_ := path_constraints_ c;
     goal_constraints_ := goal_constraints_ c;
     simple_setup_goal := simple_setup_goal c;
     simple_setup_planner_allocator := simple_setup_planner_allocator c;
     last_plan_time_ := last_plan_time_ c;
     max_goal_samples_ := max_goal_samples_ c;
     max_sampling_attempts_ := max_sampling_attempts_ c;
     max_planning_threads_ := max_planning_threads_ c;
     max_velocity_ := max_velocity_ c;
     max_acceleration_ := max_acceleration_ c;
     max_solution_segment_length_ := max_solution_segment_length_ c;
     ompl_calls := ompl_calls c;
     ros_log := v |}.

(** *** Member functions as state transformers that may be undefined *)

Definition M (A : Type) : Type := Context_ -> Result (A * Context_).

Definition ret {A : Type} (a : A) : M A := fun c => Returns (a, c).

Definition bind {A B : Type} (m : M A) (k : A -> M B) : M B :=
  fun c =>
    match m c with
    | Returns (a, c') => k a c'
    | Undefined f => Undefined f
    end.

Definition undefined {A : Type} (f : fault) : M A := fun _ => Undefined f.

(** Read a member variable. *)
Definition gets {A : Type} (field : Context_ -> A) : M A :=
  fun c => Returns (field c, c).

(** Assign a member variable. *)
Definition modify (f : Context_ -> Context_) : M unit :=
  fun c => Returns (tt, f c).

(** [p->...] on a pointer that may be null. *)
Definition deref {A : Type} (field : Context_ -> option A) : M A :=
  fun c =>
    match field c with
    | Some a => Returns (a, c)
    | None => Undefined NullDereference
    end.

(** A call on an OMPL object, recorded in the history. *)
Definition call (e : ompl_call) : M unit :=
  fun c => Returns (tt, set_ompl_calls (ompl_calls c ++ [e]) c).

(** A query answered by OMPL in its current state. *)
Definition ask {A : Type} (q : list ompl_call -> A) : M A :=
  fun c => Returns (q (ompl_calls c), c).

(** A call that returns a value: the answer is recorded with the call. *)
Definition call_returning (q : list ompl_call -> bool) (e : bool -> ompl_call) : M bool :=
  fun c =>
    let r := q (ompl_calls c) in
    Returns (r, set_ompl_calls (ompl_calls c ++ [e r]) c).

Definition ROS_LOG (s : severity) (m : message) : M unit :=
  fun c => Returns (tt, set_ros_log (ros_log c ++ [(s, m)]) c).

End Operations.

Declare Scope cxx_scope.
Delimit Scope cxx_scope with cxx.

Notation "'do' x <- m ; k" := (bind m (fun x => k))
  (at level 10, x name, m at level 100, k at level 200) : cxx_scope.
Notation "m >> k" := (bind m (fun _ => k))
  (at level 100, k at level 200, right associativity) : cxx_scope.

Open Scope cxx_scope.

Section MemberFunctions.

Context `{FT : ForeignTypes} `{CO : !Collaborators}.

(** [if (b) m;] *)
Definition when_ (b : bool) (m : M unit) : M unit := if b then m else ret tt.

(** [for (i = 0; i < n; ++i) body;] *)
Fixpoint for_ (n : nat) (body : M unit) : M unit :=
  match n with
  | O => ret tt
  | S n' => body >> for_ n' body
  end.

(** [for (i = 0; i < v.size(); ++i) body(v[i]);] *)
Fixpoint for_each {A : Type} (v : list A) (body : A -> M unit) : M unit :=
  match v with
  | [] => ret tt
  | x :: v' => body x >> for_each v' body
  end.

(** What a function of another file writes on the console. *)
Definition foreign_console (lines : list (severity * string)) : list log_entry :=
  map (fun l => (fst l, Other (snd l))) lines.

(** *** setProjectionEvaluator (lines 57-67) *)
Definition setProjectionEvaluator (peval : string) : M unit :=
  do space <- gets ompl_state_space_;
  match space with
  | None => ROS_LOG ERROR NoStateSpaceConfigured
  | Some _ =>
      let '(pe, console) := getProjectionEvaluator peval in
      modify (fun c => set_ros_log (ros_log c ++ foreign_console console) c) >>
      match pe with
      | Some pe => call (StateSpace_registerDefaultProjection pe)
      | None => ret tt
      end
  end.

(** *** useConfig (lines 89-152)

    Each block takes the working copy [cfg] of the configuration and
    returns it with the key it handles erased. *)

(** Lines 96-101: set the projection evaluator. *)
Definition useConfig_projection_evaluator (cfg : gmap string string)
    : M (gmap string string) :=
  match cfg !! "projection_evaluator" with
  | Some v =>
      setProjectionEvaluator (BoostString.trim_copy v) >>
      ret (delete "projection_evaluator" cfg)
  | None => ret cfg
  end.

(** Lines 103-116. *)
Definition useConfig_max_velocity (cfg : gmap string string)
    : M (gmap string string) :=
  match cfg !! "max_velocity" with
  | Some v =>
      do name <- gets name_;
      match lexical_cast_double (BoostString.trim_copy v) with
      | Some x =>
          modify (set_max_velocity_ x) >>
          do max_velocity <- gets max_velocity_;
          ROS_LOG INFO (MaximumVelocitySet name max_velocity)
      | None => ROS_LOG ERROR (UnableToParseMaximumVelocity name)
      end >>
      ret (delete "max_velocity" cfg)
  | None => ret cfg
  end.

(** Lines 118-131: the value is assigned to [max_velocity_] (line 123). *)
Definition useConfig_max_acceleration (cfg : gmap string string)
    : M (gmap string string) :=
  match cfg !! "max_acceleration" with
  | Some v =>
      do name <- gets name_;
      match lexical_cast_double (BoostString.trim_copy v) with
      | Some x =>
          modify (set_max_velocity_ x) >>
          do max_velocity <- gets max_velocity_;
          ROS_LOG INFO (MaximumAccelerationSet name max_velocity)
      | None => ROS_LOG ERROR (UnableToParseMaximumAcceleration name)
      end >>
      ret (delete "max_acceleration" cfg)
  | None => ret cfg
  end.

(** Lines 136-151: the planner and its parameters. *)
Definition useConfig_planner (cfg : gmap string string) : M unit :=
  do name <- gets name_;
  do cfg <-
    match cfg !! "type" with
    | None => ROS_LOG WARN (TypeNotSpecified name) >> ret cfg
    | Some type =>
        (* remove the 'type' parameter; the rest are parameters for the
           planner itself *)
        let cfg := delete "type" cfg in
        do allocator <- gets spec_planner_allocator_;
        modify (set_simple_setup_planner_allocator
                  (Some {| bound_allocator := allocator;
                           bound_type := type;
                           bound_config := cfg |})) >>
        ROS_LOG INFO (PlannerConfigurationWillUse name type) >>
        ret cfg
    end;
  (* call the setParams() after setup() *)
  call SpaceInformation_setup >>
  call (SpaceInformation_setParams cfg true).

Definition useConfig (config : gmap string string) : M unit :=
  if bool_decide (config = ∅) then ret tt else
  let cfg := config in
  do cfg <- useConfig_projection_evaluator cfg;
  do cfg <- useConfig_max_velocity cfg;
  do cfg <- useConfig_max_acceleration cfg;
  if bool_decide (cfg = ∅) then ret tt else
  useConfig_planner cfg.

(** *** interpolateSolution (lines 169-176)

    The argument of [interpolate] is recorded as the [std::size_t] the code
    computes. *)
Definition interpolateSolution : M unit :=
  do solution <- ask getSolutionPath;
  match solution with
  | Some pg =>
      do max_solution_segment_length <- gets max_solution_segment_length_;
      let states :=
        Double.floor
          (Double.add Double.half
             (Double.div (PathGeometric_length pg) max_solution_segment_length)) in
      match Double.to_size_t states with
      | Some n => call (PathGeometric_interpolate n)
      | None => undefined ConversionOutOfRange
      end
  | None => ret tt
  end.

(** *** constructGoal (lines 235-256) *)

(** The loop of lines 240-247, with [goals] the vector built so far. *)
Fixpoint constructGoal_loop (constraints : list KinematicConstraintSet)
    (goals : list Goal) : M (list Goal) :=
  match constraints with
  | [] => ret goals
  | kset :: rest =>
      do space <- deref ompl_state_space_;
      do scene <- deref planning_scene_;
      let cs := constructConstraintsSampler space scene (getAllConstraints kset) in
      let g := ConstrainedGoalSampler kset cs in
      constructGoal_loop rest (goals ++ [g])
  end.

Definition constructGoal : M (option Goal) :=
  do constraints <- gets goal_constraints_;
  do goals <- constructGoal_loop constraints [];
  match goals with
  | [] =>
      ROS_LOG ERROR UnableToConstructGoal >>
      do name <- gets name_;
      ROS_LOG DEBUG (NewPlanningContextIsSet name) >>
      ret None
  | [g] => ret (Some g)
  | _ => ret (Some (GoalSampleableRegionMux goals))
  end.

(** *** clear, setPlanningScene, setStartState (lines 258-277) *)
Definition clear : M unit :=
  call SimpleSetup_clear >>
  call SimpleSetup_clearStartStates >>
  modify (set_simple_setup_goal None) >>
  modify (set_path_constraints_ None) >>
  modify (set_goal_constraints_ []).

Definition setPlanningScene (planning_scene : option PlanningScene) : M unit :=
  clear >>
  modify (set_planning_scene_ planning_scene).

Definition setStartState (complete_initial_robot_state : KinematicState) : M unit :=
  clear >>
  modify (set_complete_initial_robot_state_ complete_initial_robot_state).

(** *** setPlanningConstraints (lines 279-312) *)

(** The body of the loop, lines 288-292. *)
Definition setPlanningConstraints_store (path_constraints goal_constraint : Constraints)
    : M unit :=
  let constr := mergeConstraints goal_constraint path_constraints in
  do scene <- deref planning_scene_;
  let kset := KinematicConstraintSet_add constr (new_KinematicConstraintSet scene) in
  when_ (negb (KinematicConstraintSet_empty kset))
    (modify (fun c => set_goal_constraints_ (goal_constraints_ c ++ [kset]) c)).

(** [error] is the pointee of the [error] pointer, [None] for a null
    pointer; the function returns its result and the pointee afterwards. *)
Definition setPlanningConstraints (goal_constraints : list Constraints)
    (path_constraints : Constraints) (error : option MoveItErrorCodes)
    : M (bool * option MoveItErrorCodes) :=
  (* check if the input is correct *)
  modify (set_goal_constraints_ []) >>
  for_each goal_constraints (setPlanningConstraints_store path_constraints) >>
  do stored <- gets goal_constraints_;
  match stored with
  | [] =>
      do name <- gets name_;
      ROS_LOG WARN (NoGoalConstraintsSpecified name) >>
      ret (false, match error with
                  | Some _ => Some INVALID_GOAL_CONSTRAINTS
                  | None => None
                  end)
  | _ =>
      (* set the path constraints to use *)
      do scene <- deref planning_scene_;
      modify (set_path_constraints_
                (Some (KinematicConstraintSet_add path_constraints
                         (new_KinematicConstraintSet scene)))) >>
      do goal <- constructGoal;
      modify (set_simple_setup_goal goal) >>
      match goal with
      | Some _ => ret (true, error)
      | None => ret (false, error)
      end
  end.

(** *** solve (lines 331-415)

    The profiler block of line 333 is not part of the model. *)

(** [a / b] and [a % b] on [unsigned int]: undefined for [b == 0]. *)
Definition unsigned_div (a b : Z) : M Z :=
  if b =? 0 then undefined DivisionByZero else ret (a / b).

Definition unsigned_mod (a b : Z) : M Z :=
  if b =? 0 then undefined DivisionByZero else ret (a mod b).

(** Filling the pool of the parallel plan with [n] planners (lines 363-368,
    381-386 and 394-399): from the planner allocator when one is set,
    otherwise the default planner for the goal. *)
Definition addPlanners (n : nat) : M unit :=
  do allocator <- gets simple_setup_planner_allocator;
  match allocator with
  | Some allocator => for_ n (call (ParallelPlan_addPlannerAllocator allocator))
  | None =>
      for_ n (do goal <- gets simple_setup_goal;
              call (ParallelPlan_addPlanner goal))
  end.

Definition ParallelPlan_solve_ (timeout : double) (minSolCount maxSolCount : Z)
    (hybridize : bool) : M bool :=
  call_returning
    (fun h => ParallelPlan_solve_returns h timeout minSolCount maxSolCount hybridize)
    (ParallelPlan_solve timeout minSolCount maxSolCount hybridize).

Definition fixInvalidInputStates (d1 d2 : double) (attempts : Z) : M bool :=
  call_returning
    (fun h => fixInvalidInputStates_returns h d1 d2 attempts)
    (ProblemDefinition_fixInvalidInputStates d1 d2 attempts).

(** [count <= 1] (lines 352-354). *)
Definition solve_once (timeout : double) : M bool :=
  do name <- gets name_;
  ROS_LOG DEBUG (SolvingOnce name) >>
  do result <- call_returning (fun h => SimpleSetup_solve_returns h timeout)
                              (SimpleSetup_solve timeout);
  do t <- ask getLastPlanComputationTime;
  modify (set_last_plan_time_ t) >>
  ret result.

(** [count <= max_planning_threads_] (lines 362-371). *)
Definition solve_one_round (timeout : double) (count : Z) : M bool :=
  call ParallelPlan_clearPlanners >>
  addPlanners (Z.to_nat count) >>
  do start <- ask time_now;
  do result <- ParallelPlan_solve_ timeout 1 count true;
  do now <- ask time_now;
  modify (set_last_plan_time_ (Double.sub now start)) >>
  ret result.

(** The loop of lines 378-389: [n] rounds are left to run and [result] is
    the conjunction so far. *)
Fixpoint solve_full_rounds (n : nat) (timeout : double) (result : bool) : M bool :=
  match n with
  | O => ret result
  | S n' =>
      call ParallelPlan_clearPlanners >>
      do max_planning_threads <- gets max_planning_threads_;
      addPlanners (Z.to_nat max_planning_threads) >>
      do r <- ParallelPlan_solve_ timeout 1 max_planning_threads true;
      solve_full_rounds n' timeout (result && r)
  end.

(** The last round of lines 390-402, with [n] planners. *)
Definition solve_partial_round (n : Z) (timeout : double) (result : bool) : M bool :=
  if n =? 0 then ret result
  else
    call ParallelPlan_clearPlanners >>
    addPlanners (Z.to_nat n) >>
    do r <- ParallelPlan_solve_ timeout 1 n true;
    ret (result && r).

(** [count > max_planning_threads_] (lines 375-403).  The two quotients are
    [unsigned int] and are stored in the [int] variable [n]. *)
Definition solve_in_rounds (timeout : double) (count : Z) : M bool :=
  do start <- ask time_now;
  do max_planning_threads <- gets max_planning_threads_;
  do q <- unsigned_div count max_planning_threads;
  let n := to_int q in
  let result := true in
  do result <- solve_full_rounds (Z.to_nat n) timeout result;
  do q <- unsigned_mod count max_planning_threads;
  let n := to_int q in
  do result <- solve_partial_round n timeout result;
  do now <- ask time_now;
  modify (set_last_plan_time_ (Double.sub now start)) >>
  ret result.

(** Lines 350-405. *)
Definition solve_dispatch (timeout : double) (count : Z) : M bool :=
  if count <=? 1 then solve_once timeout
  else
    do name <- gets name_;
    ROS_LOG DEBUG (SolvingTimes name count) >>
    call ParallelPlan_clearHybridizationPaths >>
    do max_planning_threads <- gets max_planning_threads_;
    if count <=? max_planning_threads then solve_one_round timeout count
    else solve_in_rounds timeout count.

(** Lines 335-347: what is done before solving; returns [gls]. *)
Definition solve_prepare : M bool :=
  do _ <- deref simple_setup_goal;
  call Goal_clearSolutionPaths >>
  do planner <- ask getPlanner;
  when_ planner (call Planner_clear) >>
  do goal <- deref simple_setup_goal;
  let gls := hasType_GOAL_LAZY_SAMPLES goal in
  (* just in case sampling is not started *)
  when_ gls (call Goal_startSampling) >>
  (* try to fix invalid input states, if any *)
  do extent <- ask getMaximumExtent;
  let d := Double.div extent (Double.of_Z 1000) in
  do fixed <- fixInvalidInputStates d d 100;
  when_ (negb fixed)
    (let d10 := Double.mul d (Double.of_Z 10) in
     fixInvalidInputStates d10 d10 100 >> ret tt) >>
  ret gls.

(** Lines 407-414: what is done after solving. *)
Definition solve_finish (gls result : bool) : M bool :=
  (* just in case we need to stop sampling *)
  when_ gls (call Goal_stopSampling) >>
  do _ <- deref simple_setup_goal;
  do approximate <- ask isApproximate;
  when_ approximate (ROS_LOG WARN SolutionIsApproximate) >>
  ret result.

Definition solve (timeout : double) (count : Z) : M bool :=
  do gls <- solve_prepare;
  do result <- solve_dispatch timeout count;
  solve_finish gls result.

(** ** Observations on a context and on a call history *)

(** Modelled from the spec: the satisfaction test of the composite goal.
    The class GoalSampleableRegionMux (ompl_interface/detail/goal_union.h)
    is not among the sources; the spec (section 4.2) says that the
    composite treats its regions as alternatives, any one being satisfied
    satisfies the composite. *)
Fixpoint isSatisfied (g : Goal) (st : State) : bool :=
  match g with
  | ConstrainedGoalSampler kset cs => ConstrainedGoalSampler_isSatisfied kset cs st
  | GoalSampleableRegionMux goals => existsb (fun g' => isSatisfied g' st) goals
  end.

(** One round of the parallel plan: a call of ParallelPlan::solve, with the
    number of planners put in the pool since it was last cleared. *)
Record round : Type := {
  round_planners : Z;
  round_timeout : double;
  round_result : bool;
}.

Fixpoint rounds_from (planners : Z) (calls : list ompl_call) : list round :=
  match calls with
  | [] => []
  | ParallelPlan_clearPlanners :: calls' => rounds_from 0 calls'
  | ParallelPlan_addPlannerAllocator _ :: calls' => rounds_from (planners + 1) calls'
  | ParallelPlan_addPlanner _ :: calls' => rounds_from (planners + 1) calls'
  | ParallelPlan_solve timeout _ _ _ r :: calls' =>
      {| round_planners := planners; round_timeout := timeout; round_result := r |}
        :: rounds_from planners calls'
  | _ :: calls' => rounds_from planners calls'
  end.

Definition rounds (calls : list ompl_call) : list round := rounds_from 0 calls.

Definition is_solve_call (e : ompl_call) : bool :=
  match e with
  | SimpleSetup_solve _ _ | ParallelPlan_solve _ _ _ _ _ => true
  | _ => false
  end.

Definition is_sampling_call (e : ompl_call) : bool :=
  match e with
  | Goal_startSampling | Goal_stopSampling => true
  | _ => false
  end.

(** Whether the goal's sampling thread runs after [calls], given whether it
    ran before. *)
Definition sampling_after (running : bool) (calls : list ompl_call) : bool :=
  fold_left (fun running e =>
               match e with
               | Goal_startSampling => true
               | Goal_stopSampling => false
               | _ => running
               end) calls running.

End MemberFunctions.

(** ** Histories of calls of the public member functions *)

Section Histories.

Context `{FT : ForeignTypes} `{CO : !Collaborators}.

Inductive api_call : Type :=
| call_useConfig (config : gmap string string)
| call_interpolateSolution
| call_setPlanningScene (planning_scene : option PlanningScene)
| call_setStartState (complete_initial_robot_state : KinematicState)
| call_clear
| call_setPlanningConstraints (goal_constraints : list Constraints)
    (path_constraints : Constraints) (error : option MoveItErrorCodes)
| call_solve (timeout : double) (count : Z).

(** The call, returning its boolean result ([true] for a [void] function). *)
Definition perform (a : api_call) : M bool :=
  match a with
  | call_useConfig config => useConfig config >> ret true
  | call_interpolateSolution => interpolateSolution >> ret true
  | call_setPlanningScene planning_scene => setPlanningScene planning_scene >> ret true
  | call_setStartState s => setStartState s >> ret true
  | call_clear => clear >> ret true
  | call_setPlanningConstraints goal_constraints path_constraints error =>
      do r <- setPlanningConstraints goal_constraints path_constraints error;
      ret (fst r)
  | call_solve timeout count => solve timeout count
  end.

Fixpoint perform_all (calls : list api_call) : M (list bool) :=
  match calls with
  | [] => ret []
  | a :: calls' =>
      do r <- perform a;
      do rs <- perform_all calls';
      ret (r :: rs)
  end.

(** Whether a successful setPlanningConstraints has been made with no
    clear() since (setPlanningScene and setStartState call clear()), given
    whether that was so before the calls; [results] are the results of
    [calls]. *)
Definition installed_after (installed : bool) (a : api_call) (r : bool) : bool :=
  match a with
  | call_clear | call_setPlanningScene _ | call_setStartState _ => false
  | call_setPlanningConstraints _ _ _ => r || installed
  | _ => installed
  end.

Fixpoint goal_installed (installed : bool) (calls : list api_call)
    (results : list bool) : bool :=
  match calls, results with
  | a :: calls', r :: results' =>
      goal_installed (installed_after installed a r) calls' results'
  | _, _ => installed
  end.

End Histories.

(** ** A small instance of the collaborators, to run the model

    Constraints are lists of names, a constraint set is the list of the
    constraints added to it, a state is the list of the constraints it
    satisfies and a path is its list of states.  The sequential solver
    succeeds when the time limit is positive; a parallel round succeeds when
    moreover its pool holds at least two planners.  [lexical_cast_double] reads plain decimal
    literals (an optional sign, digits, an optional fractional part) whose
    digits form a number below 2^53, for which one division gives the
    correctly rounded value, and rejects every other string. *)
Module Example.

Definition digit (c : ascii) : option Z :=
  let n := N_of_ascii c in
  if (N.leb 48 n && N.leb n 57)%bool then Some (Z.of_N n - 48) else None.

(** [digits s m k point n]: the digits of [s] appended to the mantissa [m]
    with scale [k]; [point] tells whether the decimal point has been read and
    [n] counts the digits. *)
Fixpoint digits (s : string) (m k : Z) (point : bool) (n : nat) : option (Z * Z) :=
  match s with
  | EmptyString => if Nat.eqb n 0 then None else Some (m, k)
  | String c s' =>
      if Ascii.eqb c "." then
        if point then None else digits s' m k true n
      else
        match digit c with
        | Some d => digits s' (10 * m + d) (if point then 10 * k else k) point (S n)
        | None => None
        end
  end.

Definition unsigned_literal (s : string) : option double :=
  match digits s 0 1 false 0 with
  | Some (m, k) =>
      if (m <? 2 ^ 53) && (k <=? 10 ^ 22)
      then Some (Double.div (Double.of_Z m) (Double.of_Z k))
      else None
  | None => None
  end.

Definition decimal_literal (s : string) : option double :=
  match s with
  | String c s' =>
      if Ascii.eqb c "-" then SFopp <$> unsigned_literal s'
      else if Ascii.eqb c "+" then unsigned_literal s'
      else unsigned_literal s
  | EmptyString => None
  end.

#[export] Instance types : ForeignTypes := {|
  ProjectionEvaluator := string;
  KinematicModelStateSpace := unit;
  PlanningScene := unit;
  KinematicState := unit;
  Constraints := list string;
  KinematicConstraintSet := list string;
  ConstraintSampler := list string;
  State := list string;
  PathGeometric := list (list string);
  ConfiguredPlannerAllocator := unit;
|}.

Definition satisfies (st : list string) (name : string) : bool :=
  existsb (String.eqb name) st.

Definition positive_timeout (timeout : double) : bool :=
  match timeout with
  | S754_finite false _ _ | S754_infinity false => true
  | _ => false
  end.

Definition solved (h : list (@ompl_call types)) : bool :=
  existsb (fun e => match e with
                    | SimpleSetup_solve _ r | ParallelPlan_solve _ _ _ _ r => r
                    | _ => false
                    end) h.

(** The number of planners in the pool of the parallel plan. *)
Definition pool (h : list (@ompl_call types)) : Z :=
  fold_left (fun n e => match e with
                        | ParallelPlan_clearPlanners => 0
                        | ParallelPlan_addPlannerAllocator _
                        | ParallelPlan_addPlanner _ => n + 1
                        | _ => n
                        end) h 0.

#[export] Instance collaborators : @Collaborators types := {|
  lexical_cast_double := decimal_literal;
  getProjectionEvaluator := fun peval => (Some peval, []);
  mergeConstraints := fun (a b : list string) => a ++ b;
  new_KinematicConstraintSet := fun _ => [];
  KinematicConstraintSet_add := fun (c k : list string) => k ++ c;
  KinematicConstraintSet_empty := fun (k : list string) =>
    match k with [] => true | _ => false end;
  getAllConstraints := fun (k : list string) => k;
  constructConstraintsSampler := fun _ _ (c : list string) => c;
  hasType_GOAL_LAZY_SAMPLES := fun g =>
    match g with ConstrainedGoalSampler _ _ => true | _ => false end;
  ConstrainedGoalSampler_isSatisfied := fun (k _ st : list string) =>
    forallb (satisfies st) k;
  isApproximate := fun _ => false;
  getSolutionPath := fun h => if solved h then Some [[]; []] else None;
  PathGeometric_length := fun pg => Double.of_Z (Z.of_nat (length pg) - 1);
  getPlanner := fun h => existsb is_solve_call h;
  getMaximumExtent := fun _ => Double.of_Z 1;
  fixInvalidInputStates_returns := fun _ _ _ _ => true;
  SimpleSetup_solve_returns := fun _ timeout => positive_timeout timeout;
  getLastPlanComputationTime := fun _ => Double.zero;
  ParallelPlan_solve_returns := fun h timeout _ _ _ =>
    positive_timeout timeout && (2 <=? pool h);
  time_now := fun h => Double.of_Z (Z.of_nat (length h));
|}.

(** The context as the constructor leaves it (lines 47-55), for a specification
    with the configuration [config]. *)
Definition constructed (config : gmap string string) : @ModelBasedPlanningContext types := {|
  spec_config_ := config;
  spec_planner_allocator_ := tt;
  name_ := "arm";
  ompl_state_space_ := Some tt;
  complete_initial_robot_state_ := tt;
  planning_scene_ := None;
  path_constraints_ := None;
  goal_constraints_ := [];
  simple_setup_goal := None;
  simple_setup_planner_allocator := None;
  last_plan_time_ := Double.zero;
  max_goal_samples_ := 0;
  max_sampling_attempts_ := 0;
  max_planning_threads_ := 0;
  max_velocity_ := Double.zero;
  max_acceleration_ := Double.zero;
  max_solution_segment_length_ := Double.zero;
  ompl_calls := [];
  ros_log := [];
|}.

(** setMaximumPlanningThreads, declared in the header. *)
Definition with_max_planning_threads (n : Z)
    (c : @ModelBasedPlanningContext types) : @ModelBasedPlanningContext types := {|
  spec_config_ := spec_config_ c;
  spec_planner_allocator_ := spec_planner_allocator_ c;
  name_ := name_ c;
  ompl_state_space_ := ompl_state_space_ c;
  complete_initial_robot_state_ := complete_initial_robot_state_ c;
  planning_scene_ := planning_scene_ c;
  path_constraints_ := path_constraints_ c;
  goal_constraints_ := goal_constraints_ c;
  simple_setup_goal := simple_setup_goal c;
  simple_setup_planner_allocator := simple_setup_planner_allocator c;
  last_plan_time_ := last_plan_time_ c;
  max_goal_samples_ := max_goal_samples_ c;
  max_sampling_attempts_ := max_sampling_attempts_ c;
  max_planning_threads_ := n;
  max_velocity_ := max_velocity_ c;
  max_acceleration_ := max_acceleration_ c;
  max_solution_segment_length_ := max_solution_segment_length_ c;
  ompl_calls := ompl_calls c;
  ros_log := ros_log c;
|}.

(** The context after a history of calls ([c] itself if the history is
    undefined). *)
Definition after (history : list api_call)
    (c : @ModelBasedPlanningContext types) : @ModelBasedPlanningContext types :=
  match perform_all history c with
  | Returns (_, c') => c'
  | Undefined _ => c
  end.

(** A context with a scene, path constraints and two alternative goals. *)
Definition planned : @ModelBasedPlanningContext types :=
  after [call_setPlanningScene (Some tt);
         call_setPlanningConstraints [["tip at target"]; ["elbow up"]] ["upright"] None]
        (constructed ∅).

(** A context with a scene and one goal, which samples lazily. *)
Definition planned_one_goal : @ModelBasedPlanningContext types :=
  after [call_setPlanningScene (Some tt);
         call_setPlanningConstraints [["tip at target"]] [] None]
        (constructed ∅).

End Example.

(** ** Vocabulary of the statements *)

Section Vocabulary.

Context `{FT : ForeignTypes} `{CO : !Collaborators}.

(** [post m c Q E]: run from the context [c], the member function [m]
    either returns a result and a context that satisfy [Q], or its behaviour
    is undefined by a fault that satisfies [E].  With [E] empty, [m]
    returns. *)
Definition post {A : Type} (m : M A) (c : ModelBasedPlanningContext)
    (Q : A -> ModelBasedPlanningContext -> Prop) (E : fault -> Prop) : Prop :=
  match m c with
  | Returns (a, c') => Q a c'
  | Undefined f => E f
  end.

Definition no_fault : fault -> Prop := fun _ => False.
Definition any_fault : fault -> Prop := fun _ => True.

(** Whether the problem has a goal ([getGoal()] is not null). *)
Definition has_goal (c : ModelBasedPlanningContext) : bool :=
  match simple_setup_goal c with Some _ => true | None => false end.

(** The working copy of the configuration once the keys of the projection
    evaluator and of the two limits are erased (lines 96-131). *)
Definition residual (config : gmap string string) : gmap string string :=
  delete "max_acceleration" (delete "max_velocity" (delete "projection_evaluator" config)).

(** The value of [max_velocity_] after lines 103-131. *)
Definition velocity_after (config : gmap string string)
    (c : ModelBasedPlanningContext) : double :=
  let after_max_velocity :=
    match config !! "max_velocity" with
    | Some v => default (max_velocity_ c) (lexical_cast_double (BoostString.trim_copy v))
    | None => max_velocity_ c
    end in
  match config !! "max_acceleration" with
  | Some v => default after_max_velocity (lexical_cast_double (BoostString.trim_copy v))
  | None => after_max_velocity
  end.

(** The warning of line 138. *)
Definition is_type_warning (e : log_entry) : bool :=
  match e with
  | (WARN, TypeNotSpecified _) => true
  | _ => false
  end.

(** What lines 96-131 may change between the contexts [c] and [c']: the two
    limits are not mentioned, the planner allocator is kept and the console
    receives lines other than the warning about the planner type. *)
Definition extraction_step (c c' : ModelBasedPlanningContext) : Prop :=
  name_ c' = name_ c /\
  simple_setup_planner_allocator c' = simple_setup_planner_allocator c /\
  exists entries, ros_log c' = ros_log c ++ entries /\
                  forallb (fun e => negb (is_type_warning e)) entries = true.

(** The constraint set built for one goal constraint (lines 288-290). *)
Definition constraint_set (scene : PlanningScene) (path_constraints goal_constraint : Constraints)
    : KinematicConstraintSet :=
  KinematicConstraintSet_add (mergeConstraints goal_constraint path_constraints)
    (new_KinematicConstraintSet scene).

(** The goal constraint normalizes to an empty set in the scene of [c]. *)
Definition normalizes_to_empty (c : ModelBasedPlanningContext)
    (path_constraints goal_constraint : Constraints) : Prop :=
  exists scene, planning_scene_ c = Some scene /\
    KinematicConstraintSet_empty (constraint_set scene path_constraints goal_constraint) = true.

(** The constraint sets that line 292 stores. *)
Definition stored_sets (scene : PlanningScene) (path_constraints : Constraints)
    (goal_constraints : list Constraints) : list KinematicConstraintSet :=
  List.filter (fun kset => negb (KinematicConstraintSet_empty kset))
    (map (constraint_set scene path_constraints) goal_constraints).

(** The goal region built for one constraint set (lines 242-245). *)
Definition region (space : KinematicModelStateSpace) (scene : PlanningScene)
    (kset : KinematicConstraintSet) : Goal :=
  ConstrainedGoalSampler kset
    (constructConstraintsSampler space scene (getAllConstraints kset)).

(** The calls of the parallel plan that [rounds] reads. *)
Definition is_pool_call (e : ompl_call) : bool :=
  match e with
  | ParallelPlan_clearPlanners | ParallelPlan_addPlannerAllocator _
  | ParallelPlan_addPlanner _ | ParallelPlan_solve _ _ _ _ _ => true
  | _ => false
  end.

(** The call that puts one planner in the pool (lines 363-368). *)
Definition planner_source (c : ModelBasedPlanningContext) : ompl_call :=
  match simple_setup_planner_allocator c with
  | Some allocator => ParallelPlan_addPlannerAllocator allocator
  | None => ParallelPlan_addPlanner (simple_setup_goal c)
  end.

(** The number of planners in the pool after [calls]. *)
Fixpoint pool_from (planners : Z) (calls : list ompl_call) : Z :=
  match calls with
  | [] => planners
  | ParallelPlan_clearPlanners :: calls' => pool_from 0 calls'
  | ParallelPlan_addPlannerAllocator _ :: calls' => pool_from (planners + 1) calls'
  | ParallelPlan_addPlanner _ :: calls' => pool_from (planners + 1) calls'
  | _ :: calls' => pool_from planners calls'
  end.

(** The calls of one round: the pool is cleared, filled with [n] planners
    and solved. *)
Definition round_calls (c : ModelBasedPlanningContext) (n : nat) (timeout : double)
    (maxSolCount : Z) (r : bool) : list ompl_call :=
  ParallelPlan_clearPlanners ::
  replicate n (planner_source c) ++ [ParallelPlan_solve timeout 1 maxSolCount true r].

(** The calls made before solving (lines 335-347), the sampling apart. *)
Definition is_preparation (e : ompl_call) : bool :=
  match e with
  | Goal_clearSolutionPaths | Planner_clear
  | ProblemDefinition_fixInvalidInputStates _ _ _ _ => true
  | _ => false
  end.

(** The rounds that the spec describes for [count] attempts with
    [threads] planners at a time: the full rounds, then the round of the
    remainder unless it is zero, all with the same time limit. *)
Definition expected_rounds (count threads : Z) (timeout : double) : list (Z * double) :=
  replicate (Z.to_nat (count / threads)) (threads, timeout) ++
  (if count mod threads =? 0 then [] else [(count mod threads, timeout)]).

(** The calls on the sampling of goals: none, or a start, or a stop. *)
Definition sampling_call (gls : bool) (e : ompl_call) : list ompl_call :=
  if gls then [e] else [].

(** A call that neither solves nor starts or stops the sampling of goals. *)
Definition is_quiet (e : ompl_call) : bool :=
  negb (is_solve_call e) && negb (is_sampling_call e).

Definition round_size_and_timeout (r : round) : Z * double :=
  (round_planners r, round_timeout r).

Definition INT_MAX : Z := 2 ^ 31 - 1.

End Vocabulary.

(** ** Further vocabulary: the configuration *)

Section ConfigurationVocabulary.

Context `{FT : ForeignTypes} `{CO : !Collaborators}.

(** The call that lines 96-101 make on the state space: the registration of
    the projection evaluator named by the key, when the state space is set
    and the evaluator is found. *)
Definition projection_calls (config : gmap string string)
    (c : ModelBasedPlanningContext) : list ompl_call :=
  match config !! "projection_evaluator", ompl_state_space_ c with
  | Some v, Some _ =>
      match fst (getProjectionEvaluator (BoostString.trim_copy v)) with
      | Some pe => [StateSpace_registerDefaultProjection pe]
      | None => []
      end
  | _, _ => []
  end.

(** The parameters left for the planner (line 143). *)
Definition planner_parameters (config : gmap string string) : gmap string string :=
  delete "type" (residual config).

(** The calls of lines 150-151. *)
Definition parameter_calls (config : gmap string string) : list ompl_call :=
  if bool_decide (residual config = ∅) then []
  else [SpaceInformation_setup;
        SpaceInformation_setParams (planner_parameters config) true].

(** [c'] is [c] but for the velocity limit, the planner allocator of the
    simple setup, the history of OMPL calls and the console. *)
Definition configuration_frame (c c' : ModelBasedPlanningContext) : Prop :=
  c' = set_ros_log (ros_log c')
         (set_ompl_calls (ompl_calls c')
            (set_simple_setup_planner_allocator (simple_setup_planner_allocator c')
               (set_max_velocity_ (max_velocity_ c') c))).

End ConfigurationVocabulary.

(** ** Further vocabulary: solve *)

Section SolveVocabulary.

Context `{FT : ForeignTypes} `{CO : !Collaborators}.

(** The repair of the input states (lines 345-347), made when the history
    of OMPL calls is [h]: one call with the tolerance [d], the thousandth of
    the extent of the space, and, if it fails, one with ten times [d]. *)
Definition repair_calls (h : list ompl_call) : list ompl_call :=
  let d := Double.div (getMaximumExtent h) (Double.of_Z 1000) in
  let fixed := fixInvalidInputStates_returns h d d 100 in
  let first := ProblemDefinition_fixInvalidInputStates d d 100 fixed in
  if fixed then [first]
  else
    let d10 := Double.mul d (Double.of_Z 10) in
    [first;
     ProblemDefinition_fixInvalidInputStates d10 d10 100
       (fixInvalidInputStates_returns (h ++ [first]) d10 d10 100)].

(** The calls that solve makes before it dispatches (lines 335-347). *)
Definition prepare_calls (c : ModelBasedPlanningContext) (goal : Goal) : list ompl_call :=
  let cleared := [Goal_clearSolutionPaths] in
  let planner :=
    if getPlanner (ompl_calls c ++ cleared) then [Planner_clear] else [] in
  let started := sampling_call (hasType_GOAL_LAZY_SAMPLES goal) Goal_startSampling in
  cleared ++ planner ++ started ++
  repair_calls (ompl_calls c ++ cleared ++ planner ++ started).

(** The calls of the dispatch (lines 350-405) and its result, for [count]
    attempts from the context [c]. *)
Definition dispatch_work (c : ModelBasedPlanningContext) (timeout : double) (count : Z)
    (result : bool) (work : list ompl_call) : Prop :=
  let threads := max_planning_threads_ c in
  if count <=? 1 then work = [SimpleSetup_solve timeout result]
  else if count <=? threads then
    work = ParallelPlan_clearHybridizationPaths ::
           round_calls c (Z.to_nat count) timeout count result
  else
    exists (results : list bool) (last : list ompl_call),
      work = ParallelPlan_clearHybridizationPaths ::
             flat_map (round_calls c (Z.to_nat threads) timeout threads) results ++ last /\
      length results = Z.to_nat (to_int (count / threads)) /\
      let n := to_int (count mod threads) in
      if n =? 0 then last = [] /\ result = forallb id results
      else exists r, last = round_calls c (Z.to_nat n) timeout n r /\
                     result = forallb id results && r.

(** The plan time that the dispatch records, from the history [h] at its
    start and its calls [work]. *)
Definition plan_time (c : ModelBasedPlanningContext) (count : Z)
    (h work : list ompl_call) : double :=
  if count <=? 1 then getLastPlanComputationTime (h ++ work)
  else if count <=? max_planning_threads_ c then
    Double.sub (time_now (h ++ work)) (time_now (h ++ removelast work))
  else
    Double.sub (time_now (h ++ work)) (time_now (h ++ [ParallelPlan_clearHybridizationPaths])).

(** The line that the dispatch writes on the console. *)
Definition solving_line (c : ModelBasedPlanningContext) (count : Z) : log_entry :=
  (DEBUG, if count <=? 1 then SolvingOnce (name_ c) else SolvingTimes (name_ c) count).

(** [c'] is [c] but for the plan time, the history of OMPL calls and the
    console. *)
Definition solve_frame (c c' : ModelBasedPlanningContext) : Prop :=
  c' = set_ros_log (ros_log c')
         (set_ompl_calls (ompl_calls c')
            (set_last_plan_time_ (last_plan_time_ c') c)).

(** A call that adds a planner to the pool of the parallel plan. *)
Definition is_planner_addition (e : ompl_call) : bool :=
  match e with
  | ParallelPlan_addPlannerAllocator _ | ParallelPlan_addPlanner _ => true
  | _ => false
  end.


(** The number of planners that [calls] add to the pool. *)
Definition planners_added (calls : list ompl_call) : Z :=
  Z.of_nat (length (List.filter is_planner_addition calls)).

(** A call that, if it adds a planner, adds it as [c] prescribes. *)
Definition from_planner_source (c : ModelBasedPlanningContext) (e : ompl_call) : Prop :=
  is_planner_addition e = true -> e = planner_source c.

End SolveVocabulary.

(** ** The conversion of the solution path (lines 178-233)

    convertPath and getSolutionPath are [const]: they read the context and
    write the trajectory message they are given.  Besides null pointers
    they read vectors by index, so they have their own outcome. *)

(** The faults of a conversion: those of the other member functions, and
    an index beyond the end of a vector. *)
Inductive conversion_fault : Type :=
| Invalid (f : fault)
| IndexOutOfBounds.

Inductive Outcome (A : Type) : Type :=
| Gives (a : A)
| Faults (f : conversion_fault).

Arguments Gives {A} a.
Arguments Faults {A} f.

#[export] Instance Outcome_ret : MRet Outcome := fun A a => Gives a.

#[export] Instance Outcome_bind : MBind Outcome := fun A B k m =>
  match m with
  | Gives a => k a
  | Faults f => Faults f
  end.

(** [*p] *)
Definition deref_pointer {A} (p : option A) : Outcome A :=
  match p with
  | Some a => Gives a
  | None => Faults (Invalid NullDereference)
  end.

(** [v[i]], read *)
Definition at_index {A} (v : list A) (i : nat) : Outcome A :=
  match v !! i with
  | Some a => Gives a
  | None => Faults IndexOutOfBounds
  end.

(** [v[i] = x] *)
Definition assign {A} (i : nat) (x : A) (v : list A) : Outcome (list A) :=
  if decide (i < length v)%nat then Gives (<[i:=x]> v) else Faults IndexOutOfBounds.

(** [v.empty()] *)
Definition vector_empty {A} (v : list A) : bool :=
  match v with
  | [] => true
  | _ => false
  end.

(** The kinematic model, the kinematic state, the path and the messages of
    ROS, as convertPath uses them. *)
Class Kinematics `{FT : ForeignTypes} : Type := {
  (** planning_models::KinematicModel::JointModel *)
  JointModel : Type;
  (** planning_models::KinematicState::JointState *)
  JointState : Type;
  (** Eigen::Affine3d *)
  Transform : Type;
  (** geometry_msgs::Pose *)
  Pose : Type;
  (** ros::Duration *)
  Duration : Type;
  (** getJointModelGroup()->getJointModels(), for the group of the state
      space *)
  getJointModels : KinematicModelStateSpace -> list JointModel;
  JointModel_getName : JointModel -> string;
  getVariableCount : JointModel -> Z;
  (** getChildLinkModel()->getName() *)
  getChildLinkModel_getName : JointModel -> string;
  getPlanningFrame : PlanningScene -> string;
  (** the states that getStateCount() counts and getState(i) returns *)
  PathGeometric_getStates : PathGeometric -> list State;
  (** the vector of times that computeFastTimeParametrization fills *)
  computeFastTimeParametrization : PathGeometric -> double -> double -> Z -> list double;
  copyToKinematicState :
    KinematicModelStateSpace -> KinematicState -> State -> KinematicState;
  (** null when the state has no such joint *)
  getJointState : KinematicState -> string -> option JointState;
  getVariableValues : JointState -> list double;
  getVariableTransform : JointState -> Transform;
  msgFromPose : Transform -> Pose;
  (** the constructor ros::Duration(double) *)
  ros_Duration : double -> Duration;
  (** the values of the default constructors, with which
      std::vector::resize fills *)
  Duration_default : Duration;
  Pose_default : Pose;
}.

Section Messages.

Context `{FT : ForeignTypes} `{KI : !Kinematics}.

(** moveit_msgs::RobotTrajectory, with the fields that convertPath writes;
    the velocities and accelerations of a point are not written. *)
Record JointTrajectoryPoint : Type := {
  positions : list double;
  time_from_start : Duration;
}.

Record JointTrajectory : Type := {
  header_frame_id : string;
  joint_names : list string;
  points : list JointTrajectoryPoint;
}.

Record MultiDOFJointTrajectoryPoint : Type := {
  poses : list Pose;
  multi_dof_time_from_start : Duration;
}.

Record MultiDOFJointTrajectory : Type := {
  multi_dof_joint_names : list string;
  frame_ids : list string;
  child_frame_ids : list string;
  multi_dof_points : list MultiDOFJointTrajectoryPoint;
}.

Record RobotTrajectory : Type := {
  joint_trajectory : JointTrajectory;
  multi_dof_joint_trajectory : MultiDOFJointTrajectory;
}.

End Messages.

Arguments JointTrajectoryPoint {FT KI}.
Arguments JointTrajectory {FT KI}.
Arguments MultiDOFJointTrajectoryPoint {FT KI}.
Arguments MultiDOFJointTrajectory {FT KI}.
Arguments RobotTrajectory {FT KI}.

Section Conversion.

Context `{FT : ForeignTypes} `{CO : !Collaborators} `{KI : !Kinematics}.

(** Line 184. *)
Definition set_header_frame_id (frame_id : string) (traj : RobotTrajectory)
    : RobotTrajectory :=
  {| joint_trajectory :=
       {| header_frame_id := frame_id;
          joint_names := joint_names (joint_trajectory traj);
          points := points (joint_trajectory traj) |};
     multi_dof_joint_trajectory := multi_dof_joint_trajectory traj |}.

(** Line 188. *)
Definition push_back_joint_name (joint : JointModel) (traj : RobotTrajectory)
    : RobotTrajectory :=
  {| joint_trajectory :=
       {| header_frame_id := header_frame_id (joint_trajectory traj);
          joint_names := joint_names (joint_trajectory traj) ++ [JointModel_getName joint];
          points := points (joint_trajectory traj) |};
     multi_dof_joint_trajectory := multi_dof_joint_trajectory traj |}.

(** Lines 193-195. *)
Definition push_back_multi_dof_joint (joint : JointModel) (traj : RobotTrajectory)
    : RobotTrajectory :=
  let multi := multi_dof_joint_trajectory traj in
  {| joint_trajectory := joint_trajectory traj;
     multi_dof_joint_trajectory :=
       {| multi_dof_joint_names := multi_dof_joint_names multi ++ [JointModel_getName joint];
          frame_ids := frame_ids multi ++ [header_frame_id (joint_trajectory traj)];
          child_frame_ids := child_frame_ids multi ++ [getChildLinkModel_getName joint];
          multi_dof_points := multi_dof_points multi |} |}.

Definition set_points (v : list JointTrajectoryPoint) (traj : RobotTrajectory)
    : RobotTrajectory :=
  {| joint_trajectory :=
       {| header_frame_id := header_frame_id (joint_trajectory traj);
          joint_names := joint_names (joint_trajectory traj);
          points := v |};
     multi_dof_joint_trajectory := multi_dof_joint_trajectory traj |}.

Definition set_multi_dof_points (v : list MultiDOFJointTrajectoryPoint)
    (traj : RobotTrajectory) : RobotTrajectory :=
  let multi := multi_dof_joint_trajectory traj in
  {| joint_trajectory := joint_trajectory traj;
     multi_dof_joint_trajectory :=
       {| multi_dof_joint_names := multi_dof_joint_names multi;
          frame_ids := frame_ids multi;
          child_frame_ids := child_frame_ids multi;
          multi_dof_points := v |} |}.

(** The loop of lines 185-197, with the message and the vectors [onedof]
    and [mdof] built so far. *)
Fixpoint convertPath_joints (jnt : list JointModel) (traj : RobotTrajectory)
    (onedof mdof : list JointModel)
    : RobotTrajectory * (list JointModel * list JointModel) :=
  match jnt with
  | [] => (traj, (onedof, mdof))
  | joint :: rest =>
      if getVariableCount joint =? 1
      then convertPath_joints rest (push_back_joint_name joint traj) (onedof ++ [joint]) mdof
      else convertPath_joints rest (push_back_multi_dof_joint joint traj) onedof (mdof ++ [joint])
  end.

(** [ks.getJointState(name)->getVariableValues()[0]] (line 211). *)
Definition joint_position (ks : KinematicState) (joint : JointModel) : Outcome double :=
  js ← deref_pointer (getJointState ks (JointModel_getName joint));
  at_index (getVariableValues js) 0.

(** The pose that msgFromPose writes (lines 219-220). *)
Definition joint_pose (ks : KinematicState) (joint : JointModel) : Outcome Pose :=
  js ← deref_pointer (getJointState ks (JointModel_getName joint));
  mret (msgFromPose (getVariableTransform js)).

(** The loop of lines 210-211, from the index [j]. *)
Fixpoint convertPath_positions (ks : KinematicState) (onedof : list JointModel)
    (j : nat) (v : list double) : Outcome (list double) :=
  match onedof with
  | [] => Gives v
  | joint :: rest =>
      value ← joint_position ks joint;
      v ← assign j value v;
      convertPath_positions ks rest (S j) v
  end.

(** The loop of lines 217-221, from the index [j]. *)
Fixpoint convertPath_poses (ks : KinematicState) (mdof : list JointModel)
    (j : nat) (v : list Pose) : Outcome (list Pose) :=
  match mdof with
  | [] => Gives v
  | joint :: rest =>
      pose ← joint_pose ks joint;
      v ← assign j pose v;
      convertPath_poses ks rest (S j) v
  end.

(** Lines 207-213. *)
Definition convertPath_point (onedof : list JointModel) (times : list double)
    (i : nat) (ks : KinematicState) (traj : RobotTrajectory) : Outcome RobotTrajectory :=
  if vector_empty onedof then Gives traj
  else
    point ← at_index (points (joint_trajectory traj)) i;
    v ← convertPath_positions ks onedof 0
          (resize (length onedof) Double.zero (positions point));
    t ← at_index times i;
    v' ← assign i {| positions := v; time_from_start := ros_Duration t |}
           (points (joint_trajectory traj));
    mret (set_points v' traj).

(** Lines 214-223. *)
Definition convertPath_multi_dof_point (mdof : list JointModel) (times : list double)
    (i : nat) (ks : KinematicState) (traj : RobotTrajectory) : Outcome RobotTrajectory :=
  if vector_empty mdof then Gives traj
  else
    point ← at_index (multi_dof_points (multi_dof_joint_trajectory traj)) i;
    v ← convertPath_poses ks mdof 0 (resize (length mdof) Pose_default (poses point));
    t ← at_index times i;
    v' ← assign i {| poses := v; multi_dof_time_from_start := ros_Duration t |}
           (multi_dof_points (multi_dof_joint_trajectory traj));
    mret (set_multi_dof_points v' traj).

(** The loop of lines 204-224, from the index [i], with the kinematic state
    [ks] that the loop updates. *)
Fixpoint convertPath_states (c : ModelBasedPlanningContext)
    (onedof mdof : list JointModel) (times : list double) (states : list State)
    (i : nat) (ks : KinematicState) (traj : RobotTrajectory) : Outcome RobotTrajectory :=
  match states with
  | [] => Gives traj
  | st :: rest =>
      space ← deref_pointer (ompl_state_space_ c);
      let ks := copyToKinematicState space ks st in
      traj ← convertPath_point onedof times i ks traj;
      traj ← convertPath_multi_dof_point mdof times i ks traj;
      convertPath_states c onedof mdof times rest (S i) ks traj
  end.

(** convertPath (lines 178-225); the result is the message [traj] as the
    call leaves it.  The accessors getJointModelGroup() and
    getPlanningScene() are those of the state space and of
    [planning_scene_], as in the other member functions. *)
Definition convertPath (pg : PathGeometric) (traj : RobotTrajectory)
    (c : ModelBasedPlanningContext) : Outcome RobotTrajectory :=
  let ks := complete_initial_robot_state_ c in
  space ← deref_pointer (ompl_state_space_ c);
  let jnt := getJointModels space in
  scene ← deref_pointer (planning_scene_ c);
  let traj := set_header_frame_id (getPlanningFrame scene) traj in
  let '(traj, (onedof, mdof)) := convertPath_joints jnt traj [] [] in
  let states := PathGeometric_getStates pg in
  let traj :=
    if vector_empty onedof then traj
    else set_points
           (resize (length states)
              {| positions := []; time_from_start := Duration_default |}
              (points (joint_trajectory traj)))
           traj in
  let traj :=
    if vector_empty mdof then traj
    else set_multi_dof_points
           (resize (length states)
              {| poses := []; multi_dof_time_from_start := Duration_default |}
              (multi_dof_points (multi_dof_joint_trajectory traj)))
           traj in
  let times :=
    computeFastTimeParametrization pg (max_velocity_ c) (max_acceleration_ c) 50 in
  convertPath_states c onedof mdof times states 0 ks traj.

(** getSolutionPath (lines 227-233): the result and the message as the call
    leaves it.  ([getSolutionPath] is the solution path of the simple
    setup.) *)
Definition ModelBasedPlanningContext_getSolutionPath (traj : RobotTrajectory)
    (c : ModelBasedPlanningContext) : Outcome (bool * RobotTrajectory) :=
  match getSolutionPath (ompl_calls c) with
  | None => Gives (false, traj)
  | Some pg =>
      traj ← convertPath pg traj c;
      mret (true, traj)
  end.

(** *** Vocabulary of the statements on the conversion *)

Definition single_variable (joint : JointModel) : bool := getVariableCount joint =? 1.

(** The joints with one variable and the other joints, in the order of the
    group. *)
Definition one_dof (jnt : list JointModel) : list JointModel :=
  List.filter single_variable jnt.

Definition multi_dof (jnt : list JointModel) : list JointModel :=
  List.filter (fun joint => negb (single_variable joint)) jnt.

(** The kinematic states of the waypoints: each state of the path is copied
    over the kinematic state of the waypoint before, the first over [ks]. *)
Fixpoint kinematic_states (space : KinematicModelStateSpace) (ks : KinematicState)
    (states : list State) : list KinematicState :=
  match states with
  | [] => []
  | st :: rest =>
      let ks' := copyToKinematicState space ks st in
      ks' :: kinematic_states space ks' rest
  end.

(** The point of a waypoint, from the positions of the joints and the
    time. *)
Definition trajectory_point (v : list double) (t : double) : JointTrajectoryPoint :=
  {| positions := v; time_from_start := ros_Duration t |}.

Definition multi_dof_trajectory_point (v : list Pose) (t : double)
    : MultiDOFJointTrajectoryPoint :=
  {| poses := v; multi_dof_time_from_start := ros_Duration t |}.

End Conversion.

(** ** A robot to run the conversion on

    An arm on a planar base: two joints of one variable and one of three.
    A kinematic state lists the values of joints by name, the latest
    first; a state of the path lists the values it sets. *)
Module ExampleRobot.

Definition joint : Type := string * Z * string.

Definition values : Type := list (string * list double).

#[export] Instance types : ForeignTypes := {|
  ProjectionEvaluator := unit;
  KinematicModelStateSpace := list joint;
  PlanningScene := string;
  KinematicState := values;
  Constraints := unit;
  KinematicConstraintSet := unit;
  ConstraintSampler := unit;
  State := values;
  PathGeometric := list values;
  ConfiguredPlannerAllocator := unit;
|}.

(** A path of two states: the first moves the shoulder, the second the
    elbow and the base. *)
Definition path : list values :=
  [[("shoulder", [Double.of_Z 1])];
   [("elbow", [Double.of_Z 2]);
    ("base", [Double.of_Z 1; Double.of_Z 1; Double.of_Z 0])]].

#[export] Instance collaborators : @Collaborators types := {|
  lexical_cast_double := Example.decimal_literal;
  getProjectionEvaluator := fun _ => (None, []);
  mergeConstraints := fun _ _ => tt;
  new_KinematicConstraintSet := fun _ => tt;
  KinematicConstraintSet_add := fun _ _ => tt;
  KinematicConstraintSet_empty := fun _ => false;
  getAllConstraints := fun _ => tt;
  constructConstraintsSampler := fun _ _ _ => tt;
  hasType_GOAL_LAZY_SAMPLES := fun _ => false;
  ConstrainedGoalSampler_isSatisfied := fun _ _ _ => true;
  isApproximate := fun _ => false;
  getSolutionPath := fun _ => Some path;
  PathGeometric_length := fun pg => Double.of_Z (Z.of_nat (length pg) - 1);
  getPlanner := fun _ => false;
  getMaximumExtent := fun _ => Double.of_Z 1;
  fixInvalidInputStates_returns := fun _ _ _ _ => true;
  SimpleSetup_solve_returns := fun _ _ => true;
  getLastPlanComputationTime := fun _ => Double.zero;
  ParallelPlan_solve_returns := fun _ _ _ _ _ => true;
  time_now := fun h => Double.of_Z (Z.of_nat (length h));
|}.

#[export] Instance kinematics : @Kinematics types := {|
  JointModel := joint;
  JointState := list double;
  Transform := list double;
  Pose := list double;
  Duration := double;
  getJointModels := fun space => space;
  JointModel_getName := fun j => j.1.1;
  getVariableCount := fun j => j.1.2;
  getChildLinkModel_getName := fun j => j.2;
  getPlanningFrame := fun scene => scene;
  PathGeometric_getStates := fun pg => pg;
  (* the state [i] is reached at the time [i / maxVel] *)
  computeFastTimeParametrization := fun pg maxVel _ _ =>
    map (fun i => Double.div (Double.of_Z (Z.of_nat i)) maxVel) (seq 0 (length pg));
  copyToKinematicState := fun _ ks st => st ++ ks;
  getJointState := fun ks name =>
    snd <$> List.find (fun p => String.eqb (fst p) name) ks;
  getVariableValues := fun js => js;
  getVariableTransform := fun js => js;
  msgFromPose := fun t => t;
  ros_Duration := fun t => t;
  Duration_default := Double.zero;
  Pose_default := [];
|}.

Definition arm : @ModelBasedPlanningContext types := {|
  spec_config_ := ∅;
  spec_planner_allocator_ := tt;
  name_ := "arm";
  ompl_state_space_ :=
    Some [("shoulder", 1, "upper_arm"); ("base", 3, "base_link"); ("elbow", 1, "forearm")];
  complete_initial_robot_state_ :=
    [("shoulder", [Double.zero]);
     ("base", [Double.zero; Double.zero; Double.zero]);
     ("elbow", [Double.zero])];
  planning_scene_ := Some "odom";
  path_constraints_ := None;
  goal_constraints_ := [];
  simple_setup_goal := None;
  simple_setup_planner_allocator := None;
  last_plan_time_ := Double.zero;
  max_goal_samples_ := 0;
  max_sampling_attempts_ := 0;
  max_planning_threads_ := 0;
  max_velocity_ := Double.of_Z 2;
  max_acceleration_ := Double.of_Z 1;
  max_solution_segment_length_ := Double.zero;
  ompl_calls := [];
  ros_log := [];
|}.

(** A message that already names a joint. *)
Definition message : @RobotTrajectory types kinematics := {|
  joint_trajectory :=
    {| header_frame_id := ""; joint_names := ["wrist"]; points := [] |};
  multi_dof_joint_trajectory :=
    {| multi_dof_joint_names := []; frame_ids := []; child_frame_ids := [];
       multi_dof_points := [] |};
|}.

End ExampleRobot.
(** * Verification *)

(** ** Rules for [post] *)

Section ProgramLogic.

Context `{FT : ForeignTypes} `{CO : !Collaborators}.

Implicit Types (c : ModelBasedPlanningContext) (E : fault -> Prop).

Lemma post_ret {A} (a : A) c (Q : A -> ModelBasedPlanningContext -> Prop) E :
  Q a c -> post (ret a) c Q E.
Proof. intros HQ. exact HQ. Qed.

Lemma post_bind {A B} (m : M A) (k : A -> M B) c
    (Q : B -> ModelBasedPlanningContext -> Prop) E :
  post m c (fun a c' => post (k a) c' Q E) E -> post (bind m k) c Q E.
Proof.
  unfold post, bind. destruct (m c) as [[a c'] | f]; intros H; exact H.
Qed.

Lemma post_mono {A} (m : M A) c (Q Q' : A -> ModelBasedPlanningContext -> Prop) E E' :
  post m c Q E ->
  (forall a c', Q a c' -> Q' a c') -> (forall f, E f -> E' f) ->
  post m c Q' E'.
Proof.
  unfold post. destruct (m c) as [[a c'] | f]; intros H HQ HE; auto.
Qed.

Lemma post_undefined {A} (f : fault) c (Q : A -> ModelBasedPlanningContext -> Prop) E :
  E f -> post (undefined f) c Q E.
Proof. intros HE. exact HE. Qed.

Lemma post_gets {A} (field : ModelBasedPlanningContext -> A) c
    (Q : A -> ModelBasedPlanningContext -> Prop) E :
  Q (field c) c -> post (gets field) c Q E.
Proof. intros HQ. exact HQ. Qed.

Lemma post_modify (f : ModelBasedPlanningContext -> ModelBasedPlanningContext) c
    (Q : unit -> ModelBasedPlanningContext -> Prop) E :
  Q tt (f c) -> post (modify f) c Q E.
Proof. intros HQ. exact HQ. Qed.

Lemma post_deref {A} (field : ModelBasedPlanningContext -> option A) c
    (Q : A -> ModelBasedPlanningContext -> Prop) E :
  match field c with Some a => Q a c | None => E NullDereference end ->
  post (deref field) c Q E.
Proof. unfold post, deref. destruct (field c); intros H; exact H. Qed.

Lemma post_call e c (Q : unit -> ModelBasedPlanningContext -> Prop) E :
  Q tt (set_ompl_calls (ompl_calls c ++ [e]) c) -> post (call e) c Q E.
Proof. intros HQ. exact HQ. Qed.

Lemma post_ask {A} (q : list ompl_call -> A) c
    (Q : A -> ModelBasedPlanningContext -> Prop) E :
  Q (q (ompl_calls c)) c -> post (ask q) c Q E.
Proof. intros HQ. exact HQ. Qed.

Lemma post_call_returning q e c (Q : bool -> ModelBasedPlanningContext -> Prop) E :
  Q (q (ompl_calls c)) (set_ompl_calls (ompl_calls c ++ [e (q (ompl_calls c))]) c) ->
  post (call_returning q e) c Q E.
Proof. intros HQ. exact HQ. Qed.

Lemma post_ROS_LOG s m c (Q : unit -> ModelBasedPlanningContext -> Prop) E :
  Q tt (set_ros_log (ros_log c ++ [(s, m)]) c) -> post (ROS_LOG s m) c Q E.
Proof. intros HQ. exact HQ. Qed.

(** What [post] says of a run. *)
Lemma post_Returns {A} (m : M A) c (Q : A -> ModelBasedPlanningContext -> Prop) E a c' :
  post m c Q E -> m c = Returns (a, c') -> Q a c'.
Proof. unfold post. intros H Hm. rewrite Hm in H. exact H. Qed.

Lemma post_Undefined {A} (m : M A) c (Q : A -> ModelBasedPlanningContext -> Prop) E f :
  post m c Q E -> m c = Undefined f -> E f.
Proof. unfold post. intros H Hm. rewrite Hm in H. exact H. Qed.

Lemma post_no_fault {A} (m : M A) c (Q : A -> ModelBasedPlanningContext -> Prop) :
  post m c Q no_fault -> exists a c', m c = Returns (a, c') /\ Q a c'.
Proof.
  unfold post. destruct (m c) as [[a c'] | f]; intros H.
  - exists a, c'. split; [reflexivity | exact H].
  - destruct H.
Qed.

Lemma post_returns {A} (m : M A) c (a : A) (P : ModelBasedPlanningContext -> Prop) :
  post m c (fun a' c' => a' = a /\ P c') no_fault -> exists c', m c = Returns (a, c') /\ P c'.
Proof.
  intros H. destruct (post_no_fault _ _ _ H) as (a' & c' & Hm & -> & HP). eauto.
Qed.

Lemma post_returns_unit (m : M unit) c (P : ModelBasedPlanningContext -> Prop) :
  post m c (fun _ c' => P c') no_fault -> exists c', m c = Returns (tt, c') /\ P c'.
Proof.
  intros H. destruct (post_no_fault _ _ _ H) as ([] & c' & Hm & HP). eauto.
Qed.

Lemma post_of_Returns {A} (m : M A) c (Q : A -> ModelBasedPlanningContext -> Prop) E a c' :
  m c = Returns (a, c') -> Q a c' -> post m c Q E.
Proof. unfold post. intros ->. auto. Qed.

Lemma post_of_Undefined {A} (m : M A) c (Q : A -> ModelBasedPlanningContext -> Prop) E f :
  m c = Undefined f -> E f -> post m c Q E.
Proof. unfold post. intros ->. auto. Qed.

(** A context is determined by its member variables. *)
Lemma set_ompl_calls_same c : set_ompl_calls (ompl_calls c) c = c.
Proof. destruct c; reflexivity. Qed.

Lemma set_goal_constraints_same c : set_goal_constraints_ (goal_constraints_ c) c = c.
Proof. destruct c; reflexivity. Qed.

End ProgramLogic.

(** One step of symbolic execution of a member function. *)
Ltac post_step :=
  lazymatch goal with
  | |- post (bind _ _) _ _ _ => apply post_bind
  | |- post (ret _) _ _ _ => apply post_ret
  | |- post (undefined _) _ _ _ => apply post_undefined
  | |- post (gets _) _ _ _ => apply post_gets
  | |- post (modify _) _ _ _ => apply post_modify
  | |- post (deref _) _ _ _ => apply post_deref
  | |- post (call _) _ _ _ => apply post_call
  | |- post (ask _) _ _ _ => apply post_ask
  | |- post (call_returning _ _) _ _ _ => apply post_call_returning
  | |- post (ROS_LOG _ _) _ _ _ => apply post_ROS_LOG
  | |- post (when_ _ _) _ _ _ => unfold when_
  | |- post (if ?b then _ else _) _ _ _ => destruct b eqn:?
  | |- post (match ?x with _ => _ end) _ _ _ => destruct x eqn:?
  | |- match ?x with _ => _ end => destruct x eqn:?
  end.

Ltac post_run := repeat (post_step; simpl).

(** ** The configuration resolver: useConfig *)

Section Configuration.

Context `{FT : ForeignTypes} `{CO : !Collaborators}.

Implicit Types (c : ModelBasedPlanningContext) (config cfg : gmap string string).

Lemma extraction_step_refl c : extraction_step c c.
Proof.
  repeat split. exists []. split; [by rewrite app_nil_r | reflexivity].
Qed.

Lemma extraction_step_trans c1 c2 c3 :
  extraction_step c1 c2 -> extraction_step c2 c3 -> extraction_step c1 c3.
Proof.
  intros (Hn1 & Ha1 & l1 & Hl1 & Hw1) (Hn2 & Ha2 & l2 & Hl2 & Hw2).
  repeat split; try congruence.
  exists (l1 ++ l2). split.
  - rewrite Hl2, Hl1, <- app_assoc. reflexivity.
  - rewrite forallb_app, Hw1, Hw2. reflexivity.
Qed.

Lemma extraction_step_log c entries :
  forallb (fun e => negb (is_type_warning e)) entries = true ->
  extraction_step c (set_ros_log (ros_log c ++ entries) c).
Proof. intros Hw. repeat split. exists entries. split; [reflexivity | exact Hw]. Qed.

Lemma foreign_console_no_type_warning lines :
  forallb (fun e => negb (is_type_warning e)) (foreign_console lines) = true.
Proof.
  induction lines as [| [s text] lines IH]; [reflexivity |].
  simpl. rewrite IH. destruct s; reflexivity.
Qed.

Ltac extraction_tac :=
  first [ apply extraction_step_refl
        | repeat split; simpl; eexists; split; reflexivity ].

(** Lines 96-101 erase the key and keep the limits and the allocator. *)
Lemma useConfig_projection_evaluator_spec cfg c :
  post (useConfig_projection_evaluator cfg) c
    (fun cfg' c' =>
       cfg' = delete "projection_evaluator" cfg /\ extraction_step c c' /\
       max_velocity_ c' = max_velocity_ c /\ max_acceleration_ c' = max_acceleration_ c)
    no_fault.
Proof.
  unfold useConfig_projection_evaluator, setProjectionEvaluator.
  post_run; (split; [first [reflexivity | by rewrite delete_id] |]);
    (split; [| split; reflexivity]).
  - repeat split. simpl. exists (foreign_console l).
    split; [reflexivity | apply foreign_console_no_type_warning].
  - repeat split. simpl. exists (foreign_console l).
    split; [reflexivity | apply foreign_console_no_type_warning].
  - apply extraction_step_log. reflexivity.
  - apply extraction_step_refl.
Qed.

(** Lines 103-116 assign [max_velocity_] when the value parses. *)
Lemma useConfig_max_velocity_spec cfg c :
  post (useConfig_max_velocity cfg) c
    (fun cfg' c' =>
       cfg' = delete "max_velocity" cfg /\ extraction_step c c' /\
       max_acceleration_ c' = max_acceleration_ c /\
       max_velocity_ c' =
         match cfg !! "max_velocity" with
         | Some v => default (max_velocity_ c) (lexical_cast_double (BoostString.trim_copy v))
         | None => max_velocity_ c
         end /\
       forall v, cfg !! "max_velocity" = Some v ->
                 lexical_cast_double (BoostString.trim_copy v) = None ->
                 ros_log c' = ros_log c ++ [(ERROR, UnableToParseMaximumVelocity (name_ c))])
    no_fault.
Proof.
  unfold useConfig_max_velocity.
  post_run; (split; [first [reflexivity | by rewrite delete_id] |]);
    (split; [extraction_tac |]);
    repeat split; intros; simplify_eq; reflexivity.
Qed.

(** Lines 118-131 assign [max_velocity_] as well, and never
    [max_acceleration_]. *)
Lemma useConfig_max_acceleration_spec cfg c :
  post (useConfig_max_acceleration cfg) c
    (fun cfg' c' =>
       cfg' = delete "max_acceleration" cfg /\ extraction_step c c' /\
       max_acceleration_ c' = max_acceleration_ c /\
       max_velocity_ c' =
         match cfg !! "max_acceleration" with
         | Some v => default (max_velocity_ c) (lexical_cast_double (BoostString.trim_copy v))
         | None => max_velocity_ c
         end)
    no_fault.
Proof.
  unfold useConfig_max_acceleration.
  post_run; (split; [first [reflexivity | by rewrite delete_id] |]);
    (split; [extraction_tac |]);
    repeat split; intros; simplify_eq; reflexivity.
Qed.

(** Lines 136-151 keep the two limits; without the key [type] they keep the
    planner allocator and write the warning. *)
Lemma useConfig_planner_spec cfg c :
  post (useConfig_planner cfg) c
    (fun _ c' =>
       max_velocity_ c' = max_velocity_ c /\
       max_acceleration_ c' = max_acceleration_ c /\
       (exists entries, ros_log c' = ros_log c ++ entries) /\
       (cfg !! "type" = None ->
        simple_setup_planner_allocator c' = simple_setup_planner_allocator c /\
        ros_log c' = ros_log c ++ [(WARN, TypeNotSpecified (name_ c))]))
    no_fault.
Proof.
  unfold useConfig_planner.
  post_run; repeat split; intros; simplify_eq; eauto.
Qed.

(** useConfig always returns; what it leaves in the context. *)
Lemma useConfig_spec config c :
  post (useConfig config) c
    (fun _ c' =>
       max_acceleration_ c' = max_acceleration_ c /\
       max_velocity_ c' = velocity_after config c /\
       (forall v, config !! "max_velocity" = Some v ->
                  lexical_cast_double (BoostString.trim_copy v) = None ->
                  In (ERROR, UnableToParseMaximumVelocity (name_ c)) (ros_log c')) /\
       (config !! "type" = None ->
        simple_setup_planner_allocator c' = simple_setup_planner_allocator c /\
        exists others,
          ros_log c' =
            ros_log c ++ others ++
            (if bool_decide (residual config = ∅) then []
             else [(WARN, TypeNotSpecified (name_ c))]) /\
          forallb (fun e => negb (is_type_warning e)) others = true))
    no_fault.
Proof.
  unfold useConfig. destruct (bool_decide (config = ∅)) eqn:Hempty.
  - apply bool_decide_eq_true in Hempty. subst config.
    apply post_ret. unfold velocity_after, residual.
    rewrite !lookup_empty, !delete_empty.
    repeat split; [intros v Hv; discriminate Hv |].
    exists []. rewrite bool_decide_eq_true_2 by reflexivity.
    split; [by rewrite !app_nil_r | reflexivity].
  - apply post_bind.
    eapply post_mono; [apply useConfig_projection_evaluator_spec | | tauto].
    intros cfg1 c1 (-> & Hstep1 & Hv1 & Ha1). simpl.
    apply post_bind.
    eapply post_mono; [apply useConfig_max_velocity_spec | | tauto].
    intros cfg2 c2 (-> & Hstep2 & Ha2 & Hv2 & Herr2). simpl.
    apply post_bind.
    eapply post_mono; [apply useConfig_max_acceleration_spec | | tauto].
    intros cfg3 c3 (-> & Hstep3 & Ha3 & Hv3). simpl.
    rewrite lookup_delete_ne in Hv2 by done.
    rewrite !lookup_delete_ne in Hv3 by done.
    assert (Hvel : max_velocity_ c3 = velocity_after config c).
    { unfold velocity_after. rewrite Hv3, Hv2, Hv1. reflexivity. }
    assert (Hacc : max_acceleration_ c3 = max_acceleration_ c) by congruence.
    pose proof (extraction_step_trans _ _ _ Hstep1
                  (extraction_step_trans _ _ _ Hstep2 Hstep3))
      as (Hname & Halloc & others & Hlog & Hothers).
    assert (Herr : forall v, config !! "max_velocity" = Some v ->
                lexical_cast_double (BoostString.trim_copy v) = None ->
                In (ERROR, UnableToParseMaximumVelocity (name_ c)) (ros_log c3)).
    { intros v Hv Hparse.
      destruct Hstep1 as (Hn1 & _), Hstep3 as (_ & _ & l3 & Hl3 & _).
      rewrite Hl3, (Herr2 v), Hn1 by (rewrite ?lookup_delete_ne by done; done).
      apply in_or_app. left. apply in_or_app. right. left. reflexivity. }
    fold (residual config).
    destruct (bool_decide (residual config = ∅)) eqn:Hres.
    + apply post_ret. repeat split; try assumption.
      exists others. split; [by rewrite app_nil_r | exact Hothers].
    + eapply post_mono; [apply useConfig_planner_spec | | tauto].
      intros [] c4 (Hv4 & Ha4 & (l4 & Hl4) & Htype). simpl.
      unfold residual in Htype. rewrite !lookup_delete_ne in Htype by done.
      split; [congruence | split; [congruence | split]].
      * intros v Hv Hparse. rewrite Hl4. apply in_or_app. left. eauto.
      * intros Ht. destruct (Htype Ht) as (Halloc4 & Hlog4).
        split; [congruence |].
        exists others. rewrite Hlog4, Hlog, Hname, <- app_assoc.
        split; [reflexivity | exact Hothers].
Qed.

(** The value of the key [max_acceleration] goes to [max_velocity_], and
    [max_acceleration_] keeps its value. *)
Lemma useConfig_max_acceleration_assigns_max_velocity config c v x :
  config !! "max_acceleration" = Some v ->
  lexical_cast_double (BoostString.trim_copy v) = Some x ->
  post (useConfig config) c
    (fun _ c' => max_velocity_ c' = x /\ max_acceleration_ c' = max_acceleration_ c)
    no_fault.
Proof.
  intros Hacc Hparse.
  eapply post_mono; [apply useConfig_spec | | tauto].
  intros _ c' (Ha & Hv & _). split; [| exact Ha].
  rewrite Hv. unfold velocity_after. rewrite Hacc, Hparse. reflexivity.
Qed.

(** No configuration changes [max_acceleration_]. *)
Lemma useConfig_keeps_max_acceleration config c :
  post (useConfig config) c
    (fun _ c' => max_acceleration_ c' = max_acceleration_ c) no_fault.
Proof.
  eapply post_mono; [apply useConfig_spec | | tauto].
  intros _ c' (Ha & _). exact Ha.
Qed.

(** An unparsable [max_velocity] is reported and leaves [max_velocity_] as
    it was, provided the map has no [max_acceleration] that parses. *)
Lemma useConfig_unparsable_max_velocity config c v :
  config !! "max_velocity" = Some v ->
  lexical_cast_double (BoostString.trim_copy v) = None ->
  match config !! "max_acceleration" with
  | Some a => lexical_cast_double (BoostString.trim_copy a) = None
  | None => True
  end ->
  post (useConfig config) c
    (fun _ c' =>
       max_velocity_ c' = max_velocity_ c /\
       In (ERROR, UnableToParseMaximumVelocity (name_ c)) (ros_log c'))
    no_fault.
Proof.
  intros Hvel Hparse Hacc.
  eapply post_mono; [apply useConfig_spec | | tauto].
  intros _ c' (_ & Hv & Herr & _). split; [| exact (Herr v Hvel Hparse)].
  rewrite Hv. unfold velocity_after. rewrite Hvel, Hparse.
  destruct (config !! "max_acceleration") as [a |]; [rewrite Hacc |]; reflexivity.
Qed.

(** Claim C5, amended.  For a configuration map without the key [type],
    useConfig returns and keeps the planner allocator of the simple setup
    (unset if it was unset).  The warning about the missing type is the
    last line written on the console exactly when the map still has a key
    after [projection_evaluator], [max_velocity] and [max_acceleration] are
    erased; otherwise (an empty map, or only those keys) the call writes no
    such warning. *)
Theorem useConfig_without_type config c :
  config !! "type" = None ->
  exists c' others,
    useConfig config c = Returns (tt, c') /\
    simple_setup_planner_allocator c' = simple_setup_planner_allocator c /\
    ros_log c' =
      ros_log c ++ others ++
      (if bool_decide (residual config = ∅) then []
       else [(WARN, TypeNotSpecified (name_ c))]) /\
    forallb (fun e => negb (is_type_warning e)) others = true.
Proof.
  intros Htype.
  destruct (post_no_fault _ _ _ (useConfig_spec config c))
    as ([] & c' & Hrun & _ & _ & _ & Hwarn).
  destruct (Hwarn Htype) as (Halloc & others & Hlog & Hothers).
  exists c', others. auto.
Qed.

End Configuration.


(** ** The path post-processor: interpolateSolution *)

Section Interpolation.

Context `{FT : ForeignTypes} `{CO : !Collaborators}.

Implicit Types (c : ModelBasedPlanningContext) (x y : double).

(** IEEE 754: a quotient by zero is an infinity or NaN. *)
Lemma div_by_zero_not_finite x y :
  Double.is_zero y = true -> Double.is_finite (Double.div x y) = false.
Proof. destruct y; try discriminate. destruct x; reflexivity. Qed.

Lemma add_half_not_finite x :
  Double.is_finite x = false -> Double.is_finite (Double.add Double.half x) = false.
Proof. destruct x as [| [] | |]; try discriminate; reflexivity. Qed.

Lemma floor_not_finite x :
  Double.is_finite x = false -> Double.is_finite (Double.floor x) = false.
Proof. destruct x; try discriminate; reflexivity. Qed.

Lemma to_size_t_not_finite x :
  Double.is_finite x = false -> Double.to_size_t x = None.
Proof. destruct x; try discriminate; reflexivity. Qed.

(** With a solution path and a segment length of zero the quotient of
    line 174 is computed and is not finite, whatever the length of the path,
    and its conversion to [std::size_t] is undefined. *)
Lemma interpolateSolution_zero_segment_length c pg :
  getSolutionPath (ompl_calls c) = Some pg ->
  Double.is_zero (max_solution_segment_length_ c) = true ->
  Double.is_finite
    (Double.div (PathGeometric_length pg) (max_solution_segment_length_ c)) = false /\
  interpolateSolution c = Undefined ConversionOutOfRange.
Proof.
  intros Hpath Hzero.
  pose proof (div_by_zero_not_finite (PathGeometric_length pg) _ Hzero) as Hdiv.
  split; [exact Hdiv |].
  unfold interpolateSolution, bind, ask, gets. rewrite Hpath.
  rewrite to_size_t_not_finite; [reflexivity |].
  apply floor_not_finite, add_half_not_finite, Hdiv.
Qed.

(** Without a solution path the call changes nothing. *)
Lemma interpolateSolution_without_solution c :
  getSolutionPath (ompl_calls c) = None ->
  interpolateSolution c = Returns (tt, c).
Proof.
  intros Hpath. unfold interpolateSolution, bind, ask. rewrite Hpath. reflexivity.
Qed.

End Interpolation.

(** ** The goal constructor and setPlanningConstraints *)

Section Goals.

Context `{FT : ForeignTypes} `{CO : !Collaborators}.

Implicit Types (c : ModelBasedPlanningContext) (goals regions : list Goal).

(** The loop of lines 240-247 builds one region for every stored constraint
    set, in order. *)
Lemma constructGoal_loop_spec (constraints : list KinematicConstraintSet) goals c space scene :
  ompl_state_space_ c = Some space ->
  planning_scene_ c = Some scene ->
  constructGoal_loop constraints goals c =
    Returns (goals ++ map (region space scene) constraints, c).
Proof.
  intros Hspace Hscene. revert goals.
  induction constraints as [| kset rest IH]; intros goals; simpl.
  - rewrite app_nil_r. reflexivity.
  - unfold bind, deref. rewrite Hspace, Hscene.
    rewrite IH, <- app_assoc. reflexivity.
Qed.

(** Without a state space or without a scene, building the first region
    dereferences a null pointer. *)
Lemma constructGoal_loop_null (constraints : list KinematicConstraintSet) goals c :
  constraints <> [] ->
  ompl_state_space_ c = None \/ planning_scene_ c = None ->
  constructGoal_loop constraints goals c = Undefined NullDereference.
Proof.
  intros Hne Hnull. destruct constraints as [| kset rest]; [congruence |].
  simpl. unfold bind, deref.
  destruct (ompl_state_space_ c); [| reflexivity].
  destruct Hnull as [Hnull | Hnull]; [discriminate | rewrite Hnull; reflexivity].
Qed.

(** The composite goal is satisfied exactly when one of its members is. *)
Lemma isSatisfied_GoalSampleableRegionMux goals (st : State) :
  isSatisfied (GoalSampleableRegionMux goals) st = true <->
  exists g, In g goals /\ isSatisfied g st = true.
Proof. simpl. apply existsb_exists. Qed.

(** Claim C7.  With the state space and the scene set, constructGoal
    returns, having built one region for each stored constraint set, in
    order.  With no region it returns the null goal and reports the failure;
    with one region it returns that region; with more it returns the
    composite over all the regions, which is satisfied exactly when one
    of them is. *)
Theorem constructGoal_cases c space scene :
  ompl_state_space_ c = Some space ->
  planning_scene_ c = Some scene ->
  let regions := map (region space scene) (goal_constraints_ c) in
  exists goal c',
    constructGoal c = Returns (goal, c') /\
    (regions = [] ->
     goal = None /\ In (ERROR, UnableToConstructGoal) (ros_log c')) /\
    (forall g, regions = [g] -> goal = Some g) /\
    ((1 < length regions)%nat ->
     goal = Some (GoalSampleableRegionMux regions) /\
     forall st, isSatisfied (GoalSampleableRegionMux regions) st = true <->
                exists g, In g regions /\ isSatisfied g st = true).
Proof.
  intros Hspace Hscene regions.
  unfold constructGoal, bind, gets.
  rewrite (constructGoal_loop_spec _ _ _ _ _ Hspace Hscene). simpl.
  fold regions. destruct regions as [| g [| g' rest]]; simpl.
  - eexists _, _. split; [reflexivity |].
    split; [| split; [discriminate | intros Hlen; inversion Hlen]].
    intros _. split; [reflexivity |].
    apply in_or_app. left. apply in_or_app. right. left. reflexivity.
  - eexists _, _. split; [reflexivity |].
    split; [discriminate |]. split; [congruence |].
    intros Hlen. exfalso. apply (Nat.lt_irrefl _ Hlen).
  - eexists _, _. split; [reflexivity |].
    split; [discriminate |]. split; [discriminate |].
    intros _. split; [reflexivity |].
    intros st. apply (isSatisfied_GoalSampleableRegionMux (g :: g' :: rest)).
Qed.

(** What constructGoal returns is null only for an empty list of
    constraint sets. *)
Lemma constructGoal_spec c :
  post constructGoal c
    (fun goal c' =>
       simple_setup_goal c' = simple_setup_goal c /\
       path_constraints_ c' = path_constraints_ c /\
       goal_constraints_ c' = goal_constraints_ c /\
       (goal = None <-> goal_constraints_ c = []))
    (fun f => f = NullDereference).
Proof.
  unfold constructGoal. apply post_bind, post_gets, post_bind.
  destruct (goal_constraints_ c) as [| kset rest] eqn:Hstored.
  - simpl. post_run. repeat split; auto.
  - destruct (ompl_state_space_ c) as [space |] eqn:Hspace;
      [destruct (planning_scene_ c) as [scene |] eqn:Hscene |].
    + eapply post_of_Returns;
        [apply (constructGoal_loop_spec _ _ _ _ _ Hspace Hscene) |].
      simpl. destruct rest; simpl; apply post_ret;
        (repeat split; try assumption; discriminate).
    + eapply post_of_Undefined; [| reflexivity].
      apply constructGoal_loop_null; [discriminate | right; exact Hscene].
    + eapply post_of_Undefined; [| reflexivity].
      apply constructGoal_loop_null; [discriminate | left; exact Hspace].
Qed.

(** The loop of lines 286-293 appends the non-empty constraint sets. *)
Lemma setPlanningConstraints_loop (goal_constraints : list Constraints)
    (path_constraints : Constraints) c scene :
  planning_scene_ c = Some scene ->
  for_each goal_constraints (setPlanningConstraints_store path_constraints) c =
    Returns (tt, set_goal_constraints_
                   (goal_constraints_ c ++ stored_sets scene path_constraints goal_constraints)
                   c).
Proof.
  revert c. induction goal_constraints as [| g rest IH]; intros c Hscene.
  - simpl. unfold stored_sets. simpl.
    rewrite app_nil_r, set_goal_constraints_same. reflexivity.
  - simpl. unfold bind at 1.
    unfold setPlanningConstraints_store at 1. unfold bind, deref.
    rewrite Hscene. fold (constraint_set scene path_constraints g).
    unfold stored_sets. simpl.
    destruct (KinematicConstraintSet_empty (constraint_set scene path_constraints g));
      simpl.
    + apply IH, Hscene.
    + unfold modify. rewrite IH by exact Hscene.
      simpl. rewrite <- app_assoc. reflexivity.
Qed.

Lemma setPlanningConstraints_loop_null (goal_constraints : list Constraints)
    (path_constraints : Constraints) c :
  planning_scene_ c = None ->
  goal_constraints <> [] ->
  for_each goal_constraints (setPlanningConstraints_store path_constraints) c =
    Undefined NullDereference.
Proof.
  intros Hscene Hne. destruct goal_constraints as [| g rest]; [congruence |].
  simpl. unfold bind at 1.
  unfold setPlanningConstraints_store, bind, deref. rewrite Hscene. reflexivity.
Qed.

(** What setPlanningConstraints leaves: after a failure the stored list is
    empty while the path constraints and the goal are as before; after a
    success the problem has a goal.  The only fault is a null scene or state
    space. *)
Lemma setPlanningConstraints_spec (goal_constraints : list Constraints)
    (path_constraints : Constraints) error c :
  post (setPlanningConstraints goal_constraints path_constraints error) c
    (fun r c' =>
       if fst r then has_goal c' = true /\ goal_constraints_ c' <> []
       else goal_constraints_ c' = [] /\
            path_constraints_ c' = path_constraints_ c /\
            simple_setup_goal c' = simple_setup_goal c)
    (fun f => f = NullDereference).
Proof.
  unfold setPlanningConstraints.
  apply post_bind, post_modify, post_bind.
  destruct (planning_scene_ c) as [scene |] eqn:Hscene.
  - eapply post_of_Returns;
      [apply (setPlanningConstraints_loop _ _ (set_goal_constraints_ [] c) scene Hscene) |].
    simpl. apply post_bind, post_gets. simpl.
    destruct (stored_sets scene path_constraints goal_constraints)
      as [| kset rest] eqn:Hstored.
    + post_run. repeat split.
    + apply post_bind, post_deref. simpl. rewrite Hscene.
      apply post_bind, post_modify, post_bind.
      eapply post_mono; [apply constructGoal_spec | | tauto].
      intros goal c' (_ & _ & Hgc & Hnull). simpl in *.
      apply post_bind, post_modify.
      destruct goal as [g |]; apply post_ret; simpl.
      * unfold has_goal. simpl. split; [reflexivity |]. rewrite Hgc. discriminate.
      * destruct Hnull as [Hnull _]. discriminate (Hnull eq_refl).
  - destruct goal_constraints as [| g rest].
    + simpl. post_run. repeat split.
    + eapply post_of_Undefined; [| reflexivity].
      apply (setPlanningConstraints_loop_null _ _ (set_goal_constraints_ [] c));
        [exact Hscene | discriminate].
Qed.

Lemma stored_sets_nil (goal_constraints : list Constraints)
    (path_constraints : Constraints) c scene :
  planning_scene_ c = Some scene ->
  Forall (normalizes_to_empty c path_constraints) goal_constraints ->
  stored_sets scene path_constraints goal_constraints = [].
Proof.
  intros Hscene Hall. unfold stored_sets.
  induction Hall as [| g rest (scene' & Hscene' & Hempty) _ IH]; [reflexivity |].
  simpl. rewrite Hscene in Hscene'. injection Hscene' as <-.
  rewrite Hempty. exact IH.
Qed.

(** Claim C4.  When there is no goal constraint, or every goal constraint
    merged with the path constraints gives an empty constraint set,
    setPlanningConstraints returns false, sets the error code, when one is
    asked for, to INVALID_GOAL_CONSTRAINTS, and leaves the stored path
    constraints and the goal of the problem as they were. *)
Theorem setPlanningConstraints_without_goal (goal_constraints : list Constraints)
    (path_constraints : Constraints) error c :
  Forall (normalizes_to_empty c path_constraints) goal_constraints ->
  exists c',
    setPlanningConstraints goal_constraints path_constraints error c =
      Returns ((false, match error with
                       | Some _ => Some INVALID_GOAL_CONSTRAINTS
                       | None => None
                       end), c') /\
    path_constraints_ c' = path_constraints_ c /\
    simple_setup_goal c' = simple_setup_goal c.
Proof.
  intros Hall.
  unfold setPlanningConstraints, bind at 1, modify at 1.
  unfold bind at 1.
  destruct goal_constraints as [| g rest].
  - simpl. eexists. split; [reflexivity |]. split; reflexivity.
  - pose proof Hall as Hfirst. apply Forall_inv in Hfirst.
    destruct Hfirst as (scene & Hscene & _).
    rewrite (setPlanningConstraints_loop _ _ (set_goal_constraints_ [] c) scene)
      by exact Hscene.
    simpl. rewrite (stored_sets_nil _ _ _ _ Hscene Hall). simpl.
    eexists. split; [reflexivity |]. split; reflexivity.
Qed.

(** Claim C10.  When setPlanningConstraints returns false, the stored list
    of goal constraint sets is empty, whatever it held before the call,
    while the stored path constraints and the goal of the problem are those
    of before the call. *)
Theorem setPlanningConstraints_failure (goal_constraints : list Constraints)
    (path_constraints : Constraints) error c error' c' :
  setPlanningConstraints goal_constraints path_constraints error c =
    Returns ((false, error'), c') ->
  goal_constraints_ c' = [] /\
  path_constraints_ c' = path_constraints_ c /\
  simple_setup_goal c' = simple_setup_goal c.
Proof.
  intros Hrun.
  exact (post_Returns _ _ _ _ _ _
           (setPlanningConstraints_spec goal_constraints path_constraints error c) Hrun).
Qed.

End Goals.

(** ** The solve orchestrator *)

Section Solving.

Context `{FT : ForeignTypes} `{CO : !Collaborators}.

Implicit Types (c : ModelBasedPlanningContext) (calls new : list ompl_call)
  (timeout : double) (count : Z).

(** *** Call histories *)

Lemma set_ompl_calls_twice calls calls' c :
  set_ompl_calls calls (set_ompl_calls calls' c) = set_ompl_calls calls c.
Proof. reflexivity. Qed.

Lemma rounds_from_app p calls calls' :
  rounds_from p (calls ++ calls') =
    rounds_from p calls ++ rounds_from (pool_from p calls) calls'.
Proof.
  revert p. induction calls as [| e calls IH]; intros p; [reflexivity |].
  destruct e; simpl; rewrite ?IH; reflexivity.
Qed.

Lemma pool_from_app p calls calls' :
  pool_from p (calls ++ calls') = pool_from (pool_from p calls) calls'.
Proof.
  revert p. induction calls as [| e calls IH]; intros p; [reflexivity |].
  destruct e; simpl; rewrite ?IH; reflexivity.
Qed.

Lemma rounds_from_planners p n c :
  rounds_from p (replicate n (planner_source c)) = [].
Proof.
  revert p. induction n as [| n IH]; intros p; [reflexivity |].
  simpl. unfold planner_source in *.
  destruct (simple_setup_planner_allocator c); simpl; apply IH.
Qed.

Lemma pool_from_planners p n c :
  pool_from p (replicate n (planner_source c)) = p + Z.of_nat n.
Proof.
  revert p. induction n as [| n IH]; intros p; [simpl; lia |].
  rewrite Nat2Z.inj_succ. simpl. unfold planner_source in *.
  destruct (simple_setup_planner_allocator c); simpl; rewrite IH; lia.
Qed.

Lemma planners_not_sampling n c :
  forallb (fun e => negb (is_sampling_call e)) (replicate n (planner_source c)) = true.
Proof.
  induction n as [| n IH]; [reflexivity |].
  simpl. rewrite IH. unfold planner_source.
  destruct (simple_setup_planner_allocator c); reflexivity.
Qed.

Lemma rounds_from_round p c n timeout maxSolCount r :
  rounds_from p (round_calls c n timeout maxSolCount r) =
    [{| round_planners := Z.of_nat n; round_timeout := timeout; round_result := r |}].
Proof.
  unfold round_calls. simpl.
  rewrite rounds_from_app, rounds_from_planners, pool_from_planners. reflexivity.
Qed.

Lemma pool_from_round p c n timeout maxSolCount r :
  pool_from p (round_calls c n timeout maxSolCount r) = Z.of_nat n.
Proof.
  unfold round_calls. simpl.
  rewrite pool_from_app, pool_from_planners. reflexivity.
Qed.

Lemma round_not_sampling c n timeout maxSolCount r :
  forallb (fun e => negb (is_sampling_call e)) (round_calls c n timeout maxSolCount r) = true.
Proof.
  unfold round_calls. simpl. rewrite forallb_app, planners_not_sampling. reflexivity.
Qed.

(** *** The pool of planners *)

Lemma for_planners n (body : M unit) c :
  (forall c', planner_source c' = planner_source c ->
              body c' = Returns (tt, set_ompl_calls (ompl_calls c' ++ [planner_source c]) c')) ->
  for_ n body c =
    Returns (tt, set_ompl_calls (ompl_calls c ++ replicate n (planner_source c)) c).
Proof.
  intros Hbody. revert c Hbody. induction n as [| n IH]; intros c Hbody; simpl.
  - rewrite app_nil_r, set_ompl_calls_same. reflexivity.
  - unfold bind. rewrite Hbody by reflexivity.
    rewrite IH.
    + simpl. rewrite <- app_assoc. reflexivity.
    + intros c' Hc'. apply Hbody. exact Hc'.
Qed.

Lemma addPlanners_spec n c :
  addPlanners n c =
    Returns (tt, set_ompl_calls (ompl_calls c ++ replicate n (planner_source c)) c).
Proof.
  unfold addPlanners, bind, gets.
  destruct (simple_setup_planner_allocator c) as [allocator |] eqn:Halloc.
  - apply for_planners. intros c' Hc'.
    unfold planner_source. rewrite Halloc. reflexivity.
  - apply for_planners. intros c' Hc'.
    unfold planner_source in *. rewrite Halloc in *.
    destruct (simple_setup_planner_allocator c'); [discriminate |].
    injection Hc' as Hgoal. unfold bind, gets, call. rewrite Hgoal. reflexivity.
Qed.

Lemma post_addPlanners n c (Q : unit -> ModelBasedPlanningContext -> Prop) E :
  Q tt (set_ompl_calls (ompl_calls c ++ replicate n (planner_source c)) c) ->
  post (addPlanners n) c Q E.
Proof. intros HQ. eapply post_of_Returns; [apply addPlanners_spec | exact HQ]. Qed.

Lemma planner_source_set_ompl_calls calls c :
  planner_source (set_ompl_calls calls c) = planner_source c.
Proof. reflexivity. Qed.

(** *** The rounds *)

(** The loop of lines 378-389 makes [n] rounds of [max_planning_threads_]
    planners, each with the time limit [timeout]; its result is the
    conjunction of [result] and of the results of the rounds. *)
Lemma post_solve_full_rounds n timeout (result : bool) c
    (Q : bool -> ModelBasedPlanningContext -> Prop) E :
  (forall new result',
     forallb (fun e => negb (is_sampling_call e)) new = true ->
     (forall p, map round_size_and_timeout (rounds_from p new) =
                replicate n (Z.of_nat (Z.to_nat (max_planning_threads_ c)), timeout)) ->
     (forall p, result' = result && forallb round_result (rounds_from p new)) ->
     Q result' (set_ompl_calls (ompl_calls c ++ new) c)) ->
  post (solve_full_rounds n timeout result) c Q E.
Proof.
  revert result c Q. induction n as [| n IH]; intros result c Q HQ.
  - simpl. apply post_ret.
    specialize (HQ [] result). rewrite app_nil_r, set_ompl_calls_same in HQ.
    apply HQ; intros; simpl; rewrite ?andb_true_r; reflexivity.
  - simpl. apply post_bind, post_call, post_bind, post_gets. simpl.
    apply post_bind, post_addPlanners. simpl.
    rewrite planner_source_set_ompl_calls.
    unfold ParallelPlan_solve_. apply post_bind, post_call_returning. simpl.
    set (k := Z.to_nat (max_planning_threads_ c)).
    match goal with
    | |- context [ParallelPlan_solve _ _ _ _ ?b] => set (r := b)
    end.
    apply IH. intros new result' Hsampling Hsizes Hresult. simpl in *.
    rewrite !set_ompl_calls_twice.
    replace (((ompl_calls c ++ [ParallelPlan_clearPlanners]) ++
              replicate k (planner_source c)) ++
             [ParallelPlan_solve timeout 1 (max_planning_threads_ c) true r])
      with (ompl_calls c ++ round_calls c k timeout (max_planning_threads_ c) r)
      by (unfold round_calls; simpl; rewrite <- !app_assoc; reflexivity).
    rewrite <- app_assoc.
    apply HQ.
    + rewrite forallb_app, round_not_sampling. exact Hsampling.
    + intros p. rewrite rounds_from_app, rounds_from_round, pool_from_round.
      simpl. rewrite Hsizes. reflexivity.
    + intros p. rewrite rounds_from_app, rounds_from_round, pool_from_round.
      simpl. rewrite (Hresult (Z.of_nat k)), andb_assoc. reflexivity.
Qed.

(** The last round of lines 390-402 is skipped for [n = 0]. *)
Lemma post_solve_partial_round (n : Z) timeout (result : bool) c
    (Q : bool -> ModelBasedPlanningContext -> Prop) E :
  (forall new result',
     forallb (fun e => negb (is_sampling_call e)) new = true ->
     (forall p, map round_size_and_timeout (rounds_from p new) =
                if n =? 0 then [] else [(Z.of_nat (Z.to_nat n), timeout)]) ->
     (forall p, result' = result && forallb round_result (rounds_from p new)) ->
     Q result' (set_ompl_calls (ompl_calls c ++ new) c)) ->
  post (solve_partial_round n timeout result) c Q E.
Proof.
  intros HQ. unfold solve_partial_round. destruct (n =? 0) eqn:Hn.
  - apply post_ret.
    specialize (HQ [] result). rewrite app_nil_r, set_ompl_calls_same in HQ.
    apply HQ; intros; simpl; rewrite ?andb_true_r; reflexivity.
  - apply post_bind, post_call, post_bind, post_addPlanners. simpl.
    rewrite planner_source_set_ompl_calls.
    unfold ParallelPlan_solve_. apply post_bind, post_call_returning. simpl.
    apply post_ret.
    match goal with
    | |- context [ParallelPlan_solve _ _ _ _ ?b] => set (r := b)
    end.
    rewrite !set_ompl_calls_twice.
    replace (((ompl_calls c ++ [ParallelPlan_clearPlanners]) ++
              replicate (Z.to_nat n) (planner_source c)) ++
             [ParallelPlan_solve timeout 1 n true r])
      with (ompl_calls c ++ round_calls c (Z.to_nat n) timeout n r)
      by (unfold round_calls; simpl; rewrite <- !app_assoc; reflexivity).
    apply HQ.
    + apply round_not_sampling.
    + intros p. rewrite rounds_from_round. reflexivity.
    + intros p. rewrite rounds_from_round. simpl. rewrite andb_true_r. reflexivity.
Qed.

Lemma to_int_in_range (z : Z) : 0 <= z <= INT_MAX -> to_int z = z.
Proof.
  unfold INT_MAX, to_int. intros Hz.
  rewrite Z.mod_small by lia.
  destruct (z <? 2 ^ 31) eqn:Hlt; [reflexivity |].
  apply Z.ltb_ge in Hlt. lia.
Qed.

(** Lines 375-403: the rounds that are made, as the code counts them. *)
Lemma post_solve_in_rounds timeout count c (Q : bool -> ModelBasedPlanningContext -> Prop) :
  max_planning_threads_ c <> 0 ->
  (forall new result c',
     ompl_calls c' = ompl_calls c ++ new ->
     simple_setup_goal c' = simple_setup_goal c ->
     forallb (fun e => negb (is_sampling_call e)) new = true ->
     (forall p, map round_size_and_timeout (rounds_from p new) =
        replicate (Z.to_nat (to_int (count / max_planning_threads_ c)))
                  (Z.of_nat (Z.to_nat (max_planning_threads_ c)), timeout) ++
        (if to_int (count mod max_planning_threads_ c) =? 0 then []
         else [(Z.of_nat (Z.to_nat (to_int (count mod max_planning_threads_ c))),
                timeout)])) ->
     (forall p, result = forallb round_result (rounds_from p new)) ->
     Q result c') ->
  post (solve_in_rounds timeout count) c Q no_fault.
Proof.
  intros Hthreads HQ. unfold solve_in_rounds, unsigned_div, unsigned_mod.
  apply post_bind, post_ask, post_bind, post_gets, post_bind.
  apply Z.eqb_neq in Hthreads. rewrite Hthreads.
  apply post_ret, post_bind, post_solve_full_rounds.
  intros new1 result1 Hsampling1 Hsizes1 Hresult1.
  apply post_bind, post_ret, post_bind, post_solve_partial_round.
  intros new2 result2 Hsampling2 Hsizes2 Hresult2.
  apply post_bind, post_ask, post_bind, post_modify, post_ret.
  simpl in *.
  apply (HQ (new1 ++ new2)).
  - simpl. rewrite app_assoc. reflexivity.
  - reflexivity.
  - rewrite forallb_app, Hsampling1, Hsampling2. reflexivity.
  - intros p. rewrite rounds_from_app, map_app, Hsizes1, Hsizes2. reflexivity.
  - intros p. rewrite rounds_from_app, forallb_app.
    rewrite (Hresult2 (pool_from p new1)), (Hresult1 p). reflexivity.
Qed.

(** Lines 362-371: one round of [count] planners. *)
Lemma post_solve_one_round timeout count c (Q : bool -> ModelBasedPlanningContext -> Prop) E :
  (forall r c',
     ompl_calls c' = ompl_calls c ++ round_calls c (Z.to_nat count) timeout count r ->
     simple_setup_goal c' = simple_setup_goal c ->
     Q r c') ->
  post (solve_one_round timeout count) c Q E.
Proof.
  intros HQ. unfold solve_one_round, ParallelPlan_solve_.
  apply post_bind, post_call, post_bind, post_addPlanners, post_bind, post_ask.
  apply post_bind, post_call_returning, post_bind, post_ask.
  apply post_bind, post_modify, post_ret. simpl.
  eapply HQ; [| reflexivity].
  simpl. unfold round_calls. simpl. rewrite <- !app_assoc. reflexivity.
Qed.

(** Lines 352-354: one call of the sequential solver. *)
Lemma post_solve_once timeout c (Q : bool -> ModelBasedPlanningContext -> Prop) E :
  (forall r c',
     ompl_calls c' = ompl_calls c ++ [SimpleSetup_solve timeout r] ->
     simple_setup_goal c' = simple_setup_goal c ->
     Q r c') ->
  post (solve_once timeout) c Q E.
Proof.
  intros HQ. unfold solve_once.
  apply post_bind, post_gets, post_bind, post_ROS_LOG.
  apply post_bind, post_call_returning, post_bind, post_ask.
  apply post_bind, post_modify, post_ret. simpl.
  eapply HQ; reflexivity.
Qed.

(** Lines 350-405.  The dispatch returns unless it divides by a zero
    [max_planning_threads_]; it makes no call on the sampling of goals; for
    [0 < max_planning_threads_ < count <= INT_MAX] its rounds are those the
    spec describes, and its result is the conjunction of their results. *)
Lemma post_solve_dispatch timeout count c (Q : bool -> ModelBasedPlanningContext -> Prop) :
  count <= 1 \/ max_planning_threads_ c <> 0 ->
  (forall new result c',
     ompl_calls c' = ompl_calls c ++ new ->
     simple_setup_goal c' = simple_setup_goal c ->
     forallb (fun e => negb (is_sampling_call e)) new = true ->
     (0 < max_planning_threads_ c < count -> count <= INT_MAX ->
      (forall p, map round_size_and_timeout (rounds_from p new) =
                 expected_rounds count (max_planning_threads_ c) timeout) /\
      (forall p, result = forallb round_result (rounds_from p new))) ->
     Q result c') ->
  post (solve_dispatch timeout count) c Q no_fault.
Proof.
  intros Hdefined HQ. unfold solve_dispatch.
  destruct (count <=? 1) eqn:Hcount.
  - apply post_solve_once. intros r c' Hcalls Hgoal.
    apply (HQ _ r c' Hcalls Hgoal); [reflexivity |].
    apply Z.leb_le in Hcount. intros Hrange. lia.
  - apply Z.leb_gt in Hcount.
    apply post_bind, post_gets, post_bind, post_ROS_LOG, post_bind, post_call.
    apply post_bind, post_gets. simpl.
    destruct (count <=? max_planning_threads_ c) eqn:Hfits.
    + apply post_solve_one_round. intros r c' Hcalls Hgoal. simpl in *.
      apply (HQ (ParallelPlan_clearHybridizationPaths ::
                 round_calls c (Z.to_nat count) timeout count r) r c').
      * rewrite Hcalls, <- app_assoc. reflexivity.
      * exact Hgoal.
      * simpl. apply round_not_sampling.
      * apply Z.leb_le in Hfits. intros Hrange. lia.
    + apply Z.leb_gt in Hfits.
      assert (Hthreads : max_planning_threads_ c <> 0) by (destruct Hdefined; lia).
      apply post_solve_in_rounds; [exact Hthreads |].
      intros new result c' Hcalls Hgoal Hsampling Hsizes Hresult. simpl in *.
      apply (HQ (ParallelPlan_clearHybridizationPaths :: new) result c').
      * rewrite Hcalls, <- app_assoc. reflexivity.
      * exact Hgoal.
      * exact Hsampling.
      * intros [Hpos Hlt] Hmax. split; [| intros p; apply (Hresult p)].
        intros p. simpl. rewrite Hsizes. unfold expected_rounds.
        assert (Hq : 0 <= count / max_planning_threads_ c <= INT_MAX).
        { split; [apply Z.div_pos; lia |].
          apply Z.le_trans with count; [| exact Hmax].
          apply Z.div_le_upper_bound; nia. }
        assert (Hr : 0 <= count mod max_planning_threads_ c <= INT_MAX).
        { pose proof (Z.mod_pos_bound count (max_planning_threads_ c) Hpos).
          pose proof (Z.mod_le count (max_planning_threads_ c)). lia. }
        rewrite !(to_int_in_range _ Hq), !(to_int_in_range _ Hr).
        rewrite !Z2Nat.id by lia. reflexivity.
Qed.

(** *** Before and after the dispatch *)

Lemma preparation_quiet calls :
  forallb is_preparation calls = true -> forallb is_quiet calls = true.
Proof.
  induction calls as [| e calls IH]; [reflexivity |].
  simpl. intros [He Hcalls]%andb_prop. rewrite IH by exact Hcalls.
  destruct e; try discriminate; reflexivity.
Qed.

Lemma preparation_not_sampling calls :
  forallb is_preparation calls = true ->
  forallb (fun e => negb (is_sampling_call e)) calls = true.
Proof.
  induction calls as [| e calls IH]; [reflexivity |].
  simpl. intros [He Hcalls]%andb_prop. rewrite IH by exact Hcalls.
  destruct e; try discriminate; reflexivity.
Qed.

Lemma rounds_from_preparation p calls :
  forallb is_preparation calls = true ->
  rounds_from p calls = [] /\ pool_from p calls = p.
Proof.
  induction calls as [| e calls IH]; [split; reflexivity |].
  simpl. intros [He Hcalls]%andb_prop.
  destruct e; try discriminate; simpl; apply IH, Hcalls.
Qed.

Lemma rounds_from_sampling_call p gls e :
  is_sampling_call e = true ->
  rounds_from p (sampling_call gls e) = [] /\ pool_from p (sampling_call gls e) = p.
Proof. destruct gls, e; try discriminate; split; reflexivity. Qed.

(** Lines 335-347. *)
Lemma post_solve_prepare c goal (Q : bool -> ModelBasedPlanningContext -> Prop) E :
  simple_setup_goal c = Some goal ->
  (forall before after,
     forallb is_preparation before = true ->
     forallb is_preparation after = true ->
     Q (hasType_GOAL_LAZY_SAMPLES goal)
       (set_ompl_calls
          (ompl_calls c ++ before ++
           sampling_call (hasType_GOAL_LAZY_SAMPLES goal) Goal_startSampling ++ after)
          c)) ->
  post solve_prepare c Q E.
Proof.
  intros Hgoal HQ. unfold solve_prepare, fixInvalidInputStates, when_.
  apply post_bind, post_deref. rewrite Hgoal.
  apply post_bind, post_call, post_bind, post_ask. simpl.
  destruct (getPlanner (ompl_calls c ++ [Goal_clearSolutionPaths])) eqn:Hplanner.
  - apply post_bind, post_call, post_bind, post_deref. simpl. rewrite Hgoal.
    destruct (hasType_GOAL_LAZY_SAMPLES goal) eqn:Hgls.
    + apply post_bind, post_call, post_bind, post_ask, post_bind, post_call_returning.
      simpl. post_run; rewrite !set_ompl_calls_twice, <- !app_assoc; simpl.
      all: first [ apply (HQ [Goal_clearSolutionPaths; Planner_clear] [_]); reflexivity
                 | apply (HQ [Goal_clearSolutionPaths; Planner_clear] [_; _]); reflexivity ].
    + apply post_bind, post_ret, post_bind, post_ask, post_bind, post_call_returning.
      simpl. post_run; rewrite !set_ompl_calls_twice, <- !app_assoc; simpl.
      all: first [ apply (HQ [Goal_clearSolutionPaths; Planner_clear] [_]); reflexivity
                 | apply (HQ [Goal_clearSolutionPaths; Planner_clear] [_; _]); reflexivity ].
  - apply post_bind, post_ret, post_bind, post_deref. simpl. rewrite Hgoal.
    destruct (hasType_GOAL_LAZY_SAMPLES goal) eqn:Hgls.
    + apply post_bind, post_call, post_bind, post_ask, post_bind, post_call_returning.
      simpl. post_run; rewrite !set_ompl_calls_twice, <- !app_assoc; simpl.
      all: first [ apply (HQ [Goal_clearSolutionPaths] [_]); reflexivity
                 | apply (HQ [Goal_clearSolutionPaths] [_; _]); reflexivity ].
    + apply post_bind, post_ret, post_bind, post_ask, post_bind, post_call_returning.
      simpl. post_run; rewrite ?set_ompl_calls_twice, <- ?app_assoc; simpl.
      all: first [ apply (HQ [Goal_clearSolutionPaths] [_]); reflexivity
                 | apply (HQ [Goal_clearSolutionPaths] [_; _]); reflexivity ].
Qed.

(** Lines 407-414. *)
Lemma post_solve_finish (gls result : bool) c goal
    (Q : bool -> ModelBasedPlanningContext -> Prop) E :
  simple_setup_goal c = Some goal ->
  (forall c',
     ompl_calls c' = ompl_calls c ++ sampling_call gls Goal_stopSampling ->
     simple_setup_goal c' = simple_setup_goal c ->
     Q result c') ->
  post (solve_finish gls result) c Q E.
Proof.
  intros Hgoal HQ. unfold solve_finish, when_.
  destruct gls.
  - apply post_bind, post_call, post_bind, post_deref. simpl. rewrite Hgoal.
    post_run; apply HQ; reflexivity.
  - apply post_bind, post_ret, post_bind, post_deref. rewrite Hgoal.
    post_run; apply HQ; simpl; rewrite ?app_nil_r; reflexivity.
Qed.

(** *** solve *)

(** solve returns when the problem has a goal, unless it divides by a zero
    [max_planning_threads_].  Its calls are the preparation, the start of
    the sampling for a lazily sampled goal, the solving and the stop of the
    sampling; the goal of the problem is kept. *)
Lemma solve_spec timeout count c goal (Q : bool -> ModelBasedPlanningContext -> Prop) :
  simple_setup_goal c = Some goal ->
  count <= 1 \/ max_planning_threads_ c <> 0 ->
  (forall before during result c',
     ompl_calls c' =
       ompl_calls c ++ before ++
       sampling_call (hasType_GOAL_LAZY_SAMPLES goal) Goal_startSampling ++
       during ++
       sampling_call (hasType_GOAL_LAZY_SAMPLES goal) Goal_stopSampling ->
     simple_setup_goal c' = simple_setup_goal c ->
     forallb is_preparation before = true ->
     forallb (fun e => negb (is_sampling_call e)) during = true ->
     (0 < max_planning_threads_ c < count -> count <= INT_MAX ->
      (forall p, map round_size_and_timeout (rounds_from p during) =
                 expected_rounds count (max_planning_threads_ c) timeout) /\
      (forall p, result = forallb round_result (rounds_from p during))) ->
     Q result c') ->
  post (solve timeout count) c Q no_fault.
Proof.
  intros Hgoal Hdefined HQ. unfold solve.
  apply post_bind, (post_solve_prepare c goal); [exact Hgoal |].
  intros before after Hbefore Hafter.
  apply post_bind, post_solve_dispatch; [exact Hdefined |].
  intros new result c1 Hcalls1 Hgoal1 Hsampling Hrounds. simpl in *.
  apply (post_solve_finish _ _ c1 goal); [congruence |].
  intros c' Hcalls' Hgoal'.
  apply (HQ before (after ++ new) result c').
  - rewrite Hcalls', Hcalls1, <- !app_assoc. reflexivity.
  - congruence.
  - exact Hbefore.
  - rewrite forallb_app, (preparation_not_sampling _ Hafter). exact Hsampling.
  - intros Hrange Hmax. destruct (Hrounds Hrange Hmax) as [Hsizes Hresult].
    split; intros p; rewrite rounds_from_app;
      destruct (rounds_from_preparation p after Hafter) as [-> ->]; simpl; auto.
Qed.

Lemma solve_null_goal timeout count c :
  simple_setup_goal c = None -> solve timeout count c = Undefined NullDereference.
Proof.
  intros Hgoal. unfold solve, solve_prepare, bind, deref. rewrite Hgoal. reflexivity.
Qed.

(** With a goal, more than one attempt and [max_planning_threads_ = 0]
    (the value the constructor sets), line 376 divides by zero. *)
Lemma solve_divides_by_zero timeout count c goal :
  simple_setup_goal c = Some goal ->
  1 < count -> max_planning_threads_ c = 0 ->
  solve timeout count c = Undefined DivisionByZero.
Proof.
  intros Hgoal Hcount Hthreads.
  assert (H : post (solve timeout count) c (fun _ _ => False)
                (fun f => f = DivisionByZero)).
  { unfold solve. apply post_bind, (post_solve_prepare c goal); [exact Hgoal |].
    intros before after _ _. apply post_bind.
    unfold solve_dispatch.
    apply Z.leb_gt in Hcount as Hcount'. rewrite Hcount'.
    apply post_bind, post_gets, post_bind, post_ROS_LOG, post_bind, post_call.
    apply post_bind, post_gets. simpl. rewrite Hthreads.
    assert (Hfits : (count <=? 0) = false) by (apply Z.leb_gt; lia).
    rewrite Hfits. unfold solve_in_rounds, unsigned_div.
    apply post_bind, post_ask, post_bind, post_gets. simpl. rewrite Hthreads.
    apply post_bind. simpl. apply post_undefined. reflexivity. }
  unfold post in H. destruct (solve timeout count c) as [[r c'] | f];
    [destruct H | rewrite H; reflexivity].
Qed.

(** The rounds of solve for [0 < max_planning_threads_ < count <= INT_MAX]:
    those the spec describes, every one with the time limit of the call, and
    the result is the conjunction of their results. *)
Lemma solve_rounds timeout count c goal :
  simple_setup_goal c = Some goal ->
  0 < max_planning_threads_ c < count -> count <= INT_MAX ->
  exists result c' new,
    solve timeout count c = Returns (result, c') /\
    ompl_calls c' = ompl_calls c ++ new /\
    map round_size_and_timeout (rounds new) =
      expected_rounds count (max_planning_threads_ c) timeout /\
    result = forallb round_result (rounds new).
Proof.
  intros Hgoal Hrange Hmax.
  cut (post (solve timeout count) c
         (fun result c' =>
            exists new,
              ompl_calls c' = ompl_calls c ++ new /\
              map round_size_and_timeout (rounds new) =
                expected_rounds count (max_planning_threads_ c) timeout /\
              result = forallb round_result (rounds new))
         no_fault).
  { intros H. destruct (post_no_fault _ _ _ H) as (result & c' & Hrun & new & Hnew).
    exists result, c', new. split; [exact Hrun | exact Hnew]. }
  apply (solve_spec timeout count c goal); [exact Hgoal | right; lia |].
  intros before during result c' Hcalls _ Hbefore _ Hrounds.
  destruct (Hrounds Hrange Hmax) as [Hsizes Hresult].
  eexists. split; [exact Hcalls |].
  destruct (rounds_from_preparation 0 before Hbefore) as [Hb1 Hb2].
  destruct (rounds_from_sampling_call 0 (hasType_GOAL_LAZY_SAMPLES goal)
              Goal_startSampling eq_refl) as [Hs1 Hs2].
  unfold rounds.
  rewrite !rounds_from_app, Hb1, Hb2, Hs1, Hs2. simpl.
  destruct (rounds_from_sampling_call (pool_from 0 during)
              (hasType_GOAL_LAZY_SAMPLES goal) Goal_stopSampling eq_refl) as [-> _].
  rewrite app_nil_r. split; [apply Hsizes | apply Hresult].
Qed.

(** Claim C8.  When the goal of the problem is sampled lazily, solve starts
    the sampling after a preparation that neither solves nor touches the
    sampling, makes all its solving calls after that start without another
    call on the sampling, and stops the sampling as its last call on OMPL:
    it returns with the sampling stopped, for every result of the solvers
    and in the sequential and the parallel dispatch alike.  solve returns
    in all cases but one: more than one attempt with
    [max_planning_threads_ = 0], where line 376 divides by zero and solve
    does not return. *)
Theorem solve_brackets_sampling timeout count c goal :
  simple_setup_goal c = Some goal ->
  hasType_GOAL_LAZY_SAMPLES goal = true ->
  (count <= 1 \/ max_planning_threads_ c <> 0 ->
   exists result c' before during,
     solve timeout count c = Returns (result, c') /\
     ompl_calls c' =
       ompl_calls c ++ before ++ [Goal_startSampling] ++ during ++ [Goal_stopSampling] /\
     forallb is_quiet before = true /\
     forallb (fun e => negb (is_sampling_call e)) during = true /\
     forall running, sampling_after running (ompl_calls c') = false) /\
  (1 < count -> max_planning_threads_ c = 0 ->
   solve timeout count c = Undefined DivisionByZero).
Proof.
  intros Hgoal Hgls. split.
  - intros Hdefined.
    cut (post (solve timeout count) c
           (fun result c' =>
              exists before during,
                ompl_calls c' =
                  ompl_calls c ++ before ++ [Goal_startSampling] ++ during ++
                  [Goal_stopSampling] /\
                forallb is_quiet before = true /\
                forallb (fun e => negb (is_sampling_call e)) during = true /\
                forall running, sampling_after running (ompl_calls c') = false)
           no_fault).
    { intros H.
      destruct (post_no_fault _ _ _ H) as (result & c' & Hrun & before & during & Hc').
      exists result, c', before, during. split; [exact Hrun | exact Hc']. }
    apply (solve_spec timeout count c goal); [exact Hgoal | exact Hdefined |].
    rewrite Hgls. simpl.
    intros before during result c' Hcalls _ Hbefore Hduring _.
    exists before, during. split; [exact Hcalls |].
    split; [apply preparation_quiet, Hbefore |]. split; [exact Hduring |].
    intros running. rewrite Hcalls. unfold sampling_after.
    replace (ompl_calls c ++ before ++ Goal_startSampling :: during ++ [Goal_stopSampling])
      with ((ompl_calls c ++ before ++ Goal_startSampling :: during) ++ [Goal_stopSampling])
      by (rewrite <- !app_assoc; reflexivity).
    rewrite fold_left_app. reflexivity.
  - intros Hcount Hthreads. exact (solve_divides_by_zero _ _ _ _ Hgoal Hcount Hthreads).
Qed.

(** solve keeps the goal of the problem. *)
Lemma solve_keeps_goal timeout count c :
  post (solve timeout count) c
    (fun _ c' => simple_setup_goal c' = simple_setup_goal c) any_fault.
Proof.
  assert (Hreturns : forall goal,
             simple_setup_goal c = Some goal ->
             count <= 1 \/ max_planning_threads_ c <> 0 ->
             post (solve timeout count) c
               (fun _ c' => simple_setup_goal c' = simple_setup_goal c) any_fault).
  { intros goal Hgoal Hdefined.
    apply (post_mono _ _ (fun _ c' => simple_setup_goal c' = simple_setup_goal c)
             _ no_fault); [| auto | intros f []].
    apply (solve_spec timeout count c goal); [exact Hgoal | exact Hdefined |].
    intros before during result c' _ Hkeep _ _ _. exact Hkeep. }
  destruct (simple_setup_goal c) as [goal |] eqn:Hgoal.
  - destruct (Z_le_gt_dec count 1) as [Hcount | Hcount];
      [apply (Hreturns goal eq_refl); left; exact Hcount |].
    destruct (Z.eq_dec (max_planning_threads_ c) 0) as [Hthreads | Hthreads];
      [| apply (Hreturns goal eq_refl); right; exact Hthreads].
    eapply post_of_Undefined; [| exact I].
    apply (solve_divides_by_zero _ _ _ goal); [exact Hgoal | lia | exact Hthreads].
  - eapply post_of_Undefined; [apply solve_null_goal; exact Hgoal | exact I].
Qed.

End Solving.

(** ** The goal of the problem along a history of calls *)

Section GoalLifecycle.

Context `{FT : ForeignTypes} `{CO : !Collaborators}.

Implicit Types (c : ModelBasedPlanningContext) (history : list api_call).

Lemma useConfig_keeps_goal (config : gmap string string) c :
  post (useConfig config) c
    (fun _ c' => simple_setup_goal c' = simple_setup_goal c) any_fault.
Proof.
  unfold useConfig, useConfig_projection_evaluator, useConfig_max_velocity,
    useConfig_max_acceleration, useConfig_planner, setProjectionEvaluator.
  post_run; reflexivity.
Qed.

Lemma interpolateSolution_keeps_goal c :
  post interpolateSolution c
    (fun _ c' => simple_setup_goal c' = simple_setup_goal c) any_fault.
Proof. unfold interpolateSolution. post_run; first [reflexivity | exact I]. Qed.

(** clear() returns and leaves the problem without a goal, and the context
    without constraints. *)
Lemma clear_spec c :
  exists c',
    clear c = Returns (tt, c') /\
    simple_setup_goal c' = None /\
    path_constraints_ c' = None /\ goal_constraints_ c' = [].
Proof. eexists. split; [reflexivity |]. repeat split. Qed.

(** What one call does to the presence of a goal. *)
Lemma perform_spec (a : api_call) c :
  post (perform a) c
    (fun r c' => has_goal c' = installed_after (has_goal c) a r) any_fault.
Proof.
  destruct a as [config | | scene | s | | goal_constraints path_constraints error
                | timeout count]; simpl.
  - apply post_bind.
    eapply post_mono; [apply useConfig_keeps_goal | | auto].
    intros [] c' Hgoal. simpl in Hgoal. apply post_ret. unfold has_goal.
    rewrite Hgoal. reflexivity.
  - apply post_bind.
    eapply post_mono; [apply interpolateSolution_keeps_goal | | auto].
    intros [] c' Hgoal. simpl in Hgoal. apply post_ret. unfold has_goal.
    rewrite Hgoal. reflexivity.
  - unfold setPlanningScene, clear. post_run. reflexivity.
  - unfold setStartState, clear. post_run. reflexivity.
  - unfold clear. post_run. reflexivity.
  - apply post_bind.
    eapply post_mono; [apply setPlanningConstraints_spec | | intros f _; exact I].
    intros [[] error'] c'; simpl.
    + intros [Hgoal _]. apply post_ret. exact Hgoal.
    + intros (_ & _ & Hgoal). apply post_ret. unfold has_goal. rewrite Hgoal. reflexivity.
  - eapply post_mono; [apply solve_keeps_goal | | auto].
    intros r c' Hgoal. unfold has_goal. rewrite Hgoal. reflexivity.
Qed.

(** After a history, the problem has a goal exactly when a
    setPlanningConstraints succeeded with no clear() since. *)
Lemma perform_all_spec history c :
  post (perform_all history) c
    (fun results c' => has_goal c' = goal_installed (has_goal c) history results)
    any_fault.
Proof.
  revert c. induction history as [| a history IH]; intros c; simpl.
  - apply post_ret. reflexivity.
  - apply post_bind.
    eapply post_mono; [apply perform_spec | | auto].
    intros r c1 H1. apply post_bind.
    eapply post_mono; [apply IH | | auto].
    intros results c2 H2. apply post_ret. simpl. rewrite H2, H1. reflexivity.
Qed.

(** solve dereferences a null pointer exactly when the problem has no
    goal. *)
Lemma solve_null_dereference timeout count c :
  solve timeout count c = Undefined NullDereference <-> simple_setup_goal c = None.
Proof.
  split; [| apply solve_null_goal].
  intros Hrun. destruct (simple_setup_goal c) as [goal |] eqn:Hgoal; [| reflexivity].
  exfalso.
  destruct (Z_le_gt_dec count 1) as [Hcount | Hcount];
    [| destruct (Z.eq_dec (max_planning_threads_ c) 0) as [Hthreads | Hthreads]].
  - assert (H : post (solve timeout count) c (fun _ _ => True) no_fault).
    { apply (solve_spec timeout count c goal); [exact Hgoal | left; exact Hcount | auto]. }
    exact (post_Undefined _ _ _ _ _ H Hrun).
  - rewrite (solve_divides_by_zero timeout count c goal) in Hrun
      by (first [exact Hgoal | exact Hthreads | lia]).
    discriminate Hrun.
  - assert (H : post (solve timeout count) c (fun _ _ => True) no_fault).
    { apply (solve_spec timeout count c goal); [exact Hgoal | right; exact Hthreads | auto]. }
    exact (post_Undefined _ _ _ _ _ H Hrun).
Qed.

(** Claim C9.  Let a context be left by a history of calls from a context
    without a goal (as the constructor leaves it).  solve dereferences the
    goal of the problem first: it dereferences a null pointer exactly when
    the problem has no goal, that is, exactly when no setPlanningConstraints
    of the history succeeded without a clear() after it (setPlanningScene
    and setStartState call clear()).  In particular solve called right after
    clear() dereferences a null pointer. *)
Theorem solve_dereferences_goal c0 history results c timeout count :
  simple_setup_goal c0 = None ->
  perform_all history c0 = Returns (results, c) ->
  (solve timeout count c = Undefined NullDereference <-> simple_setup_goal c = None) /\
  (simple_setup_goal c = None <-> goal_installed false history results = false) /\
  (exists c', clear c = Returns (tt, c') /\
              solve timeout count c' = Undefined NullDereference).
Proof.
  intros Hnull Hrun. split; [apply solve_null_dereference |]. split.
  - pose proof (post_Returns _ _ _ _ _ _ (perform_all_spec history c0) Hrun) as Hgoal.
    unfold has_goal in Hgoal. rewrite Hnull in Hgoal. rewrite <- Hgoal.
    destruct (simple_setup_goal c); split; intros H;
      first [reflexivity | discriminate H].
  - destruct (clear_spec c) as (c' & Hclear & Hgoal & _).
    exists c'. split; [exact Hclear | apply solve_null_goal, Hgoal].
Qed.

End GoalLifecycle.

(** ** More on the configuration resolver *)

Section ConfigurationEffects.

Context `{FT : ForeignTypes} `{CO : !Collaborators}.

Implicit Types (c : ModelBasedPlanningContext) (config cfg : gmap string string).

(** What the blocks of useConfig do to the calls and to the allocator. *)
Lemma useConfig_projection_evaluator_calls cfg c :
  post (useConfig_projection_evaluator cfg) c
    (fun cfg' c' =>
       cfg' = delete "projection_evaluator" cfg /\
       ompl_calls c' = ompl_calls c ++ projection_calls cfg c /\
       spec_planner_allocator_ c' = spec_planner_allocator_ c /\
       simple_setup_planner_allocator c' = simple_setup_planner_allocator c)
    no_fault.
Proof.
  unfold useConfig_projection_evaluator, setProjectionEvaluator, projection_calls.
  post_run; (split; [first [reflexivity | by rewrite delete_id] |]);
    repeat split; rewrite ?app_nil_r; try reflexivity.
  all: match goal with H : getProjectionEvaluator _ = _ |- _ => rewrite H end.
  all: simpl; rewrite ?app_nil_r; reflexivity.
Qed.

Lemma useConfig_max_velocity_calls cfg c :
  post (useConfig_max_velocity cfg) c
    (fun cfg' c' =>
       cfg' = delete "max_velocity" cfg /\
       ompl_calls c' = ompl_calls c /\
       spec_planner_allocator_ c' = spec_planner_allocator_ c /\
       simple_setup_planner_allocator c' = simple_setup_planner_allocator c)
    no_fault.
Proof.
  unfold useConfig_max_velocity.
  post_run; (split; [first [reflexivity | by rewrite delete_id] |]);
    repeat split.
Qed.

Lemma useConfig_max_acceleration_calls cfg c :
  post (useConfig_max_acceleration cfg) c
    (fun cfg' c' =>
       cfg' = delete "max_acceleration" cfg /\
       ompl_calls c' = ompl_calls c /\
       spec_planner_allocator_ c' = spec_planner_allocator_ c /\
       simple_setup_planner_allocator c' = simple_setup_planner_allocator c)
    no_fault.
Proof.
  unfold useConfig_max_acceleration.
  post_run; (split; [first [reflexivity | by rewrite delete_id] |]);
    repeat split.
Qed.

Lemma useConfig_planner_calls cfg c :
  post (useConfig_planner cfg) c
    (fun _ c' =>
       ompl_calls c' =
         ompl_calls c ++
         [SpaceInformation_setup; SpaceInformation_setParams (delete "type" cfg) true] /\
       simple_setup_planner_allocator c' =
         match cfg !! "type" with
         | Some type =>
             Some {| bound_allocator := spec_planner_allocator_ c;
                     bound_type := type;
                     bound_config := delete "type" cfg |}
         | None => simple_setup_planner_allocator c
         end)
    no_fault.
Proof.
  unfold useConfig_planner.
  post_run; rewrite <- ?app_assoc; simpl; rewrite ?delete_id by assumption;
    split; reflexivity.
Qed.

(** The calls that useConfig makes on OMPL and the planner allocator it
    leaves. *)
Lemma useConfig_effects config c :
  post (useConfig config) c
    (fun _ c' =>
       ompl_calls c' = ompl_calls c ++ projection_calls config c ++ parameter_calls config /\
       simple_setup_planner_allocator c' =
         match config !! "type" with
         | Some type =>
             Some {| bound_allocator := spec_planner_allocator_ c;
                     bound_type := type;
                     bound_config := planner_parameters config |}
         | None => simple_setup_planner_allocator c
         end)
    no_fault.
Proof.
  unfold useConfig, parameter_calls. destruct (bool_decide (config = ∅)) eqn:Hempty.
  - apply bool_decide_eq_true in Hempty. subst config.
    apply post_ret. unfold projection_calls, residual.
    rewrite !lookup_empty, !delete_empty.
    rewrite bool_decide_eq_true_2 by reflexivity.
    rewrite !app_nil_r. split; reflexivity.
  - apply post_bind.
    eapply post_mono; [apply useConfig_projection_evaluator_calls | | tauto].
    intros cfg1 c1 (-> & Hcalls1 & Hspec1 & Halloc1). simpl.
    apply post_bind.
    eapply post_mono; [apply useConfig_max_velocity_calls | | tauto].
    intros cfg2 c2 (-> & Hcalls2 & Hspec2 & Halloc2). simpl.
    apply post_bind.
    eapply post_mono; [apply useConfig_max_acceleration_calls | | tauto].
    intros cfg3 c3 (-> & Hcalls3 & Hspec3 & Halloc3). simpl.
    fold (residual config).
    destruct (bool_decide (residual config = ∅)) eqn:Hres.
    + apply post_ret. split.
      * rewrite Hcalls3, Hcalls2, Hcalls1, app_nil_r. reflexivity.
      * apply bool_decide_eq_true in Hres.
        assert (Htype : config !! "type" = None).
        { rewrite <- (lookup_empty (M := gmap string) (A := string) "type"), <- Hres.
          unfold residual. rewrite !lookup_delete_ne by done. reflexivity. }
        rewrite Htype. congruence.
    + eapply post_mono; [apply useConfig_planner_calls | | tauto].
      intros [] c4 (Hcalls4 & Halloc4). simpl. split.
      * rewrite Hcalls4, Hcalls3, Hcalls2, Hcalls1, <- app_assoc. reflexivity.
      * rewrite Halloc4. unfold residual at 1. rewrite !lookup_delete_ne by done.
        destruct (config !! "type"); [| congruence].
        unfold planner_parameters. congruence.
Qed.

Lemma configuration_frame_refl c : configuration_frame c c.
Proof. unfold configuration_frame. destruct c; reflexivity. Qed.

Lemma configuration_frame_trans c1 c2 c3 :
  configuration_frame c1 c2 -> configuration_frame c2 c3 -> configuration_frame c1 c3.
Proof.
  unfold configuration_frame. intros H12 H23.
  rewrite H23 at 1. rewrite H12 at 1. reflexivity.
Qed.

Lemma setProjectionEvaluator_frame peval c :
  post (setProjectionEvaluator peval) c (fun _ c' => configuration_frame c c') no_fault.
Proof.
  unfold setProjectionEvaluator.
  post_run; first [apply configuration_frame_refl | unfold configuration_frame; reflexivity].
Qed.

Lemma useConfig_projection_evaluator_frame cfg c :
  post (useConfig_projection_evaluator cfg) c
    (fun _ c' => configuration_frame c c') no_fault.
Proof.
  unfold useConfig_projection_evaluator.
  destruct (cfg !! "projection_evaluator"); [| apply post_ret, configuration_frame_refl].
  apply post_bind.
  eapply post_mono; [apply setProjectionEvaluator_frame | | tauto].
  intros [] c' Hframe. apply post_ret. exact Hframe.
Qed.

Lemma useConfig_max_velocity_frame cfg c :
  post (useConfig_max_velocity cfg) c (fun _ c' => configuration_frame c c') no_fault.
Proof.
  unfold useConfig_max_velocity.
  post_run; first [apply configuration_frame_refl | unfold configuration_frame; reflexivity].
Qed.

Lemma useConfig_max_acceleration_frame cfg c :
  post (useConfig_max_acceleration cfg) c (fun _ c' => configuration_frame c c') no_fault.
Proof.
  unfold useConfig_max_acceleration.
  post_run; first [apply configuration_frame_refl | unfold configuration_frame; reflexivity].
Qed.

Lemma useConfig_planner_frame cfg c :
  post (useConfig_planner cfg) c (fun _ c' => configuration_frame c c') no_fault.
Proof.
  unfold useConfig_planner.
  post_run; first [apply configuration_frame_refl | unfold configuration_frame; reflexivity].
Qed.

(** useConfig changes the velocity limit, the planner allocator of the
    simple setup, the history of calls and the console, and nothing else. *)
Lemma useConfig_frame config c :
  post (useConfig config) c (fun _ c' => configuration_frame c c') no_fault.
Proof.
  unfold useConfig.
  destruct (bool_decide (config = ∅)); [apply post_ret, configuration_frame_refl |].
  apply post_bind.
  eapply post_mono; [apply useConfig_projection_evaluator_frame | | tauto].
  intros cfg1 c1 H1. simpl. apply post_bind.
  eapply post_mono; [apply useConfig_max_velocity_frame | | tauto].
  intros cfg2 c2 H2. simpl. apply post_bind.
  eapply post_mono; [apply useConfig_max_acceleration_frame | | tauto].
  intros cfg3 c3 H3. simpl.
  pose proof (configuration_frame_trans _ _ _ (configuration_frame_trans _ _ _ H1 H2) H3)
    as H.
  destruct (bool_decide (cfg3 = ∅)); [apply post_ret, H |].
  eapply post_mono; [apply useConfig_planner_frame | | tauto].
  intros [] c4 H4. simpl. exact (configuration_frame_trans _ _ _ H H4).
Qed.

(** The keys that useConfig handles itself are not among the parameters of
    the planner; every other key is, with its value. *)
Lemma planner_parameters_lookup config (k : string) :
  planner_parameters config !! k =
    if bool_decide (k ∈ ["projection_evaluator"; "max_velocity"; "max_acceleration"; "type"])
    then None else config !! k.
Proof.
  unfold planner_parameters, residual.
  destruct (bool_decide (k ∈ ["projection_evaluator"; "max_velocity";
                              "max_acceleration"; "type"])) eqn:Hk.
  - apply bool_decide_eq_true in Hk.
    repeat (apply elem_of_cons in Hk as [-> | Hk]);
      [| | | | by apply elem_of_nil in Hk];
      rewrite ?lookup_delete_eq; try reflexivity;
      repeat (rewrite lookup_delete_ne by done; rewrite ?lookup_delete_eq);
      reflexivity.
  - apply bool_decide_eq_false in Hk.
    rewrite !lookup_delete_ne; [reflexivity | | | |];
      intros <-; apply Hk; set_solver.
Qed.

(** Extra X1.  For a configuration map with the key [type], whatever its
    other keys hold (values that do not parse included), useConfig returns
    with the planner allocator bound to the allocator of the specification,
    the value of [type], and the parameters of the planner: the entries of
    the map other than [projection_evaluator], [max_velocity],
    [max_acceleration] and [type], with their values. *)
Theorem useConfig_with_type config c (type : string) :
  config !! "type" = Some type ->
  exists c',
    useConfig config c = Returns (tt, c') /\
    simple_setup_planner_allocator c' =
      Some {| bound_allocator := spec_planner_allocator_ c;
              bound_type := type;
              bound_config := planner_parameters config |} /\
    forall k : string,
      planner_parameters config !! k =
        if bool_decide (k ∈ ["projection_evaluator"; "max_velocity";
                             "max_acceleration"; "type"])
        then None else config !! k.
Proof.
  intros Htype. apply post_returns_unit.
  eapply post_mono; [apply useConfig_effects | | tauto].
  intros _ c' (_ & Halloc). rewrite Htype in Halloc.
  split; [exact Halloc | apply planner_parameters_lookup].
Qed.

(** Extra X2.  The calls useConfig makes on OMPL, for every map: the
    registration of the projection evaluator (when the key is there, the
    state space is set and the evaluator is found), then, exactly when an
    entry is left once [projection_evaluator], [max_velocity] and
    [max_acceleration] are erased, the setup of the space information
    followed by setParams with the parameters of the planner.  A map with
    only those three keys, or an empty map, reaches neither setup nor
    setParams. *)
Theorem useConfig_calls config c :
  exists c',
    useConfig config c = Returns (tt, c') /\
    ompl_calls c' =
      ompl_calls c ++ projection_calls config c ++
      (if bool_decide (residual config = ∅) then []
       else [SpaceInformation_setup;
             SpaceInformation_setParams (planner_parameters config) true]).
Proof.
  apply post_returns_unit.
  eapply post_mono; [apply useConfig_effects | | tauto].
  intros _ c' (Hcalls & _). exact Hcalls.
Qed.

(** Extra X3.  A [max_velocity] whose trimmed value parses sets
    [max_velocity_] to the parsed value and leaves [max_acceleration_], when
    the map has no [max_acceleration] or one that does not parse. *)
Theorem useConfig_max_velocity_sets config c (v : string) (x : double) :
  config !! "max_velocity" = Some v ->
  lexical_cast_double (BoostString.trim_copy v) = Some x ->
  match config !! "max_acceleration" with
  | Some a => lexical_cast_double (BoostString.trim_copy a) = None
  | None => True
  end ->
  exists c',
    useConfig config c = Returns (tt, c') /\
    max_velocity_ c' = x /\
    max_acceleration_ c' = max_acceleration_ c.
Proof.
  intros Hvel Hparse Hacc. apply post_returns_unit.
  eapply post_mono; [apply useConfig_spec | | tauto].
  intros _ c' (Ha & Hv & _). split; [| exact Ha].
  rewrite Hv. unfold velocity_after. rewrite Hvel, Hparse.
  destruct (config !! "max_acceleration") as [a |]; [rewrite Hacc |]; reflexivity.
Qed.

(** Extra X4.  useConfig always returns, and it changes four things only:
    the velocity limit, the planner allocator of the simple setup, the
    history of the calls on OMPL and the console.  The acceleration limit,
    the configuration of the specification, the goal, the constraints, the
    scene and the start state are as before, whatever the keys. *)
Theorem useConfig_changes_velocity_allocator_calls_console config c :
  exists c',
    useConfig config c = Returns (tt, c') /\
    c' = set_ros_log (ros_log c')
           (set_ompl_calls (ompl_calls c')
              (set_simple_setup_planner_allocator (simple_setup_planner_allocator c')
                 (set_max_velocity_ (max_velocity_ c') c))).
Proof.
  apply post_returns_unit. apply useConfig_frame.
Qed.

End ConfigurationEffects.
(** ** What setPlanningConstraints stores *)

Section GoalEffects.

Context `{FT : ForeignTypes} `{CO : !Collaborators}.

Implicit Types (c : ModelBasedPlanningContext).

(** The goal that constructGoal makes of the regions (lines 249-255). *)
Lemma constructGoal_regions c space scene g rest :
  ompl_state_space_ c = Some space ->
  planning_scene_ c = Some scene ->
  map (region space scene) (goal_constraints_ c) = g :: rest ->
  constructGoal c =
    Returns (Some (match rest with
                   | [] => g
                   | _ => GoalSampleableRegionMux (g :: rest)
                   end), c).
Proof.
  intros Hspace Hscene Hregions.
  unfold constructGoal, bind, gets.
  rewrite (constructGoal_loop_spec _ _ _ _ _ Hspace Hscene). simpl.
  rewrite Hregions. destruct rest; reflexivity.
Qed.

(** With a scene and a state space, and a constraint set to store, the call
    succeeds. *)
Lemma setPlanningConstraints_stores (goal_constraints : list Constraints)
    (path_constraints : Constraints) error c space scene kset rest :
  ompl_state_space_ c = Some space ->
  planning_scene_ c = Some scene ->
  stored_sets scene path_constraints goal_constraints = kset :: rest ->
  setPlanningConstraints goal_constraints path_constraints error c =
    Returns
      ((true, error),
       set_simple_setup_goal
         (Some (match rest with
                | [] => region space scene kset
                | _ => GoalSampleableRegionMux (map (region space scene) (kset :: rest))
                end))
         (set_path_constraints_
            (Some (KinematicConstraintSet_add path_constraints
                     (new_KinematicConstraintSet scene)))
            (set_goal_constraints_ (kset :: rest) c))).
Proof.
  intros Hspace Hscene Hstored.
  unfold setPlanningConstraints, bind at 1, modify at 1.
  unfold bind at 1.
  rewrite (setPlanningConstraints_loop _ _ (set_goal_constraints_ [] c) scene)
    by exact Hscene.
  simpl. rewrite Hstored. unfold bind at 1, gets at 1. simpl.
  unfold bind at 1, deref at 1. simpl. rewrite Hscene.
  unfold bind at 1, modify at 1. unfold bind at 1.
  rewrite (constructGoal_regions _ space scene (region space scene kset)
             (map (region space scene) rest)) by (simpl; auto).
  unfold bind, modify, ret.
  destruct rest; reflexivity.
Qed.

(** With a scene and no constraint set to store, the call fails. *)
Lemma setPlanningConstraints_rejects (goal_constraints : list Constraints)
    (path_constraints : Constraints) error c scene :
  planning_scene_ c = Some scene ->
  stored_sets scene path_constraints goal_constraints = [] ->
  exists r c',
    setPlanningConstraints goal_constraints path_constraints error c = Returns (r, c').
Proof.
  intros Hscene Hstored.
  unfold setPlanningConstraints, bind at 1, modify at 1.
  unfold bind at 1.
  rewrite (setPlanningConstraints_loop _ _ (set_goal_constraints_ [] c) scene)
    by exact Hscene.
  simpl. rewrite Hstored. eexists _, _. reflexivity.
Qed.

Lemma setPlanningConstraints_null_state_space (goal_constraints : list Constraints)
    (path_constraints : Constraints) error c scene :
  planning_scene_ c = Some scene ->
  ompl_state_space_ c = None ->
  stored_sets scene path_constraints goal_constraints <> [] ->
  setPlanningConstraints goal_constraints path_constraints error c =
    Undefined NullDereference.
Proof.
  intros Hscene Hspace Hstored.
  unfold setPlanningConstraints, bind at 1, modify at 1.
  unfold bind at 1.
  rewrite (setPlanningConstraints_loop _ _ (set_goal_constraints_ [] c) scene)
    by exact Hscene.
  simpl.
  destruct (stored_sets scene path_constraints goal_constraints) as [| kset rest];
    [congruence |].
  unfold bind at 1, gets at 1. simpl.
  unfold bind at 1, deref at 1. simpl. rewrite Hscene.
  unfold bind at 1, modify at 1. unfold bind at 1.
  unfold constructGoal, bind, gets.
  rewrite constructGoal_loop_null;
    [reflexivity | simpl; discriminate | left; exact Hspace].
Qed.

(** Extra X5.  With a state space and a scene, and at least one goal
    constraint that, merged with the path constraints, gives a constraint
    set that is not empty, setPlanningConstraints returns true and leaves
    the error code alone.  It stores those constraint sets, in the order of
    the goal constraints and in place of whatever was stored; it stores the
    constraint set of the path constraints, empty or not; and it makes the
    goal of the problem: the region of the one constraint set, or the
    composite of the regions of all, in order.  It changes no other member,
    makes no call on OMPL and writes nothing on the console. *)
Theorem setPlanningConstraints_success (goal_constraints : list Constraints)
    (path_constraints : Constraints) error c space scene :
  ompl_state_space_ c = Some space ->
  planning_scene_ c = Some scene ->
  let stored := stored_sets scene path_constraints goal_constraints in
  let regions := map (region space scene) stored in
  stored <> [] ->
  setPlanningConstraints goal_constraints path_constraints error c =
    Returns
      ((true, error),
       set_simple_setup_goal
         (Some (match regions with
                | [g] => g
                | _ => GoalSampleableRegionMux regions
                end))
         (set_path_constraints_
            (Some (KinematicConstraintSet_add path_constraints
                     (new_KinematicConstraintSet scene)))
            (set_goal_constraints_ stored c))).
Proof.
  intros Hspace Hscene stored regions Hstored. subst regions.
  destruct stored as [| kset rest] eqn:Heq; [congruence |].
  rewrite (setPlanningConstraints_stores _ _ error c space scene kset rest Hspace Hscene Heq).
  destruct rest; reflexivity.
Qed.

(** Extra X6.  The one fault of setPlanningConstraints is a null pointer,
    and it is dereferenced in two cases only: there is a goal constraint and
    no scene (line 289), or there is a scene and a constraint set to store
    but no state space (line 243, in constructGoal).  In particular the call
    returns without a scene when it is given no goal constraint. *)
Theorem setPlanningConstraints_null_dereference (goal_constraints : list Constraints)
    (path_constraints : Constraints) error c :
  (setPlanningConstraints goal_constraints path_constraints error c =
     Undefined NullDereference <->
   (planning_scene_ c = None /\ goal_constraints <> []) \/
   (exists scene, planning_scene_ c = Some scene /\
                  ompl_state_space_ c = None /\
                  stored_sets scene path_constraints goal_constraints <> [])) /\
  (forall f, setPlanningConstraints goal_constraints path_constraints error c =
               Undefined f -> f = NullDereference).
Proof.
  split.
  - split.
    + intros Hrun.
      destruct (planning_scene_ c) as [scene |] eqn:Hscene.
      * right. exists scene. split; [reflexivity |].
        destruct (stored_sets scene path_constraints goal_constraints)
          as [| kset rest] eqn:Hstored.
        -- destruct (setPlanningConstraints_rejects _ _ error c scene Hscene Hstored)
             as (r & c' & Hreturns).
           rewrite Hreturns in Hrun. discriminate Hrun.
        -- destruct (ompl_state_space_ c) as [space |] eqn:Hspace.
           ++ rewrite (setPlanningConstraints_stores _ _ error c space scene kset rest
                         Hspace Hscene Hstored) in Hrun.
              discriminate Hrun.
           ++ split; [reflexivity | discriminate].
      * left. split; [reflexivity |].
        intros ->. discriminate Hrun.
    + intros [[Hscene Hne] | (scene & Hscene & Hspace & Hstored)].
      * unfold setPlanningConstraints, bind at 1, modify at 1.
        unfold bind at 1.
        rewrite (setPlanningConstraints_loop_null _ _ (set_goal_constraints_ [] c));
          [reflexivity | exact Hscene | exact Hne].
      * apply (setPlanningConstraints_null_state_space _ _ _ _ scene); assumption.
  - intros f Hrun.
    exact (post_Undefined _ _ _ _ _
             (setPlanningConstraints_spec goal_constraints path_constraints error c) Hrun).
Qed.

End GoalEffects.

(** ** More on the solve orchestrator *)

Section SolveEffects.

Context `{FT : ForeignTypes} `{CO : !Collaborators}.

Implicit Types (c : ModelBasedPlanningContext) (calls new work : list ompl_call)
  (timeout : double) (count : Z).

Lemma solve_frame_refl c : solve_frame c c.
Proof. unfold solve_frame. destruct c; reflexivity. Qed.

Lemma solve_frame_trans c1 c2 c3 :
  solve_frame c1 c2 -> solve_frame c2 c3 -> solve_frame c1 c3.
Proof.
  unfold solve_frame. intros H12 H23. rewrite H23 at 1. rewrite H12 at 1. reflexivity.
Qed.

(** Lines 335-347, with the calls they make. *)
Lemma solve_prepare_calls c goal :
  simple_setup_goal c = Some goal ->
  solve_prepare c =
    Returns (hasType_GOAL_LAZY_SAMPLES goal,
             set_ompl_calls (ompl_calls c ++ prepare_calls c goal) c).
Proof.
  intros Hgoal.
  unfold solve_prepare, fixInvalidInputStates, when_, bind, deref, call, ask,
    call_returning, ret, prepare_calls, repair_calls, sampling_call.
  rewrite Hgoal. simpl.
  destruct (getPlanner (ompl_calls c ++ [Goal_clearSolutionPaths])); simpl;
    rewrite ?Hgoal; destruct (hasType_GOAL_LAZY_SAMPLES goal); simpl;
    rewrite <- ?app_assoc; simpl;
    match goal with
    | |- context [fixInvalidInputStates_returns ?h ?d ?d 100] =>
        destruct (fixInvalidInputStates_returns h d d 100) eqn:Hfixed
    end; simpl; rewrite <- ?app_assoc; simpl; reflexivity.
Qed.

(** The loop of lines 378-389, with the calls it makes: one block of calls
    for each round. *)
Lemma post_solve_full_rounds_calls n timeout (result : bool) c
    (Q : bool -> ModelBasedPlanningContext -> Prop) E :
  (forall results : list bool,
     length results = n ->
     Q (result && forallb id results)
       (set_ompl_calls
          (ompl_calls c ++
           flat_map (round_calls c (Z.to_nat (max_planning_threads_ c)) timeout
                       (max_planning_threads_ c)) results)
          c)) ->
  post (solve_full_rounds n timeout result) c Q E.
Proof.
  revert result c Q. induction n as [| n IH]; intros result c Q HQ.
  - simpl. apply post_ret.
    specialize (HQ [] eq_refl). simpl in HQ.
    rewrite app_nil_r, set_ompl_calls_same, andb_true_r in HQ. exact HQ.
  - simpl. apply post_bind, post_call, post_bind, post_gets. simpl.
    apply post_bind, post_addPlanners. simpl.
    rewrite planner_source_set_ompl_calls.
    unfold ParallelPlan_solve_. apply post_bind, post_call_returning. simpl.
    set (k := Z.to_nat (max_planning_threads_ c)).
    match goal with
    | |- context [ParallelPlan_solve _ _ _ _ ?b] => set (r := b)
    end.
    apply IH. intros results Hlength. simpl.
    rewrite !set_ompl_calls_twice.
    replace (((ompl_calls c ++ [ParallelPlan_clearPlanners]) ++
              replicate k (planner_source c)) ++
             [ParallelPlan_solve timeout 1 (max_planning_threads_ c) true r])
      with (ompl_calls c ++ round_calls c k timeout (max_planning_threads_ c) r)
      by (unfold round_calls; simpl; rewrite <- !app_assoc; reflexivity).
    rewrite <- app_assoc.
    specialize (HQ (r :: results)). simpl in HQ.
    rewrite andb_assoc in HQ. fold k in HQ.
    replace (flat_map
               (round_calls (set_ompl_calls
                               (ompl_calls c ++
                                round_calls c k timeout (max_planning_threads_ c) r) c)
                  k timeout (max_planning_threads_ c)) results)
      with (flat_map (round_calls c k timeout (max_planning_threads_ c)) results)
      by reflexivity.
    apply HQ. simpl. rewrite Hlength. reflexivity.
Qed.

(** The last round of lines 390-402, with the calls it makes. *)
Lemma post_solve_partial_round_calls (n : Z) timeout (result : bool) c
    (Q : bool -> ModelBasedPlanningContext -> Prop) E :
  (n = 0 -> Q result c) ->
  (n <> 0 ->
   forall r, Q (result && r)
               (set_ompl_calls (ompl_calls c ++ round_calls c (Z.to_nat n) timeout n r) c)) ->
  post (solve_partial_round n timeout result) c Q E.
Proof.
  intros Hzero Hround. unfold solve_partial_round. destruct (n =? 0) eqn:Hn.
  - apply post_ret, Hzero. apply Z.eqb_eq, Hn.
  - apply post_bind, post_call, post_bind, post_addPlanners. simpl.
    rewrite planner_source_set_ompl_calls.
    unfold ParallelPlan_solve_. apply post_bind, post_call_returning. simpl.
    apply post_ret.
    match goal with
    | |- context [ParallelPlan_solve _ _ _ _ ?b] => set (r := b)
    end.
    rewrite !set_ompl_calls_twice.
    replace (((ompl_calls c ++ [ParallelPlan_clearPlanners]) ++
              replicate (Z.to_nat n) (planner_source c)) ++
             [ParallelPlan_solve timeout 1 n true r])
      with (ompl_calls c ++ round_calls c (Z.to_nat n) timeout n r)
      by (unfold round_calls; simpl; rewrite <- !app_assoc; reflexivity).
    apply Hround. apply Z.eqb_neq, Hn.
Qed.

Lemma removelast_round c (n : nat) timeout (maxSolCount : Z) (r : bool) :
  removelast (ParallelPlan_clearHybridizationPaths ::
              round_calls c n timeout maxSolCount r) =
    ParallelPlan_clearHybridizationPaths :: ParallelPlan_clearPlanners ::
    replicate n (planner_source c).
Proof.
  unfold round_calls.
  change (ParallelPlan_clearHybridizationPaths ::
          ParallelPlan_clearPlanners ::
          replicate n (planner_source c) ++
          [ParallelPlan_solve timeout 1 maxSolCount true r])
    with ((ParallelPlan_clearHybridizationPaths :: ParallelPlan_clearPlanners ::
           replicate n (planner_source c)) ++
          [ParallelPlan_solve timeout 1 maxSolCount true r]).
  apply removelast_last.
Qed.

(** Lines 350-405: the calls of the dispatch, its result, the line it
    writes and the plan time it records. *)
Lemma post_solve_dispatch_work timeout count c
    (Q : bool -> ModelBasedPlanningContext -> Prop) :
  count <= 1 \/ max_planning_threads_ c <> 0 ->
  (forall work result c',
     ompl_calls c' = ompl_calls c ++ work ->
     dispatch_work c timeout count result work ->
     ros_log c' = ros_log c ++ [solving_line c count] ->
     last_plan_time_ c' = plan_time c count (ompl_calls c) work ->
     solve_frame c c' ->
     Q result c') ->
  post (solve_dispatch timeout count) c Q no_fault.
Proof.
  intros Hdefined HQ.
  unfold solve_dispatch, dispatch_work, plan_time, solving_line in *.
  destruct (count <=? 1) eqn:Hcount.
  - unfold solve_once.
    apply post_bind, post_gets, post_bind, post_ROS_LOG.
    apply post_bind, post_call_returning, post_bind, post_ask.
    apply post_bind, post_modify, post_ret. simpl.
    eapply HQ; simpl; try reflexivity.
  - apply post_bind, post_gets, post_bind, post_ROS_LOG, post_bind, post_call.
    apply post_bind, post_gets. simpl.
    destruct (count <=? max_planning_threads_ c) eqn:Hfits.
    + unfold solve_one_round, ParallelPlan_solve_.
      apply post_bind, post_call, post_bind, post_addPlanners, post_bind, post_ask.
      apply post_bind, post_call_returning, post_bind, post_ask.
      apply post_bind, post_modify, post_ret. simpl.
      rewrite !planner_source_set_ompl_calls.
      match goal with
      | |- context [ParallelPlan_solve _ _ _ _ ?b] => set (r := b)
      end.
      apply (HQ (ParallelPlan_clearHybridizationPaths ::
                 round_calls c (Z.to_nat count) timeout count r)).
      * simpl. unfold round_calls. simpl. rewrite <- !app_assoc. reflexivity.
      * reflexivity.
      * reflexivity.
      * rewrite removelast_round.
        unfold round_calls. simpl. rewrite <- !app_assoc. reflexivity.
      * unfold solve_frame. reflexivity.
    + apply Z.leb_gt in Hcount, Hfits.
      assert (Hthreads : max_planning_threads_ c <> 0) by (destruct Hdefined; lia).
      unfold solve_in_rounds, unsigned_div, unsigned_mod.
      apply post_bind, post_ask, post_bind, post_gets, post_bind. simpl.
      apply Z.eqb_neq in Hthreads. rewrite Hthreads.
      apply post_ret, post_bind, post_solve_full_rounds_calls.
      intros results Hlength. simpl.
      apply post_bind, post_ret, post_bind, post_solve_partial_round_calls.
      * intros Hn.
        apply post_bind, post_ask, post_bind, post_modify, post_ret. simpl.
        apply (HQ (ParallelPlan_clearHybridizationPaths ::
                   flat_map (round_calls c (Z.to_nat (max_planning_threads_ c)) timeout
                               (max_planning_threads_ c)) results ++ [])).
        -- simpl. rewrite app_nil_r, <- !app_assoc. reflexivity.
        -- exists results, []. split; [reflexivity |]. split; [exact Hlength |].
           simpl. rewrite Hn. simpl. split; reflexivity.
        -- reflexivity.
        -- simpl. rewrite app_nil_r, <- !app_assoc. reflexivity.
        -- unfold solve_frame. reflexivity.
      * intros Hn r.
        apply post_bind, post_ask, post_bind, post_modify, post_ret. simpl.
        rewrite !set_ompl_calls_twice.
        apply (HQ (ParallelPlan_clearHybridizationPaths ::
                   flat_map (round_calls c (Z.to_nat (max_planning_threads_ c)) timeout
                               (max_planning_threads_ c)) results ++
                   round_calls c (Z.to_nat (to_int (count mod max_planning_threads_ c)))
                     timeout (to_int (count mod max_planning_threads_ c)) r)).
        -- simpl. rewrite <- !app_assoc. reflexivity.
        -- eexists results, _. split; [reflexivity |]. split; [exact Hlength |].
           simpl. apply Z.eqb_neq in Hn. rewrite Hn.
           exists r. split; reflexivity.
        -- reflexivity.
        -- simpl. rewrite <- !app_assoc. reflexivity.
        -- unfold solve_frame. reflexivity.
Qed.

Lemma solve_frame_fields c c' :
  solve_frame c c' ->
  simple_setup_goal c' = simple_setup_goal c /\
  simple_setup_planner_allocator c' = simple_setup_planner_allocator c /\
  max_planning_threads_ c' = max_planning_threads_ c /\
  name_ c' = name_ c.
Proof. unfold solve_frame. intros H. rewrite H. simpl. auto. Qed.

(** Lines 407-414, with the calls and the console. *)
Lemma post_solve_finish_calls gls result c goal
    (Q : bool -> ModelBasedPlanningContext -> Prop) :
  simple_setup_goal c = Some goal ->
  (forall c',
     ompl_calls c' = ompl_calls c ++ sampling_call gls Goal_stopSampling ->
     ros_log c' =
       ros_log c ++
       (if isApproximate (ompl_calls c') then [(WARN, SolutionIsApproximate)] else []) ->
     last_plan_time_ c' = last_plan_time_ c ->
     solve_frame c c' ->
     Q result c') ->
  post (solve_finish gls result) c Q no_fault.
Proof.
  intros Hgoal HQ.
  unfold solve_finish, when_, sampling_call in *.
  destruct gls.
  - apply post_bind, post_call, post_bind, post_deref. simpl. rewrite Hgoal.
    apply post_bind, post_ask. simpl.
    destruct (isApproximate (ompl_calls c ++ [Goal_stopSampling])) eqn:Happroximate.
    + apply post_bind, post_ROS_LOG, post_ret.
      apply HQ; simpl; rewrite ?Happroximate; try reflexivity.
    + apply post_bind, post_ret, post_ret.
      apply HQ; simpl; rewrite ?Happroximate, ?app_nil_r; try reflexivity.
  - apply post_bind, post_ret, post_bind, post_deref. rewrite Hgoal.
    apply post_bind, post_ask.
    destruct (isApproximate (ompl_calls c)) eqn:Happroximate.
    + apply post_bind, post_ROS_LOG, post_ret.
      apply HQ; simpl; rewrite ?app_nil_r, ?Happroximate, ?app_nil_r; try reflexivity.
    + apply post_bind, post_ret, post_ret.
      apply HQ; simpl; rewrite ?app_nil_r, ?Happroximate, ?app_nil_r; try reflexivity.
      all: try apply solve_frame_refl.
Qed.

(** What a call of solve that returns does: its calls on OMPL, its result,
    the console, the plan time, and nothing else. *)
Lemma solve_effects timeout count c goal :
  simple_setup_goal c = Some goal ->
  count <= 1 \/ max_planning_threads_ c <> 0 ->
  exists result work c',
    solve timeout count c = Returns (result, c') /\
    ompl_calls c' =
      ompl_calls c ++ prepare_calls c goal ++ work ++
      sampling_call (hasType_GOAL_LAZY_SAMPLES goal) Goal_stopSampling /\
    dispatch_work c timeout count result work /\
    ros_log c' =
      ros_log c ++ solving_line c count ::
      (if isApproximate (ompl_calls c') then [(WARN, SolutionIsApproximate)] else []) /\
    last_plan_time_ c' = plan_time c count (ompl_calls c ++ prepare_calls c goal) work /\
    solve_frame c c'.
Proof.
  intros Hgoal Hdefined.
  cut (post (solve timeout count) c
         (fun result c' =>
            exists work,
              ompl_calls c' =
                ompl_calls c ++ prepare_calls c goal ++ work ++
                sampling_call (hasType_GOAL_LAZY_SAMPLES goal) Goal_stopSampling /\
              dispatch_work c timeout count result work /\
              ros_log c' =
                ros_log c ++ solving_line c count ::
                (if isApproximate (ompl_calls c')
                 then [(WARN, SolutionIsApproximate)] else []) /\
              last_plan_time_ c' =
                plan_time c count (ompl_calls c ++ prepare_calls c goal) work /\
              solve_frame c c')
         no_fault).
  { intros H. destruct (post_no_fault _ _ _ H) as (result & c' & Hrun & work & Hwork).
    exists result, work, c'. split; [exact Hrun | exact Hwork]. }
  unfold solve. apply post_bind.
  eapply post_of_Returns; [apply solve_prepare_calls, Hgoal |].
  set (c0 := set_ompl_calls (ompl_calls c ++ prepare_calls c goal) c).
  apply post_bind, post_solve_dispatch_work; [exact Hdefined |].
  intros work result c1 Hcalls Hwork Hlog Htime Hframe.
  destruct (solve_frame_fields _ _ Hframe) as (Hgoal1 & _).
  apply (post_solve_finish_calls _ _ c1 goal); [rewrite Hgoal1; exact Hgoal |].
  intros c' Hcalls' Hlog' Htime' Hframe'.
  exists work. split; [| split; [| split; [| split]]].
  - rewrite Hcalls', Hcalls.
    change (ompl_calls c0) with (ompl_calls c ++ prepare_calls c goal).
    rewrite <- !app_assoc. reflexivity.
  - exact Hwork.
  - rewrite Hlog', Hlog.
    change (ros_log c0) with (ros_log c).
    change (solving_line c0 count) with (solving_line c count).
    rewrite <- app_assoc. reflexivity.
  - rewrite Htime', Htime. reflexivity.
  - apply (solve_frame_trans c c1 c'); [| exact Hframe'].
    apply (solve_frame_trans c c0 c1); [| exact Hframe].
    unfold solve_frame, c0. destruct c; reflexivity.
Qed.

Lemma Forall_round_calls (P : ompl_call -> Prop) c n timeout maxSolCount r :
  P ParallelPlan_clearPlanners -> P (planner_source c) ->
  P (ParallelPlan_solve timeout 1 maxSolCount true r) ->
  Forall P (round_calls c n timeout maxSolCount r).
Proof.
  intros Hclear Hsource Hsolve. unfold round_calls.
  apply Forall_cons. split; [exact Hclear |].
  apply Forall_app. split.
  - induction n as [| n IH]; simpl; [apply Forall_nil; exact I |].
    apply Forall_cons. split; [exact Hsource | exact IH].
  - apply Forall_cons. split; [exact Hsolve | apply Forall_nil; exact I].
Qed.

Lemma Forall_rounds (P : ompl_call -> Prop) c n timeout maxSolCount results :
  P ParallelPlan_clearPlanners -> P (planner_source c) ->
  (forall r, P (ParallelPlan_solve timeout 1 maxSolCount true r)) ->
  Forall P (flat_map (round_calls c n timeout maxSolCount) results).
Proof.
  intros Hclear Hsource Hsolve.
  induction results as [| r results IH]; [apply Forall_nil; exact I |].
  change (flat_map (round_calls c n timeout maxSolCount) (r :: results))
    with (round_calls c n timeout maxSolCount r ++
          flat_map (round_calls c n timeout maxSolCount) results).
  apply Forall_app. split; [| exact IH].
  apply Forall_round_calls; auto.
Qed.

(** The calls of the dispatch are of five kinds. *)
Lemma dispatch_work_Forall (P : ompl_call -> Prop) c timeout count result work :
  dispatch_work c timeout count result work ->
  (forall r, P (SimpleSetup_solve timeout r)) ->
  P ParallelPlan_clearHybridizationPaths ->
  P ParallelPlan_clearPlanners ->
  P (planner_source c) ->
  (forall n r, P (ParallelPlan_solve timeout 1 n true r)) ->
  Forall P work.
Proof.
  unfold dispatch_work. intros Hwork Honce Hhybrid Hclear Hsource Hsolve.
  destruct (count <=? 1); [| destruct (count <=? max_planning_threads_ c)].
  - rewrite Hwork. apply Forall_cons. split; [apply Honce | apply Forall_nil; exact I].
  - rewrite Hwork. apply Forall_cons. split; [exact Hhybrid |].
    apply Forall_round_calls; auto.
  - destruct Hwork as (results & last & -> & _ & Hlast).
    apply Forall_cons. split; [exact Hhybrid |].
    apply Forall_app. split; [apply Forall_rounds; auto |].
    simpl in Hlast.
    destruct (to_int (count mod max_planning_threads_ c) =? 0).
    + destruct Hlast as [-> _]. apply Forall_nil. exact I.
    + destruct Hlast as (r & -> & _). apply Forall_round_calls; auto.
Qed.

Lemma Forall_sampling_call (P : ompl_call -> Prop) gls e :
  P e -> Forall P (sampling_call gls e).
Proof.
  intros He. unfold sampling_call. destruct gls.
  - apply Forall_cons. split; [exact He | apply Forall_nil; exact I].
  - apply Forall_nil. exact I.
Qed.

Lemma Forall_repair_calls (P : ompl_call -> Prop) h :
  (forall d1 d2 n r, P (ProblemDefinition_fixInvalidInputStates d1 d2 n r)) ->
  Forall P (repair_calls h).
Proof.
  intros HP. unfold repair_calls.
  destruct (fixInvalidInputStates_returns _ _ _ _);
    repeat (apply Forall_cons; split; [apply HP |]); apply Forall_nil; exact I.
Qed.

(** The calls of solve before the repair of the input states. *)
Lemma Forall_before_repair (P : ompl_call -> Prop) (planner : bool) gls :
  P Goal_clearSolutionPaths -> P Planner_clear -> P Goal_startSampling ->
  Forall P (Goal_clearSolutionPaths ::
            (if planner then [Planner_clear] else []) ++
            sampling_call gls Goal_startSampling).
Proof.
  intros Hclear Hplanner Hstart.
  apply Forall_cons. split; [exact Hclear |].
  apply Forall_app. split; [| apply Forall_sampling_call, Hstart].
  destruct planner; [apply Forall_cons; split; [exact Hplanner |] |];
    apply Forall_nil; exact I.
Qed.

Lemma Forall_prepare_calls (P : ompl_call -> Prop) c goal :
  P Goal_clearSolutionPaths -> P Planner_clear -> P Goal_startSampling ->
  (forall d1 d2 n r, P (ProblemDefinition_fixInvalidInputStates d1 d2 n r)) ->
  Forall P (prepare_calls c goal).
Proof.
  intros Hclear Hplanner Hstart Hrepair. unfold prepare_calls. lazy zeta.
  rewrite 2!app_assoc, <- (app_assoc [Goal_clearSolutionPaths]).
  apply Forall_app. split.
  - apply Forall_before_repair; assumption.
  - apply Forall_repair_calls, Hrepair.
Qed.

Lemma planners_added_app calls calls' :
  planners_added (calls ++ calls') = planners_added calls + planners_added calls'.
Proof.
  unfold planners_added. rewrite List.filter_app, length_app. lia.
Qed.

Lemma planners_added_none calls :
  Forall (fun e => is_planner_addition e = false) calls -> planners_added calls = 0.
Proof.
  unfold planners_added. induction 1 as [| e calls He _ IH]; simpl; [reflexivity |].
  rewrite He. exact IH.
Qed.

Lemma planner_source_is_addition c : is_planner_addition (planner_source c) = true.
Proof. unfold planner_source. destruct (simple_setup_planner_allocator c); reflexivity. Qed.

Lemma planners_added_round c n timeout maxSolCount r :
  planners_added (round_calls c n timeout maxSolCount r) = Z.of_nat n.
Proof.
  unfold round_calls.
  change (ParallelPlan_clearPlanners ::
          replicate n (planner_source c) ++
          [ParallelPlan_solve timeout 1 maxSolCount true r])
    with ([ParallelPlan_clearPlanners] ++
          replicate n (planner_source c) ++
          [ParallelPlan_solve timeout 1 maxSolCount true r]).
  rewrite !planners_added_app.
  change (planners_added [ParallelPlan_clearPlanners]) with 0.
  change (planners_added [ParallelPlan_solve timeout 1 maxSolCount true r]) with 0.
  assert (H : planners_added (replicate n (planner_source c)) = Z.of_nat n).
  { unfold planners_added. induction n as [| n IH]; simpl; [reflexivity |].
    rewrite planner_source_is_addition. simpl length. lia. }
  lia.
Qed.

Lemma planners_added_rounds c n timeout maxSolCount results :
  planners_added (flat_map (round_calls c n timeout maxSolCount) results) =
    Z.of_nat (length results) * Z.of_nat n.
Proof.
  induction results as [| r results IH]; [reflexivity |].
  change (flat_map (round_calls c n timeout maxSolCount) (r :: results))
    with (round_calls c n timeout maxSolCount r ++
          flat_map (round_calls c n timeout maxSolCount) results).
  rewrite planners_added_app, planners_added_round, IH. simpl length. lia.
Qed.


(** *** The calls of solve *)

(** Extra X7.  With a goal and at most one attempt, solve returns after
    exactly these calls on OMPL: the preparation (the solution paths of the
    goal cleared, the planner cleared when there is one, the sampling started
    for a lazily sampled goal, the input states repaired), one
    SimpleSetup::solve with the time limit of the call, whose answer is the
    result, and the stop of the sampling for a lazily sampled goal.  The
    parallel plan is not touched.  The plan time is the one that the simple
    setup reports after its solve. *)
Theorem solve_single_attempt timeout count c goal :
  simple_setup_goal c = Some goal ->
  count <= 1 ->
  exists result c',
    solve timeout count c = Returns (result, c') /\
    ompl_calls c' =
      ompl_calls c ++ prepare_calls c goal ++
      [SimpleSetup_solve timeout result] ++
      sampling_call (hasType_GOAL_LAZY_SAMPLES goal) Goal_stopSampling /\
    last_plan_time_ c' =
      getLastPlanComputationTime
        (ompl_calls c ++ prepare_calls c goal ++ [SimpleSetup_solve timeout result]).
Proof.
  intros Hgoal Hcount.
  destruct (solve_effects timeout count c goal Hgoal (or_introl Hcount))
    as (result & work & c' & Hrun & Hcalls & Hwork & _ & Htime & _).
  unfold dispatch_work in Hwork. unfold plan_time in Htime.
  apply Z.leb_le in Hcount. rewrite Hcount in Hwork, Htime. subst work.
  exists result, c'. split; [exact Hrun |]. split; [exact Hcalls |].
  rewrite Htime, <- app_assoc. reflexivity.
Qed.

(** Extra X8.  With a goal and more than one attempt, but no more than
    [max_planning_threads_], solve makes one round: it clears the
    hybridization paths and the pool of the parallel plan, adds [count]
    planners, and calls ParallelPlan::solve once, with the time limit of the
    call, at least one solution, at most [count] and hybridization; the
    answer of that call is the result.  The plan time is the time that this
    one call takes: the clock is read after the planners are added. *)
Theorem solve_single_round timeout count c goal :
  simple_setup_goal c = Some goal ->
  1 < count <= max_planning_threads_ c ->
  exists result c',
    solve timeout count c = Returns (result, c') /\
    let pool := ParallelPlan_clearHybridizationPaths :: ParallelPlan_clearPlanners ::
                replicate (Z.to_nat count) (planner_source c) in
    let solving := ParallelPlan_solve timeout 1 count true result in
    ompl_calls c' =
      ompl_calls c ++ prepare_calls c goal ++ pool ++ [solving] ++
      sampling_call (hasType_GOAL_LAZY_SAMPLES goal) Goal_stopSampling /\
    last_plan_time_ c' =
      Double.sub
        (time_now (ompl_calls c ++ prepare_calls c goal ++ pool ++ [solving]))
        (time_now (ompl_calls c ++ prepare_calls c goal ++ pool)).
Proof.
  intros Hgoal [Hcount Hfits].
  assert (Hdefined : count <= 1 \/ max_planning_threads_ c <> 0) by (right; lia).
  destruct (solve_effects timeout count c goal Hgoal Hdefined)
    as (result & work & c' & Hrun & Hcalls & Hwork & _ & Htime & _).
  unfold dispatch_work in Hwork. unfold plan_time in Htime.
  apply Z.leb_gt in Hcount. apply Z.leb_le in Hfits.
  simpl in Hwork. rewrite Hcount, Hfits in Hwork, Htime. subst work.
  rewrite removelast_round in Htime.
  exists result, c'. split; [exact Hrun |]. lazy zeta. split.
  - rewrite Hcalls. unfold round_calls.
    generalize (prepare_calls c goal). intros p.
    simpl. rewrite <- !app_assoc. reflexivity.
  - rewrite Htime. unfold round_calls.
    generalize (prepare_calls c goal). intros p.
    simpl. rewrite <- !app_assoc. reflexivity.
Qed.

(** Extra X9.  Every planner that solve adds to the pool of the parallel
    plan comes from the same source: the allocator that useConfig installed
    in the simple setup, when there is one, and otherwise the default
    planner for the goal. *)
Theorem solve_planner_source timeout count c goal :
  simple_setup_goal c = Some goal ->
  count <= 1 \/ max_planning_threads_ c <> 0 ->
  exists result c' new,
    solve timeout count c = Returns (result, c') /\
    ompl_calls c' = ompl_calls c ++ new /\
    forall e, In e new -> is_planner_addition e = true ->
      e = match simple_setup_planner_allocator c with
          | Some allocator => ParallelPlan_addPlannerAllocator allocator
          | None => ParallelPlan_addPlanner (Some goal)
          end.
Proof.
  intros Hgoal Hdefined.
  destruct (solve_effects timeout count c goal Hgoal Hdefined)
    as (result & work & c' & Hrun & Hcalls & Hwork & _).
  exists result, c', (prepare_calls c goal ++ work ++
                      sampling_call (hasType_GOAL_LAZY_SAMPLES goal) Goal_stopSampling).
  split; [exact Hrun |]. split; [exact Hcalls |].
  assert (Hsource : planner_source c =
                    match simple_setup_planner_allocator c with
                    | Some allocator => ParallelPlan_addPlannerAllocator allocator
                    | None => ParallelPlan_addPlanner (Some goal)
                    end)
    by (unfold planner_source; rewrite Hgoal; reflexivity).
  rewrite <- Hsource.
  refine (proj1 (List.Forall_forall (from_planner_source c) _) _).
  apply Forall_app. split; [| apply Forall_app; split].
  - apply Forall_prepare_calls; unfold from_planner_source; simpl;
      intros; discriminate.
  - apply (dispatch_work_Forall _ _ _ _ _ _ Hwork);
      unfold from_planner_source; simpl; intros; first [discriminate | reflexivity].
  - apply Forall_sampling_call. unfold from_planner_source. simpl. intros; discriminate.
Qed.

(** Extra X10.  With a goal, at least one planning thread and a number of
    attempts from 2 to INT_MAX, solve adds exactly [count] planners to the
    pool of the parallel plan, over all its rounds. *)
Theorem solve_adds_count_planners timeout count c goal :
  simple_setup_goal c = Some goal ->
  0 < max_planning_threads_ c ->
  1 < count <= INT_MAX ->
  exists result c' new,
    solve timeout count c = Returns (result, c') /\
    ompl_calls c' = ompl_calls c ++ new /\
    planners_added new = count.
Proof.
  intros Hgoal Hthreads [Hcount Hmax].
  assert (Hdefined : count <= 1 \/ max_planning_threads_ c <> 0) by (right; lia).
  destruct (solve_effects timeout count c goal Hgoal Hdefined)
    as (result & work & c' & Hrun & Hcalls & Hwork & _).
  exists result, c', (prepare_calls c goal ++ work ++
                      sampling_call (hasType_GOAL_LAZY_SAMPLES goal) Goal_stopSampling).
  split; [exact Hrun |]. split; [exact Hcalls |].
  rewrite !planners_added_app.
  rewrite (planners_added_none (prepare_calls c goal))
    by (apply Forall_prepare_calls; reflexivity).
  rewrite (planners_added_none (sampling_call _ _))
    by (apply Forall_sampling_call; reflexivity).
  unfold dispatch_work in Hwork. simpl in Hwork.
  apply Z.leb_gt in Hcount as Hcount'. rewrite Hcount' in Hwork.
  set (threads := max_planning_threads_ c) in *.
  destruct (count <=? threads) eqn:Hfits.
  - subst work.
    change (ParallelPlan_clearHybridizationPaths ::
            round_calls c (Z.to_nat count) timeout count result)
      with ([ParallelPlan_clearHybridizationPaths] ++
            round_calls c (Z.to_nat count) timeout count result).
    rewrite planners_added_app, planners_added_round.
    change (planners_added [ParallelPlan_clearHybridizationPaths]) with 0. lia.
  - apply Z.leb_gt in Hfits.
    destruct Hwork as (results & last & -> & Hlength & Hlast).
    assert (Hquotient : 0 <= count / threads <= count).
    { split; [apply Z.div_pos; lia |].
      apply Z.div_le_upper_bound; [lia |]. nia. }
    assert (Hremainder : 0 <= count mod threads < threads)
      by (apply Z.mod_pos_bound; lia).
    pose proof (Z.div_mod count threads ltac:(lia)) as Hdivision.
    rewrite to_int_in_range in Hlength by lia.
    rewrite to_int_in_range in Hlast by lia.
    change (ParallelPlan_clearHybridizationPaths ::
            flat_map (round_calls c (Z.to_nat threads) timeout threads) results ++ last)
      with ([ParallelPlan_clearHybridizationPaths] ++
            flat_map (round_calls c (Z.to_nat threads) timeout threads) results ++ last).
    rewrite !planners_added_app, planners_added_rounds, Hlength.
    change (planners_added [ParallelPlan_clearHybridizationPaths]) with 0.
    destruct (count mod threads =? 0) eqn:Hn.
    + destruct Hlast as [-> _]. apply Z.eqb_eq in Hn.
      change (planners_added []) with 0. nia.
    + destruct Hlast as (r & -> & _). rewrite planners_added_round. nia.
Qed.


(** Extra X12.  A call of solve that returns changes the plan time, the
    history of the calls on OMPL and the console, and no other member of
    the context: the goal, the planner allocator, the constraints, the
    configuration and the limits are those of before. *)
Theorem solve_changes_time_calls_console timeout count c goal :
  simple_setup_goal c = Some goal ->
  count <= 1 \/ max_planning_threads_ c <> 0 ->
  exists result c',
    solve timeout count c = Returns (result, c') /\
    c' = set_ros_log (ros_log c')
           (set_ompl_calls (ompl_calls c')
              (set_last_plan_time_ (last_plan_time_ c') c)).
Proof.
  intros Hgoal Hdefined.
  destruct (solve_effects timeout count c goal Hgoal Hdefined)
    as (result & work & c' & Hrun & _ & _ & _ & _ & Hframe).
  exists result, c'. split; [exact Hrun | exact Hframe].
Qed.

(** Extra X13.  A call of solve that returns writes one debug line on the
    console, which tells whether it solves once or [count] times, and
    after it a warning exactly when the problem definition reports, after
    the last call on OMPL, that the solution is approximate. *)
Theorem solve_console timeout count c goal :
  simple_setup_goal c = Some goal ->
  count <= 1 \/ max_planning_threads_ c <> 0 ->
  exists result c',
    solve timeout count c = Returns (result, c') /\
    ros_log c' =
      ros_log c ++
      (DEBUG, if count <=? 1 then SolvingOnce (name_ c)
              else SolvingTimes (name_ c) count) ::
      (if isApproximate (ompl_calls c') then [(WARN, SolutionIsApproximate)] else []).
Proof.
  intros Hgoal Hdefined.
  destruct (solve_effects timeout count c goal Hgoal Hdefined)
    as (result & work & c' & Hrun & _ & _ & Hlog & _).
  exists result, c'. split; [exact Hrun | exact Hlog].
Qed.

End SolveEffects.
(** ** The trajectory that convertPath writes *)

Section Trajectory.

Context `{FT : ForeignTypes} `{CO : !Collaborators} `{KI : !Kinematics}.

Implicit Types (c : ModelBasedPlanningContext) (traj : RobotTrajectory).

Lemma bind_Gives {A B} (m : Outcome A) (k : A -> Outcome B) (b : B) :
  m ≫= k = Gives b <-> exists a, m = Gives a /\ k a = Gives b.
Proof.
  destruct m as [a | f]; simpl; split.
  - intros H. exists a. split; [reflexivity | exact H].
  - intros (a' & Ha & H). injection Ha as <-. exact H.
  - discriminate.
  - intros (a' & Ha & _). discriminate Ha.
Qed.

Lemma mapM_Gives_cons {A B} (f : A -> Outcome B) (x : A) (l : list A) (ys : list B) :
  mapM f (x :: l) = Gives ys ->
  exists y ys', f x = Gives y /\ mapM f l = Gives ys' /\ ys = y :: ys'.
Proof.
  simpl. intros H.
  apply bind_Gives in H as (y & Hy & H).
  apply bind_Gives in H as (ys' & Hys' & H).
  injection H as <-. exists y, ys'. auto.
Qed.

Lemma mapM_Gives_length {A B} (f : A -> Outcome B) (l : list A) (ys : list B) :
  mapM f l = Gives ys -> length ys = length l.
Proof.
  revert ys. induction l as [| x l IH]; intros ys H.
  - injection H as <-. reflexivity.
  - apply mapM_Gives_cons in H as (y & ys' & _ & Hys' & ->).
    simpl. rewrite (IH ys' Hys'). reflexivity.
Qed.

(** The names that lines 185-197 push, and the partition of the joints. *)
Lemma convertPath_joints_spec (jnt : list JointModel) traj (onedof mdof : list JointModel) :
  convertPath_joints jnt traj onedof mdof =
    ({| joint_trajectory :=
          {| header_frame_id := header_frame_id (joint_trajectory traj);
             joint_names :=
               joint_names (joint_trajectory traj) ++ map JointModel_getName (one_dof jnt);
             points := points (joint_trajectory traj) |};
        multi_dof_joint_trajectory :=
          {| multi_dof_joint_names :=
               multi_dof_joint_names (multi_dof_joint_trajectory traj) ++
               map JointModel_getName (multi_dof jnt);
             frame_ids :=
               frame_ids (multi_dof_joint_trajectory traj) ++
               map (fun _ => header_frame_id (joint_trajectory traj)) (multi_dof jnt);
             child_frame_ids :=
               child_frame_ids (multi_dof_joint_trajectory traj) ++
               map getChildLinkModel_getName (multi_dof jnt);
             multi_dof_points := multi_dof_points (multi_dof_joint_trajectory traj) |} |},
     (onedof ++ one_dof jnt, mdof ++ multi_dof jnt)).
Proof.
  revert traj onedof mdof.
  induction jnt as [| joint rest IH]; intros traj onedof mdof.
  - simpl. rewrite !app_nil_r. destruct traj as [[] []]. reflexivity.
  - simpl. unfold one_dof, multi_dof, single_variable in *. simpl.
    destruct (getVariableCount joint =? 1); simpl; rewrite IH; simpl;
      rewrite <- !app_assoc; reflexivity.
Qed.

(** The loop of lines 210-211 writes the positions of the joints from the
    index [j] on. *)
Lemma convertPath_positions_spec ks (onedof : list JointModel) (j : nat)
    (v values : list double) :
  mapM (joint_position ks) onedof = Gives values ->
  length v = (j + length onedof)%nat ->
  convertPath_positions ks onedof j v = Gives (take j v ++ values).
Proof.
  revert j v values.
  induction onedof as [| joint rest IH]; intros j v values Hvalues Hlength.
  - injection Hvalues as <-. simpl in *.
    rewrite app_nil_r, take_ge by lia. reflexivity.
  - apply mapM_Gives_cons in Hvalues as (value & values' & Hvalue & Hvalues' & ->).
    simpl in *. rewrite Hvalue. simpl. unfold assign.
    rewrite decide_True by lia. simpl.
    rewrite (IH (S j) _ values' Hvalues') by (rewrite length_insert; lia).
    rewrite (take_S_r _ _ value) by (apply list_lookup_insert_eq; lia).
    rewrite take_insert_ge by lia.
    rewrite <- app_assoc. reflexivity.
Qed.

Lemma convertPath_poses_spec ks (mdof : list JointModel) (j : nat)
    (v values : list Pose) :
  mapM (joint_pose ks) mdof = Gives values ->
  length v = (j + length mdof)%nat ->
  convertPath_poses ks mdof j v = Gives (take j v ++ values).
Proof.
  revert j v values.
  induction mdof as [| joint rest IH]; intros j v values Hvalues Hlength.
  - injection Hvalues as <-. simpl in *.
    rewrite app_nil_r, take_ge by lia. reflexivity.
  - apply mapM_Gives_cons in Hvalues as (value & values' & Hvalue & Hvalues' & ->).
    simpl in *. rewrite Hvalue. simpl. unfold assign.
    rewrite decide_True by lia. simpl.
    rewrite (IH (S j) _ values' Hvalues') by (rewrite length_insert; lia).
    rewrite (take_S_r _ _ value) by (apply list_lookup_insert_eq; lia).
    rewrite take_insert_ge by lia.
    rewrite <- app_assoc. reflexivity.
Qed.

(** Lines 207-213 write the point of the waypoint [i]. *)
Lemma convertPath_point_spec (onedof : list JointModel) (times : list double)
    (i : nat) ks traj (values : list double) (t : double) :
  mapM (joint_position ks) onedof = Gives values ->
  times !! i = Some t ->
  (onedof <> [] -> (i < length (points (joint_trajectory traj)))%nat) ->
  convertPath_point onedof times i ks traj =
    Gives (if vector_empty onedof then traj
           else set_points
                  (<[i:=trajectory_point values t]> (points (joint_trajectory traj)))
                  traj).
Proof.
  intros Hvalues Ht Hlength. unfold convertPath_point.
  destruct (vector_empty onedof) eqn:Hempty; [reflexivity |].
  assert (Hi : (i < length (points (joint_trajectory traj)))%nat)
    by (apply Hlength; intros ->; discriminate Hempty).
  destruct (lookup_lt_is_Some_2 _ _ Hi) as [point Hpoint].
  unfold at_index. rewrite Hpoint, Ht. simpl.
  rewrite (convertPath_positions_spec _ _ 0 _ values Hvalues)
    by (rewrite length_resize; reflexivity).
  rewrite take_0. simpl. unfold assign. rewrite decide_True by exact Hi.
  reflexivity.
Qed.

(** Lines 214-223 write the multi-dof point of the waypoint [i]. *)
Lemma convertPath_multi_dof_point_spec (mdof : list JointModel) (times : list double)
    (i : nat) ks traj (values : list Pose) (t : double) :
  mapM (joint_pose ks) mdof = Gives values ->
  times !! i = Some t ->
  (mdof <> [] ->
   (i < length (multi_dof_points (multi_dof_joint_trajectory traj)))%nat) ->
  convertPath_multi_dof_point mdof times i ks traj =
    Gives (if vector_empty mdof then traj
           else set_multi_dof_points
                  (<[i:=multi_dof_trajectory_point values t]>
                     (multi_dof_points (multi_dof_joint_trajectory traj)))
                  traj).
Proof.
  intros Hvalues Ht Hlength. unfold convertPath_multi_dof_point.
  destruct (vector_empty mdof) eqn:Hempty; [reflexivity |].
  assert (Hi : (i < length (multi_dof_points (multi_dof_joint_trajectory traj)))%nat)
    by (apply Hlength; intros ->; discriminate Hempty).
  destruct (lookup_lt_is_Some_2 _ _ Hi) as [point Hpoint].
  unfold at_index. rewrite Hpoint, Ht. simpl.
  rewrite (convertPath_poses_spec _ _ 0 _ values Hvalues)
    by (rewrite length_resize; reflexivity).
  rewrite take_0. simpl. unfold assign. rewrite decide_True by exact Hi.
  reflexivity.
Qed.

(** Writing the element [i] of a vector whose elements from [S i] on are
    written next. *)
Lemma take_insert_drop {A} (l : list A) (i n : nat) (x : A) (rest : list A) :
  (i < length l)%nat ->
  take (S i) (<[i:=x]> l) ++ rest ++ drop (S i + n) (<[i:=x]> l) =
    take i l ++ x :: rest ++ drop (i + S n) l.
Proof.
  intros Hi.
  rewrite (take_S_r _ _ x) by (apply list_lookup_insert_eq; exact Hi).
  rewrite take_insert_ge by lia.
  rewrite drop_insert_lt by lia.
  rewrite <- app_assoc. simpl.
  replace (i + S n)%nat with (S (i + n)) by lia. reflexivity.
Qed.

(** The loop of lines 204-224: from the index [i] on, the points are those
    of the waypoints, made of the tables of positions and poses and of the
    times. *)
Lemma convertPath_states_spec c space (onedof mdof : list JointModel)
    (times : list double) (states : list State) :
  ompl_state_space_ c = Some space ->
  forall (i : nat) ks traj (ptable : list (list double)) (qtable : list (list Pose)),
    mapM (fun ks' => mapM (joint_position ks') onedof)
      (kinematic_states space ks states) = Gives ptable ->
    mapM (fun ks' => mapM (joint_pose ks') mdof)
      (kinematic_states space ks states) = Gives qtable ->
    (i + length states <= length times)%nat ->
    (onedof <> [] ->
     (i + length states <= length (points (joint_trajectory traj)))%nat) ->
    (mdof <> [] ->
     (i + length states <=
      length (multi_dof_points (multi_dof_joint_trajectory traj)))%nat) ->
    convertPath_states c onedof mdof times states i ks traj =
      Gives
        (set_multi_dof_points
           (let v := multi_dof_points (multi_dof_joint_trajectory traj) in
            if vector_empty mdof then v
            else take i v ++
                 zip_with multi_dof_trajectory_point qtable (drop i times) ++
                 drop (i + length states) v)
           (set_points
              (let v := points (joint_trajectory traj) in
               if vector_empty onedof then v
               else take i v ++
                    zip_with trajectory_point ptable (drop i times) ++
                    drop (i + length states) v)
              traj)).
Proof.
  intros Hspace.
  induction states as [| st rest IH];
    intros i ks traj ptable qtable Hptable Hqtable Htimes Hpoints Hmulti.
  - injection Hptable as <-. injection Hqtable as <-. simpl.
    rewrite Nat.add_0_r, !take_drop.
    destruct traj as [[] []]. destruct onedof, mdof; reflexivity.
  - cbn [kinematic_states] in Hptable, Hqtable.
    apply mapM_Gives_cons in Hptable as (values & ptable' & Hvalues & Hptable' & ->).
    apply mapM_Gives_cons in Hqtable as (mvalues & qtable' & Hmvalues & Hqtable' & ->).
    simpl in Htimes, Hpoints, Hmulti.
    assert (Hi : (i < length times)%nat) by lia.
    destruct (lookup_lt_is_Some_2 _ _ Hi) as [t Ht].
    simpl. rewrite Hspace. simpl.
    rewrite (convertPath_point_spec _ _ _ _ _ values t Hvalues Ht)
      by (intros Hne; specialize (Hpoints Hne); lia).
    simpl.
    rewrite (convertPath_multi_dof_point_spec _ _ _ _ _ mvalues t Hmvalues Ht)
      by (intros Hne; specialize (Hmulti Hne);
          destruct (vector_empty onedof); simpl; lia).
    simpl.
    rewrite (IH (S i) _ _ ptable' qtable' Hptable' Hqtable').
    + rewrite (drop_S _ _ _ Ht). simpl zip_with.
      assert (Hv : onedof <> [] -> (i < length (points (joint_trajectory traj)))%nat)
        by (intros Hne; specialize (Hpoints Hne); lia).
      assert (Hmv : mdof <> [] ->
                    (i < length (multi_dof_points (multi_dof_joint_trajectory traj)))%nat)
        by (intros Hne; specialize (Hmulti Hne); lia).
      clear - Hv Hmv.
      destruct traj as [[frame names v] [mnames frames children mv]].
      simpl in Hv, Hmv.
      destruct onedof as [| joint onedof], mdof as [| mjoint mdof]; simpl;
        rewrite <- ?(take_insert_drop v i (length rest) _ _)
          by (apply Hv; discriminate);
        rewrite <- ?(take_insert_drop mv i (length rest) _ _)
          by (apply Hmv; discriminate);
        reflexivity.
    + lia.
    + intros Hne. specialize (Hpoints Hne).
      destruct (vector_empty onedof), (vector_empty mdof); simpl;
        rewrite ?length_insert; lia.
    + intros Hne. specialize (Hmulti Hne).
      destruct (vector_empty onedof), (vector_empty mdof); simpl;
        rewrite ?length_insert; lia.
Qed.

(** The loop reads the state space of the context and nothing else of
    it. *)
Lemma convertPath_states_ext c1 c2 (onedof mdof : list JointModel)
    (times : list double) (states : list State) (i : nat) ks traj :
  ompl_state_space_ c1 = ompl_state_space_ c2 ->
  convertPath_states c1 onedof mdof times states i ks traj =
    convertPath_states c2 onedof mdof times states i ks traj.
Proof.
  intros Hspace. revert i ks traj.
  induction states as [| st rest IH]; intros i ks traj; [reflexivity |].
  simpl. rewrite Hspace.
  destruct (ompl_state_space_ c2) as [space |]; [| reflexivity]. simpl.
  destruct (convertPath_point _ _ _ _ _) as [traj1 | f]; [| reflexivity]. simpl.
  destruct (convertPath_multi_dof_point _ _ _ _ _) as [traj2 | f]; [| reflexivity].
  simpl. apply IH.
Qed.

(** convertPath reads five members of the context. *)
Lemma convertPath_ext c1 c2 (pg : PathGeometric) traj :
  complete_initial_robot_state_ c1 = complete_initial_robot_state_ c2 ->
  ompl_state_space_ c1 = ompl_state_space_ c2 ->
  planning_scene_ c1 = planning_scene_ c2 ->
  max_velocity_ c1 = max_velocity_ c2 ->
  max_acceleration_ c1 = max_acceleration_ c2 ->
  convertPath pg traj c1 = convertPath pg traj c2.
Proof.
  intros Hstate Hspace Hscene Hvelocity Hacceleration.
  destruct c1, c2. simpl in *. subst.
  unfold convertPath. simpl.
  match goal with
  | |- context [deref_pointer ?p ≫= _] => destruct p as [space |]; [| reflexivity]
  end.
  simpl.
  match goal with
  | |- context [deref_pointer ?p ≫= _] => destruct p as [scene |]; [| reflexivity]
  end.
  simpl.
  destruct (convertPath_joints _ _ _ _) as [traj1 [onedof mdof]].
  apply convertPath_states_ext. reflexivity.
Qed.

(** The message that convertPath leaves. *)
Lemma convertPath_spec (pg : PathGeometric) traj c space scene
    (ptable : list (list double)) (qtable : list (list Pose)) :
  ompl_state_space_ c = Some space ->
  planning_scene_ c = Some scene ->
  let jnt := getJointModels space in
  let states := PathGeometric_getStates pg in
  let times :=
    computeFastTimeParametrization pg (max_velocity_ c) (max_acceleration_ c) 50 in
  let waypoints := kinematic_states space (complete_initial_robot_state_ c) states in
  (length states <= length times)%nat ->
  mapM (fun ks => mapM (joint_position ks) (one_dof jnt)) waypoints = Gives ptable ->
  mapM (fun ks => mapM (joint_pose ks) (multi_dof jnt)) waypoints = Gives qtable ->
  convertPath pg traj c =
    Gives
      {| joint_trajectory :=
           {| header_frame_id := getPlanningFrame scene;
              joint_names :=
                joint_names (joint_trajectory traj) ++
                map JointModel_getName (one_dof jnt);
              points :=
                if vector_empty (one_dof jnt) then points (joint_trajectory traj)
                else zip_with trajectory_point ptable times |};
         multi_dof_joint_trajectory :=
           {| multi_dof_joint_names :=
                multi_dof_joint_names (multi_dof_joint_trajectory traj) ++
                map JointModel_getName (multi_dof jnt);
              frame_ids :=
                frame_ids (multi_dof_joint_trajectory traj) ++
                map (fun _ => getPlanningFrame scene) (multi_dof jnt);
              child_frame_ids :=
                child_frame_ids (multi_dof_joint_trajectory traj) ++
                map getChildLinkModel_getName (multi_dof jnt);
              multi_dof_points :=
                if vector_empty (multi_dof jnt)
                then multi_dof_points (multi_dof_joint_trajectory traj)
                else zip_with multi_dof_trajectory_point qtable times |} |}.
Proof.
  intros Hspace Hscene jnt states times waypoints Htimes Hptable Hqtable.
  unfold convertPath. rewrite Hspace, Hscene. simpl.
  rewrite convertPath_joints_spec. simpl. fold jnt states times.
  rewrite (convertPath_states_spec c space _ _ _ _ Hspace 0 _ _ ptable qtable
             Hptable Hqtable).
  - lazy zeta.
    destruct (vector_empty (one_dof jnt)), (vector_empty (multi_dof jnt)); simpl;
      rewrite ?drop_0; rewrite ?drop_ge by (rewrite length_resize; lia);
      rewrite ?app_nil_r; reflexivity.
  - simpl. exact Htimes.
  - intros Hne. destruct (vector_empty (one_dof jnt)) eqn:Hempty;
      [destruct (one_dof jnt); [congruence | discriminate Hempty] |].
    destruct (vector_empty (multi_dof jnt)); simpl; rewrite length_resize; lia.
  - intros Hne. destruct (vector_empty (multi_dof jnt)) eqn:Hempty;
      [destruct (multi_dof jnt); [congruence | discriminate Hempty] |].
    destruct (vector_empty (one_dof jnt)); simpl; rewrite length_resize; lia.
Qed.

(** Extra X14.  Let the context have a state space and a scene, let the time
    parametrization of the path give a time for every state, and let every
    joint of the group have a joint state (with a value, for a joint of one
    variable) in the kinematic state of every waypoint, so that the tables
    of positions and of poses exist.  Then convertPath returns, and
    getSolutionPath returns true when the path is the solution path of the
    simple setup, and the message is the following.  The frame of the scene
    is the frame of the header and of every joint of several variables.
    The names of the joints of one variable are appended, in the order of
    the group, to the joint names that the message had, and the names and
    child links of the other joints to the multi-dof ones: nothing is
    cleared.  When there is a joint of one variable the points are replaced:
    one point for each state, with the positions of those joints, in order,
    and the time of the state; likewise the multi-dof points with the poses.
    The kinematic state of a waypoint is that of the waypoint before with
    the state of the path copied over it, starting from the complete
    initial state; the times are computed from [max_velocity_] and
    [max_acceleration_] with 50 steps. *)
Theorem convertPath_trajectory (pg : PathGeometric) traj c space scene
    (ptable : list (list double)) (qtable : list (list Pose)) :
  ompl_state_space_ c = Some space ->
  planning_scene_ c = Some scene ->
  let jnt := getJointModels space in
  let states := PathGeometric_getStates pg in
  let times :=
    computeFastTimeParametrization pg (max_velocity_ c) (max_acceleration_ c) 50 in
  let waypoints := kinematic_states space (complete_initial_robot_state_ c) states in
  (length states <= length times)%nat ->
  mapM (fun ks => mapM (joint_position ks) (one_dof jnt)) waypoints = Gives ptable ->
  mapM (fun ks => mapM (joint_pose ks) (multi_dof jnt)) waypoints = Gives qtable ->
  let converted :=
    {| joint_trajectory :=
         {| header_frame_id := getPlanningFrame scene;
            joint_names :=
              joint_names (joint_trajectory traj) ++
              map JointModel_getName (one_dof jnt);
            points :=
              if vector_empty (one_dof jnt) then points (joint_trajectory traj)
              else zip_with trajectory_point ptable times |};
       multi_dof_joint_trajectory :=
         {| multi_dof_joint_names :=
              multi_dof_joint_names (multi_dof_joint_trajectory traj) ++
              map JointModel_getName (multi_dof jnt);
            frame_ids :=
              frame_ids (multi_dof_joint_trajectory traj) ++
              map (fun _ => getPlanningFrame scene) (multi_dof jnt);
            child_frame_ids :=
              child_frame_ids (multi_dof_joint_trajectory traj) ++
              map getChildLinkModel_getName (multi_dof jnt);
            multi_dof_points :=
              if vector_empty (multi_dof jnt)
              then multi_dof_points (multi_dof_joint_trajectory traj)
              else zip_with multi_dof_trajectory_point qtable times |} |} in
  convertPath pg traj c = Gives converted /\
  (getSolutionPath (ompl_calls c) = Some pg ->
   ModelBasedPlanningContext_getSolutionPath traj c = Gives (true, converted)).
Proof.
  intros Hspace Hscene jnt states times waypoints Htimes Hptable Hqtable converted.
  pose proof (convertPath_spec pg traj c space scene ptable qtable Hspace Hscene
                Htimes Hptable Hqtable) as Hconverted.
  split; [exact Hconverted |].
  intros Hsolution. unfold ModelBasedPlanningContext_getSolutionPath.
  rewrite Hsolution, Hconverted. reflexivity.
Qed.

(** Extra X15.  After useConfig, convertPath converts as in the context of
    before the call with one member changed, the velocity limit: it has the
    value of the key max_acceleration if that key is present and is a
    number, otherwise the value of the key max_velocity if that is, and
    otherwise the value of before.  So the acceleration limit that bounds
    the time parametrization of the trajectory is the one of before the
    call: no key of the configuration sets it. *)
Theorem convertPath_after_useConfig (config : gmap string string) c
    (pg : PathGeometric) traj :
  exists c',
    useConfig config c = Returns (tt, c') /\
    convertPath pg traj c' =
      convertPath pg traj (set_max_velocity_ (velocity_after config c) c).
Proof.
  destruct (post_returns_unit _ c _ (useConfig_frame config c)) as (c' & Hrun & Hframe).
  exists c'. split; [exact Hrun |].
  pose proof (post_Returns _ _ _ _ _ _ (useConfig_spec config c) Hrun)
    as (Hacceleration & Hvelocity & _).
  unfold configuration_frame in Hframe.
  apply convertPath_ext;
    first [exact Hvelocity | exact Hacceleration | rewrite Hframe; reflexivity].
Qed.

End Trajectory.
(** ** The claims on concrete inputs *)

Import Example.

(** Claim C1, at the failing input.  On the context left by the
    constructor, the map with the single key [max_acceleration] and the
    value 2.5 changes [max_velocity_] from 0 to 2.5 and leaves
    [max_acceleration_] at 0: the key does not set its own field, and it
    changes the field of the other key. *)
Theorem max_acceleration_key_assigns_max_velocity :
  let c := constructed ∅ in
  exists c',
    useConfig {[ "max_acceleration" := "2.5" ]} c = Returns (tt, c') /\
    lexical_cast_double "2.5" = Some (max_velocity_ c') /\
    max_velocity_ c = Double.zero /\ max_velocity_ c' <> Double.zero /\
    max_acceleration_ c = Double.zero /\ max_acceleration_ c' = Double.zero.
Proof.
  apply post_returns_unit. vm_compute.
  repeat split; discriminate.
Qed.

(** Claim C5 as stated fails: the map with the single key [max_velocity]
    has no key [type], and useConfig returns without any warning on the
    console. *)
Lemma useConfig_without_type_no_warning :
  let config : gmap string string := {[ "max_velocity" := "1.0" ]} in
  config !! "type" = None /\
  exists c',
    useConfig config (constructed ∅) = Returns (tt, c') /\
    simple_setup_planner_allocator c' = None /\
    existsb is_warning (ros_log c') = false.
Proof.
  split; [reflexivity |].
  apply post_returns_unit. vm_compute. split; reflexivity.
Qed.

(** Claim C5, amended, on a map with one planner parameter and no [type]:
    the warning is the last line of the console. *)
Lemma useConfig_without_type_witness :
  let config : gmap string string := {[ "planner_range" := "0.5" ]} in
  config !! "type" = None /\
  exists c' others,
    useConfig config (constructed ∅) = Returns (tt, c') /\
    simple_setup_planner_allocator c' = None /\
    ros_log c' = others ++ [(WARN, TypeNotSpecified "arm")] /\
    forallb (fun e => negb (is_type_warning e)) others = true.
Proof.
  split; [reflexivity |].
  exact (useConfig_without_type {[ "planner_range" := "0.5" ]} (constructed ∅) eq_refl).
Defined.

(** Claim C6, at the failing input.  The value of [max_velocity] does not
    parse: useConfig returns and reports the error, but the value of
    [max_acceleration], which parses, is then assigned to [max_velocity_]
    (line 123): [max_velocity_] goes from 0 to 2.5. *)
Theorem unparsable_max_velocity_then_max_acceleration :
  let config : gmap string string :=
    {[ "max_velocity" := "fast"; "max_acceleration" := "2.5" ]} in
  let c := constructed ∅ in
  exists c',
    useConfig config c = Returns (tt, c') /\
    lexical_cast_double "fast" = None /\
    In (ERROR, UnableToParseMaximumVelocity "arm") (ros_log c') /\
    max_velocity_ c = Double.zero /\
    lexical_cast_double "2.5" = Some (max_velocity_ c').
Proof.
  apply post_returns_unit. vm_compute.
  repeat split. left. reflexivity.
Qed.

(** Claim C2, at the failing input.  A context is constructed (the
    constructor sets [max_solution_segment_length_] to 0), given a scene and
    a goal, and solved once: a solution path exists.  interpolateSolution
    then divides the length of the path by zero; the quotient is +infinity
    and the conversion of line 174 to [std::size_t] is undefined: the call is
    neither without effect nor a defined error. *)
Theorem interpolateSolution_divides_by_zero :
  let history :=
    [call_setPlanningScene (Some tt);
     call_setPlanningConstraints [["tip at target"]] [] None;
     call_solve (Double.of_Z 1) 1] in
  let c := after history (constructed ∅) in
  perform_all history (constructed ∅) = Returns ([true; true; true], c) /\
  max_solution_segment_length_ c = Double.zero /\
  exists pg,
    getSolutionPath (ompl_calls c) = Some pg /\
    Double.div (PathGeometric_length pg) (max_solution_segment_length_ c) =
      S754_infinity false /\
    interpolateSolution c = Undefined ConversionOutOfRange.
Proof.
  lazy zeta.
  split; [vm_compute; reflexivity |]. split; [vm_compute; reflexivity |].
  exists [[]; []].
  split; [vm_compute; reflexivity |]. split; vm_compute; reflexivity.
Qed.

(** Claim C4 on a context that has a goal: two goal constraints that are
    empty once merged leave the path constraints and that goal in place. *)
Lemma setPlanningConstraints_without_goal_witness :
  let c := planned in
  Forall (normalizes_to_empty c []) [[]; []] /\
  has_goal c = true /\
  exists c',
    setPlanningConstraints [[]; []] [] (Some (OtherErrorCode 1)) c =
      Returns ((false, Some INVALID_GOAL_CONSTRAINTS), c') /\
    path_constraints_ c' = path_constraints_ c /\
    simple_setup_goal c' = simple_setup_goal c.
Proof.
  assert (H : Forall (normalizes_to_empty planned []) [[]; []]).
  { repeat constructor; exists tt; split; reflexivity. }
  split; [exact H |]. split; [reflexivity |].
  exact (setPlanningConstraints_without_goal
           [[]; []] [] (Some (OtherErrorCode 1)) planned H).
Defined.

(** Claim C7 on a context with two stored constraint sets: the goal is the
    composite of the two regions. *)
Lemma constructGoal_cases_witness :
  let c := planned in
  let regions := map (region tt tt) (goal_constraints_ c) in
  ompl_state_space_ c = Some tt /\ planning_scene_ c = Some tt /\
  length regions = 2%nat /\
  exists goal c',
    constructGoal c = Returns (goal, c') /\
    (regions = [] ->
     goal = None /\ In (ERROR, UnableToConstructGoal) (ros_log c')) /\
    (forall g, regions = [g] -> goal = Some g) /\
    ((1 < length regions)%nat ->
     goal = Some (GoalSampleableRegionMux regions) /\
     forall st, isSatisfied (GoalSampleableRegionMux regions) st = true <->
                exists g, In g regions /\ isSatisfied g st = true).
Proof.
  split; [reflexivity |]. split; [reflexivity |]. split; [reflexivity |].
  exact (constructGoal_cases planned tt tt eq_refl eq_refl).
Defined.

(** Claim C10 on a context with two stored constraint sets: a failing call
    empties the list. *)
Lemma setPlanningConstraints_failure_witness :
  let c := planned in
  let c' := after [call_setPlanningConstraints [[]] [] None] c in
  setPlanningConstraints [[]] [] None c = Returns ((false, None), c') /\
  goal_constraints_ c <> [] /\
  goal_constraints_ c' = [] /\
  path_constraints_ c' = path_constraints_ c /\
  simple_setup_goal c' = simple_setup_goal c.
Proof.
  assert (H : setPlanningConstraints [[]] [] None planned =
              Returns ((false, None),
                       after [call_setPlanningConstraints [[]] [] None] planned)).
  { vm_compute. reflexivity. }
  split; [exact H |]. split; [discriminate |].
  exact (setPlanningConstraints_failure [[]] [] None planned None _ H).
Defined.

(** The example of the spec: 5 attempts with 2 planning threads make the
    rounds of 2, 2 and 1 planners, and the result is the conjunction of
    their results (here the round of one planner fails). *)
Lemma solve_rounds_witness :
  let c := with_max_planning_threads 2 planned in
  let timeout := Double.of_Z 1 in
  exists result c' new,
    solve timeout 5 c = Returns (result, c') /\
    ompl_calls c' = ompl_calls c ++ new /\
    map round_size_and_timeout (rounds new) = [(2, timeout); (2, timeout); (1, timeout)] /\
    result = forallb round_result (rounds new).
Proof.
  refine (solve_rounds (Double.of_Z 1) 5 (with_max_planning_threads 2 planned) _
            eq_refl _ _); vm_compute; try split; congruence.
Defined.

(** The same call, with the results of the three rounds. *)
Example solve_five_attempts_two_threads :
  let c := with_max_planning_threads 2 planned in
  exists c',
    solve (Double.of_Z 1) 5 c = Returns (false, c') /\
    map round_planners (rounds (ompl_calls c')) = [2; 2; 1] /\
    map round_result (rounds (ompl_calls c')) = [true; true; false].
Proof.
  apply post_returns. vm_compute. repeat split.
Qed.

(** Claim C3, at the failing input.  [count = 2^31] is an [unsigned int]
    above [max_planning_threads_ = 1]; the claim asks for 2^31 rounds of one
    planner.  The quotient of line 376 is stored in an [int], where it is
    -2^31: the loop of line 378 makes no round, the remainder is zero, and
    solve returns true without a single round. *)
Theorem solve_makes_no_round_beyond_INT_MAX :
  let c := with_max_planning_threads 1 planned in
  let count := 2147483648 in
  is_unsigned_int count /\
  0 < max_planning_threads_ c < count /\
  count / max_planning_threads_ c = 2147483648 /\
  to_int (count / max_planning_threads_ c) = -2147483648 /\
  exists c',
    solve (Double.of_Z 1) count c = Returns (true, c') /\
    rounds (ompl_calls c') = [].
Proof.
  split; [unfold is_unsigned_int, UINT_MAX; lia |].
  split; [simpl; lia |]. split; [reflexivity |]. split; [reflexivity |].
  apply post_returns. vm_compute. split; reflexivity.
Qed.

(** Claim C8 on three attempts with two planning threads and a lazily
    sampled goal. *)
Lemma solve_brackets_sampling_witness :
  let c := with_max_planning_threads 2 planned_one_goal in
  let goal := ConstrainedGoalSampler ["tip at target"] ["tip at target"] in
  simple_setup_goal c = Some goal /\
  hasType_GOAL_LAZY_SAMPLES goal = true /\
  exists result c' before during,
    solve (Double.of_Z 1) 3 c = Returns (result, c') /\
    ompl_calls c' =
      ompl_calls c ++ before ++ [Goal_startSampling] ++ during ++ [Goal_stopSampling] /\
    forallb is_quiet before = true /\
    forallb (fun e => negb (is_sampling_call e)) during = true /\
    forall running, sampling_after running (ompl_calls c') = false.
Proof.
  split; [reflexivity |]. split; [reflexivity |].
  refine (proj1 (solve_brackets_sampling (Double.of_Z 1) 3
                   (with_max_planning_threads 2 planned_one_goal)
                   (ConstrainedGoalSampler ["tip at target"] ["tip at target"])
                   eq_refl eq_refl) _).
  right. discriminate.
Defined.

(** Claim C9 on a history that installs a goal, solves and clears: solve
    then dereferences a null pointer. *)
Lemma solve_dereferences_goal_witness :
  let c0 := constructed ∅ in
  let history :=
    [call_setPlanningScene (Some tt);
     call_setPlanningConstraints [["tip at target"]] [] None;
     call_solve (Double.of_Z 1) 1;
     call_clear] in
  let results := [true; true; true; true] in
  let c := after history c0 in
  simple_setup_goal c0 = None /\
  perform_all history c0 = Returns (results, c) /\
  (solve (Double.of_Z 1) 1 c = Undefined NullDereference <-> simple_setup_goal c = None) /\
  (simple_setup_goal c = None <-> goal_installed false history results = false) /\
  (exists c', clear c = Returns (tt, c') /\
              solve (Double.of_Z 1) 1 c' = Undefined NullDereference).
Proof.
  lazy zeta.
  split; [reflexivity |].
  assert (H : perform_all
                [call_setPlanningScene (Some tt);
                 call_setPlanningConstraints [["tip at target"]] [] None;
                 call_solve (Double.of_Z 1) 1;
                 call_clear] (constructed ∅) =
              Returns ([true; true; true; true],
                       after [call_setPlanningScene (Some tt);
                              call_setPlanningConstraints [["tip at target"]] [] None;
                              call_solve (Double.of_Z 1) 1;
                              call_clear] (constructed ∅))).
  { vm_compute. reflexivity. }
  split; [exact H |].
  exact (solve_dereferences_goal (constructed ∅) _ _ _ (Double.of_Z 1) 1 eq_refl H).
Defined.

(** ** The further properties on concrete inputs *)

(** Extra X1 on a map with a planner type, a planner parameter and a
    velocity limit. *)
Lemma useConfig_with_type_witness :
  let config : gmap string string :=
    {[ "type" := "RRTConnect"; "range" := "0.5"; "max_velocity" := "2" ]} in
  config !! "type" = Some "RRTConnect" /\
  exists c',
    useConfig config (constructed ∅) = Returns (tt, c') /\
    simple_setup_planner_allocator c' =
      Some {| bound_allocator := tt;
              bound_type := "RRTConnect";
              bound_config := planner_parameters config |} /\
    forall k : string,
      planner_parameters config !! k =
        if bool_decide (k ∈ ["projection_evaluator"; "max_velocity";
                             "max_acceleration"; "type"])
        then None else config !! k.
Proof.
  split; [reflexivity |].
  exact (useConfig_with_type
           {[ "type" := "RRTConnect"; "range" := "0.5"; "max_velocity" := "2" ]}
           (constructed ∅) "RRTConnect" eq_refl).
Defined.

(** Extra X3 on a velocity limit written with blanks around it. *)
Lemma useConfig_max_velocity_sets_witness :
  let config : gmap string string := {[ "max_velocity" := " 1.5 " ]} in
  let x := Double.div (Double.of_Z 15) (Double.of_Z 10) in
  config !! "max_velocity" = Some " 1.5 " /\
  lexical_cast_double (BoostString.trim_copy " 1.5 ") = Some x /\
  exists c',
    useConfig config (constructed ∅) = Returns (tt, c') /\
    max_velocity_ c' = x /\
    max_acceleration_ c' = max_acceleration_ (constructed ∅).
Proof.
  split; [reflexivity |]. split; [vm_compute; reflexivity |].
  refine (useConfig_max_velocity_sets {[ "max_velocity" := " 1.5 " ]} (constructed ∅)
            " 1.5 " (Double.div (Double.of_Z 15) (Double.of_Z 10)) eq_refl _ _).
  - vm_compute. reflexivity.
  - vm_compute. exact I.
Defined.

(** Extra X5 on two goal constraints with path constraints: the goal is the
    composite of two regions. *)
Lemma setPlanningConstraints_success_witness :
  let c := after [call_setPlanningScene (Some tt)] (constructed ∅) in
  let goal_constraints := [["tip at target"]; ["elbow up"]] in
  let path_constraints := ["upright"] in
  ompl_state_space_ c = Some tt /\
  planning_scene_ c = Some tt /\
  stored_sets tt path_constraints goal_constraints <> [] /\
  exists c',
    setPlanningConstraints goal_constraints path_constraints None c =
      Returns ((true, None), c') /\
    goal_constraints_ c' = [["tip at target"; "upright"]; ["elbow up"; "upright"]] /\
    path_constraints_ c' = Some ["upright"] /\
    simple_setup_goal c' =
      Some (GoalSampleableRegionMux
              [ConstrainedGoalSampler ["tip at target"; "upright"]
                                      ["tip at target"; "upright"];
               ConstrainedGoalSampler ["elbow up"; "upright"]
                                      ["elbow up"; "upright"]]).
Proof.
  lazy zeta.
  split; [reflexivity |]. split; [reflexivity |].
  split; [vm_compute; discriminate |].
  eexists. split.
  - refine (setPlanningConstraints_success
              [["tip at target"]; ["elbow up"]] ["upright"] None
              (after [call_setPlanningScene (Some tt)] (constructed ∅)) tt tt
              eq_refl eq_refl _).
    vm_compute. discriminate.
  - split; [reflexivity |]. split; reflexivity.
Defined.

(** Extra X7 on one attempt with a lazily sampled goal. *)
Lemma solve_single_attempt_witness :
  let c := planned_one_goal in
  let goal := ConstrainedGoalSampler ["tip at target"] ["tip at target"] in
  let timeout := Double.of_Z 1 in
  simple_setup_goal c = Some goal /\
  1 <= 1 /\
  exists result c',
    solve timeout 1 c = Returns (result, c') /\
    ompl_calls c' =
      ompl_calls c ++ prepare_calls c goal ++
      [SimpleSetup_solve timeout result] ++
      sampling_call (hasType_GOAL_LAZY_SAMPLES goal) Goal_stopSampling /\
    last_plan_time_ c' =
      getLastPlanComputationTime
        (ompl_calls c ++ prepare_calls c goal ++ [SimpleSetup_solve timeout result]).
Proof.
  split; [reflexivity |]. split; [lia |].
  refine (solve_single_attempt (Double.of_Z 1) 1 planned_one_goal
            (ConstrainedGoalSampler ["tip at target"] ["tip at target"]) eq_refl _).
  lia.
Defined.

(** Extra X8 on three attempts with four planning threads. *)
Lemma solve_single_round_witness :
  let c := with_max_planning_threads 4 planned_one_goal in
  let goal := ConstrainedGoalSampler ["tip at target"] ["tip at target"] in
  let timeout := Double.of_Z 1 in
  simple_setup_goal c = Some goal /\
  1 < 3 <= max_planning_threads_ c /\
  exists result c',
    solve timeout 3 c = Returns (result, c') /\
    let pool := ParallelPlan_clearHybridizationPaths :: ParallelPlan_clearPlanners ::
                replicate (Z.to_nat 3) (planner_source c) in
    let solving := ParallelPlan_solve timeout 1 3 true result in
    ompl_calls c' =
      ompl_calls c ++ prepare_calls c goal ++ pool ++ [solving] ++
      sampling_call (hasType_GOAL_LAZY_SAMPLES goal) Goal_stopSampling /\
    last_plan_time_ c' =
      Double.sub
        (time_now (ompl_calls c ++ prepare_calls c goal ++ pool ++ [solving]))
        (time_now (ompl_calls c ++ prepare_calls c goal ++ pool)).
Proof.
  split; [reflexivity |]. split; [simpl; lia |].
  refine (solve_single_round (Double.of_Z 1) 3
            (with_max_planning_threads 4 planned_one_goal)
            (ConstrainedGoalSampler ["tip at target"] ["tip at target"]) eq_refl _).
  simpl. lia.
Defined.

(** Extra X9 on five attempts with two planning threads and no planner
    allocator: every planner is the default planner for the goal. *)
Lemma solve_planner_source_witness :
  let c := with_max_planning_threads 2 planned_one_goal in
  let goal := ConstrainedGoalSampler ["tip at target"] ["tip at target"] in
  simple_setup_goal c = Some goal /\
  (5 <= 1 \/ max_planning_threads_ c <> 0) /\
  exists result c' new,
    solve (Double.of_Z 1) 5 c = Returns (result, c') /\
    ompl_calls c' = ompl_calls c ++ new /\
    forall e, In e new -> is_planner_addition e = true ->
      e = ParallelPlan_addPlanner (Some goal).
Proof.
  split; [reflexivity |]. split; [right; discriminate |].
  refine (solve_planner_source (Double.of_Z 1) 5
            (with_max_planning_threads 2 planned_one_goal)
            (ConstrainedGoalSampler ["tip at target"] ["tip at target"]) eq_refl _).
  right. discriminate.
Defined.

(** Extra X10 on five attempts with two planning threads. *)
Lemma solve_adds_count_planners_witness :
  let c := with_max_planning_threads 2 planned_one_goal in
  let goal := ConstrainedGoalSampler ["tip at target"] ["tip at target"] in
  simple_setup_goal c = Some goal /\
  0 < max_planning_threads_ c /\
  1 < 5 <= INT_MAX /\
  exists result c' new,
    solve (Double.of_Z 1) 5 c = Returns (result, c') /\
    ompl_calls c' = ompl_calls c ++ new /\
    planners_added new = 5.
Proof.
  split; [reflexivity |]. split; [simpl; lia |]. split; [unfold INT_MAX; lia |].
  refine (solve_adds_count_planners (Double.of_Z 1) 5
            (with_max_planning_threads 2 planned_one_goal)
            (ConstrainedGoalSampler ["tip at target"] ["tip at target"]) eq_refl _ _).
  - simpl. lia.
  - unfold INT_MAX. lia.
Defined.


(** Extra X12 on three attempts with two planning threads. *)
Lemma solve_changes_time_calls_console_witness :
  let c := with_max_planning_threads 2 planned in
  let goal :=
    GoalSampleableRegionMux
      [ConstrainedGoalSampler ["tip at target"; "upright"] ["tip at target"; "upright"];
       ConstrainedGoalSampler ["elbow up"; "upright"] ["elbow up"; "upright"]] in
  simple_setup_goal c = Some goal /\
  (3 <= 1 \/ max_planning_threads_ c <> 0) /\
  exists result c',
    solve (Double.of_Z 1) 3 c = Returns (result, c') /\
    c' = set_ros_log (ros_log c')
           (set_ompl_calls (ompl_calls c')
              (set_last_plan_time_ (last_plan_time_ c') c)).
Proof.
  split; [reflexivity |]. split; [right; discriminate |].
  refine (solve_changes_time_calls_console (Double.of_Z 1) 3
            (with_max_planning_threads 2 planned)
            (GoalSampleableRegionMux
               [ConstrainedGoalSampler ["tip at target"; "upright"]
                                       ["tip at target"; "upright"];
                ConstrainedGoalSampler ["elbow up"; "upright"]
                                       ["elbow up"; "upright"]])
            eq_refl _).
  right. discriminate.
Defined.

(** Extra X13 on three attempts with two planning threads. *)
Lemma solve_console_witness :
  let c := with_max_planning_threads 2 planned_one_goal in
  let goal := ConstrainedGoalSampler ["tip at target"] ["tip at target"] in
  simple_setup_goal c = Some goal /\
  (3 <= 1 \/ max_planning_threads_ c <> 0) /\
  exists result c',
    solve (Double.of_Z 1) 3 c = Returns (result, c') /\
    ros_log c' =
      ros_log c ++
      (DEBUG, SolvingTimes (name_ c) 3) ::
      (if isApproximate (ompl_calls c') then [(WARN, SolutionIsApproximate)] else []).
Proof.
  split; [reflexivity |]. split; [right; discriminate |].
  refine (solve_console (Double.of_Z 1) 3
            (with_max_planning_threads 2 planned_one_goal)
            (ConstrainedGoalSampler ["tip at target"] ["tip at target"]) eq_refl _).
  right. discriminate.
Defined.

Section Robot.

Import ExampleRobot.

(** Extra X14 on the arm: the path has two states and the message already
    names a joint.  The shoulder moves in the first state and keeps its
    value in the second, where the elbow and the base move. *)
Lemma convertPath_trajectory_witness :
  let space :=
    [("shoulder", 1, "upper_arm"); ("base", 3, "base_link"); ("elbow", 1, "forearm")] in
  let one := Double.of_Z 1 in
  let two := Double.of_Z 2 in
  let ptable := [[one; Double.zero]; [one; two]] in
  let qtable := [[[Double.zero; Double.zero; Double.zero]]; [[one; one; Double.of_Z 0]]] in
  let times := [Double.div (Double.of_Z 0) two; Double.div one two] in
  let converted :=
    {| joint_trajectory :=
         {| header_frame_id := "odom";
            joint_names := ["wrist"; "shoulder"; "elbow"];
            points := zip_with trajectory_point ptable times |};
       multi_dof_joint_trajectory :=
         {| multi_dof_joint_names := ["base"];
            frame_ids := ["odom"];
            child_frame_ids := ["base_link"];
            multi_dof_points := zip_with multi_dof_trajectory_point qtable times |} |} in
  ompl_state_space_ arm = Some space /\
  planning_scene_ arm = Some "odom" /\
  convertPath path message arm = Gives converted /\
  (getSolutionPath (ompl_calls arm) = Some path ->
   ModelBasedPlanningContext_getSolutionPath message arm = Gives (true, converted)).
Proof.
  lazy zeta. split; [reflexivity |]. split; [reflexivity |].
  refine (convertPath_trajectory path message arm
            [("shoulder", 1, "upper_arm"); ("base", 3, "base_link");
             ("elbow", 1, "forearm")]
            "odom"
            [[Double.of_Z 1; Double.zero]; [Double.of_Z 1; Double.of_Z 2]]
            [[[Double.zero; Double.zero; Double.zero]];
             [[Double.of_Z 1; Double.of_Z 1; Double.of_Z 0]]]
            eq_refl eq_refl _ _ _).
  - vm_compute. lia.
  - vm_compute. reflexivity.
  - vm_compute. reflexivity.
Defined.

End Robot.
